(** * DS3231 real-time-clock protocol decoder (sigrok [ds3231/pd.py])

    A shallow embedding of the decoder class of [src/ds3231/pd.py]: the
    session object is a record, every method is a function in a small
    state-and-exception monad, and the annotations handed to the output sink
    are collected, in order, in the [out] field of the session. *)

From Stdlib Require Import ZArith List String Ascii Bool Lia.
From Stdlib Require Import DecimalString HexadecimalString.
Import ListNotations.
Open Scope string_scope.
Open Scope Z_scope.

(** ** Python string formatting *)

(** ['%d' % n] *)
Definition fmt_d (n : Z) : string :=
  DecimalString.NilZero.string_of_int (Z.to_int n).

Fixpoint repeat_char (c : ascii) (n : nat) : string :=
  match n with
  | O => EmptyString
  | S n' => String c (repeat_char c n')
  end.

(** ['%02d' % n]: width 2, padded with a zero.  A negative number already
    fills the width with its sign. *)
Definition fmt_02d (n : Z) : string :=
  let s := fmt_d n in
  if (String.length s <? 2)%nat then "0" ++ s else s.

(** ['%4d' % n]: width 4, padded with spaces on the left. *)
Definition fmt_4d (n : Z) : string :=
  let s := fmt_d n in
  repeat_char " " (4 - String.length s) ++ s.

(** The hexadecimal digits of the library are lower case; ['%X'] prints
    upper case: the letters a to f (codes 97 to 102) move down by 32. *)
Definition upper_hex_digit (c : ascii) : ascii :=
  let n := nat_of_ascii c in
  if ((97 <=? n) && (n <=? 102))%nat then ascii_of_nat (n - 32) else c.

Fixpoint upper_hex (s : string) : string :=
  match s with
  | EmptyString => EmptyString
  | String c s' => String (upper_hex_digit c) (upper_hex s')
  end.

(** ['%02X' % n] *)
Definition fmt_02X (n : Z) : string :=
  let s := upper_hex (HexadecimalString.NilZero.string_of_int (Z.to_hex_int n)) in
  if (String.length s <? 2)%nat then "0" ++ s else s.

(** ['%.2f' % (theta / 4)].  The quotient of an integer by 4 is a multiple of
    0.25; such a double is exact (for [|theta| < 2^53], so for every value the
    decoder builds from two bytes) and so is its rendering with two
    decimals. *)
Definition fmt_2f_quarters (theta : Z) : string :=
  let a := Z.abs theta in
  (if theta <? 0 then "-" else "") ++ fmt_d (a / 4) ++ "." ++
  match a mod 4 with
  | 0 => "00"
  | 1 => "25"
  | 2 => "50"
  | _ => "75"
  end.

(** ** Exceptions and Python indexing *)

Inductive exn : Type :=
| IndexError
| KeyError
| AttributeError
| UnboundLocalError.

(** [t[i]] on a tuple or list: a negative index counts from the end. *)
Definition py_index {A : Type} (t : list A) (i : Z) : option A :=
  let n := Z.of_nat (List.length t) in
  if (0 <=? i) && (i <? n) then nth_error t (Z.to_nat i)
  else if (- n <=? i) && (i <? 0) then nth_error t (Z.to_nat (n + i))
  else None.

(** A value that is an [int] at one time and a [str] at another
    ([self.ampm] is [-1] after [reset] and a string afterwards). *)
Inductive pyval : Type :=
| PyInt (n : Z)
| PyStr (s : string).

(** ['%s' % v] *)
Definition fmt_s (v : pyval) : string :=
  match v with
  | PyInt n => fmt_d n
  | PyStr s => s
  end.

(** ** Static tables *)

Inductive fdw_option : Type := FdwMonday | FdwSunday | FdwSaturday.

Definition days_of_week (k : fdw_option) : list string :=
  match k with
  | FdwMonday =>
      ["Monday"; "Tuesday"; "Wednesday"; "Thursday"; "Friday"; "Saturday"; "Sunday"]
  | FdwSunday =>
      ["Sunday"; "Monday"; "Tuesday"; "Wednesday"; "Thursday"; "Friday"; "Saturday"]
  | FdwSaturday =>
      ["Saturday"; "Sunday"; "Monday"; "Tuesday"; "Wednesday"; "Thursday"; "Friday"]
  end.

(** used only for DS3231(SN), bits reserved for DS3231M (always 1Hz) *)
Definition rates (k : Z) : option string :=
  match k with
  | 0 => Some "1Hz"
  | 1 => Some "1024Hz"
  | 2 => Some "4096Hz"
  | 3 => Some "8192Hz"
  | _ => None
  end.

Definition DS3231_I2C_ADDRESS : Z := 0x68.

(** The annotation classes [Ann], in the order of [regs], [bits], [blocks]
    and the final [WARNING]. *)
Inductive Ann : Type :=
| REG_SECONDS | REG_MINUTES | REG_HOURS | REG_DAY | REG_DATE | REG_MONTH
| REG_YEAR | REG_ALARM1_SECONDS | REG_ALARM1_MINUTES | REG_ALARM1_HOURS
| REG_ALARM1_DAY_DATE | REG_ALARM2_MINUTES | REG_ALARM2_HOURS
| REG_ALARM2_DAY_DATE | REG_CONTROL | REG_CONTROL_STATUS | REG_AGING_OFFSET
| REG_TEMPERATURE_MSB | REG_TEMPERATURE_LSB
| BIT_SECONDS | BIT_RESERVED | BIT_MINUTES | BIT_12_24_HOURS | BIT_AM_PM
| BIT_HOURS | BIT_DAY | BIT_DATE | BIT_CENTURY | BIT_MONTH | BIT_YEAR
| BIT_DAY_DATE | BIT__EOSC | BIT_BBSQWE | BIT_CONV | BIT_RATE | BIT_INTCN
| BIT_A2IE | BIT_A1IE | BIT_RS1 | BIT_OSF | BIT_EN32KHZ | BIT_BSY | BIT_A2F
| BIT_A1F | BIT_A1M1 | BIT_A1M2 | BIT_A1M3 | BIT_A1M4 | BIT_A2M2 | BIT_A2M3
| BIT_A2M4 | BIT_TMSB | BIT_TLSB | BIT_AOFS
| BLOCK_DATE_TIME | BLOCK_ALARM1 | BLOCK_ALARM2 | BLOCK_TEMPERATURE
| WARNING.

(** [Ann] is an integer enumeration: the value of a class is its position
    in the list it is built from. *)
Definition Ann_value (a : Ann) : Z :=
  match a with
  | REG_SECONDS => 0 | REG_MINUTES => 1 | REG_HOURS => 2 | REG_DAY => 3
  | REG_DATE => 4 | REG_MONTH => 5 | REG_YEAR => 6 | REG_ALARM1_SECONDS => 7
  | REG_ALARM1_MINUTES => 8 | REG_ALARM1_HOURS => 9
  | REG_ALARM1_DAY_DATE => 10 | REG_ALARM2_MINUTES => 11
  | REG_ALARM2_HOURS => 12 | REG_ALARM2_DAY_DATE => 13 | REG_CONTROL => 14
  | REG_CONTROL_STATUS => 15 | REG_AGING_OFFSET => 16
  | REG_TEMPERATURE_MSB => 17 | REG_TEMPERATURE_LSB => 18 | BIT_SECONDS => 19
  | BIT_RESERVED => 20 | BIT_MINUTES => 21 | BIT_12_24_HOURS => 22
  | BIT_AM_PM => 23 | BIT_HOURS => 24 | BIT_DAY => 25 | BIT_DATE => 26
  | BIT_CENTURY => 27 | BIT_MONTH => 28 | BIT_YEAR => 29 | BIT_DAY_DATE => 30
  | BIT__EOSC => 31 | BIT_BBSQWE => 32 | BIT_CONV => 33 | BIT_RATE => 34
  | BIT_INTCN => 35 | BIT_A2IE => 36 | BIT_A1IE => 37 | BIT_RS1 => 38
  | BIT_OSF => 39 | BIT_EN32KHZ => 40 | BIT_BSY => 41 | BIT_A2F => 42
  | BIT_A1F => 43 | BIT_A1M1 => 44 | BIT_A1M2 => 45 | BIT_A1M3 => 46
  | BIT_A1M4 => 47 | BIT_A2M2 => 48 | BIT_A2M3 => 49 | BIT_A2M4 => 50
  | BIT_TMSB => 51 | BIT_TLSB => 52 | BIT_AOFS => 53 | BLOCK_DATE_TIME => 54
  | BLOCK_ALARM1 => 55 | BLOCK_ALARM2 => 56 | BLOCK_TEMPERATURE => 57
  | WARNING => 58
  end.

(** [annotation_rows]: the row an annotation class is displayed in. *)
Inductive row : Type := RowBits | RowRegs | RowBlockData | RowWarnings.

Definition ann_row (a : Ann) : row :=
  match a with
  | REG_SECONDS | REG_MINUTES | REG_HOURS | REG_DAY | REG_DATE | REG_MONTH
  | REG_YEAR | REG_ALARM1_SECONDS | REG_ALARM1_MINUTES | REG_ALARM1_HOURS
  | REG_ALARM1_DAY_DATE | REG_ALARM2_MINUTES | REG_ALARM2_HOURS
  | REG_ALARM2_DAY_DATE | REG_CONTROL | REG_CONTROL_STATUS | REG_AGING_OFFSET
  | REG_TEMPERATURE_MSB | REG_TEMPERATURE_LSB => RowRegs
  | BLOCK_DATE_TIME | BLOCK_ALARM1 | BLOCK_ALARM2 | BLOCK_TEMPERATURE =>
      RowBlockData
  | WARNING => RowWarnings
  | _ => RowBits
  end.

Definition is_block (a : Ann) : bool :=
  match ann_row a with RowBlockData => true | _ => false end.

Definition is_warning (a : Ann) : bool :=
  match a with WARNING => true | _ => false end.

(** ** Helper of the decoder library *)

(** Modelled from the spec: [bcd2int] of [common.srdhelper], imported by the
    decoder and not part of its file.  The low and the high nibble are two
    independent base-10 digits. *)
Definition bcd2int (b : Z) : Z :=
  (Z.shiftr b 4) * 10 + Z.land b 0x0F.

(** ** The session object *)

Inductive pstate : Type :=
| IDLE
| GET_SLAVE_ADDR
| GET_REG_ADDR
| WRITE_RTC_REGS
| READ_RTC_REGS.

(** One entry of a ['BITS'] packet: [[bit, ss, es]]. *)
Definition bitinfo : Type := (Z * Z * Z)%type.

Inductive subtype_option : Type := SN | M.

Record Options : Type := mkOptions {
  subtype : subtype_option;
  regptr : Z;
  fdw : fdw_option
}.

Definition default_options : Options := mkOptions SN 0 FdwMonday.

(** What [self.put(ss, es, self.out_ann, [cls, texts])] hands to the sink. *)
Record annotation : Type := mkAnnotation {
  a_ss : Z;
  a_es : Z;
  a_cls : Ann;
  a_texts : list string
}.

Record Decoder : Type := mkDecoder {
  state : pstate;
  bits : list bitinfo;
  seconds : Z;
  minutes : Z;
  ampm : pyval;
  hours : Z;
  days : Z;
  date : Z;
  months : Z;
  a1m1 : Z;
  al1seconds : Z;
  a1m2 : Z;
  al1minutes : Z;
  a1m3 : Z;
  a1ampm : pyval;
  al1hours : Z;
  a2m2 : Z;
  al2minutes : Z;
  a2m3 : Z;
  a2ampm : pyval;
  al2hours : Z;
  tempMSB : Z;
  startreg : Z;
  inblock : Z;
  blockmode : string;
  reg : Z;
  ss : Z;
  es : Z;
  options : Options;
  out : list annotation
}.

Definition set_state (v : pstate) (d : Decoder) : Decoder :=
  mkDecoder v (bits d) (seconds d) (minutes d) (ampm d) (hours d) (days d)
    (date d) (months d) (a1m1 d) (al1seconds d) (a1m2 d) (al1minutes d)
    (a1m3 d) (a1ampm d) (al1hours d) (a2m2 d) (al2minutes d) (a2m3 d)
    (a2ampm d) (al2hours d) (tempMSB d) (startreg d) (inblock d) (blockmode d)
    (reg d) (ss d) (es d) (options d) (out d).

Definition set_bits (v : list bitinfo) (d : Decoder) : Decoder :=
  mkDecoder (state d) v (seconds d) (minutes d) (ampm d) (hours d) (days d)
    (date d) (months d) (a1m1 d) (al1seconds d) (a1m2 d) (al1minutes d)
    (a1m3 d) (a1ampm d) (al1hours d) (a2m2 d) (al2minutes d) (a2m3 d)
    (a2ampm d) (al2hours d) (tempMSB d) (startreg d) (inblock d) (blockmode d)
    (reg d) (ss d) (es d) (options d) (out d).

Definition set_seconds (v : Z) (d : Decoder) : Decoder :=
  mkDecoder (state d) (bits d) v (minutes d) (ampm d) (hours d) (days d)
    (date d) (months d) (a1m1 d) (al1seconds d) (a1m2 d) (al1minutes d)
    (a1m3 d) (a1ampm d) (al1hours d) (a2m2 d) (al2minutes d) (a2m3 d)
    (a2ampm d) (al2hours d) (tempMSB d) (startreg d) (inblock d) (blockmode d)
    (reg d) (ss d) (es d) (options d) (out d).

Definition set_minutes (v : Z) (d : Decoder) : Decoder :=
  mkDecoder (state d) (bits d) (seconds d) v (ampm d) (hours d) (days d)
    (date d) (months d) (a1m1 d) (al1seconds d) (a1m2 d) (al1minutes d)
    (a1m3 d) (a1ampm d) (al1hours d) (a2m2 d) (al2minutes d) (a2m3 d)
    (a2ampm d) (al2hours d) (tempMSB d) (startreg d) (inblock d) (blockmode d)
    (reg d) (ss d) (es d) (options d) (out d).

Definition set_ampm (v : pyval) (d : Decoder) : Decoder :=
  mkDecoder (state d) (bits d) (seconds d) (minutes d) v (hours d) (days d)
    (date d) (months d) (a1m1 d) (al1seconds d) (a1m2 d) (al1minutes d)
    (a1m3 d) (a1ampm d) (al1hours d) (a2m2 d) (al2minutes d) (a2m3 d)
    (a2ampm d) (al2hours d) (tempMSB d) (startreg d) (inblock d) (blockmode d)
    (reg d) (ss d) (es d) (options d) (out d).

Definition set_hours (v : Z) (d : Decoder) : Decoder :=
  mkDecoder (state d) (bits d) (seconds d) (minutes d) (ampm d) v (days d)
    (date d) (months d) (a1m1 d) (al1seconds d) (a1m2 d) (al1minutes d)
    (a1m3 d) (a1ampm d) (al1hours d) (a2m2 d) (al2minutes d) (a2m3 d)
    (a2ampm d) (al2hours d) (tempMSB d) (startreg d) (inblock d) (blockmode d)
    (reg d) (ss d) (es d) (options d) (out d).

Definition set_days (v : Z) (d : Decoder) : Decoder :=
  mkDecoder (state d) (bits d) (seconds d) (minutes d) (ampm d) (hours d) v
    (date d) (months d) (a1m1 d) (al1seconds d) (a1m2 d) (al1minutes d)
    (a1m3 d) (a1ampm d) (al1hours d) (a2m2 d) (al2minutes d) (a2m3 d)
    (a2ampm d) (al2hours d) (tempMSB d) (startreg d) (inblock d) (blockmode d)
    (reg d) (ss d) (es d) (options d) (out d).

Definition set_date (v : Z) (d : Decoder) : Decoder :=
  mkDecoder (state d) (bits d) (seconds d) (minutes d) (ampm d) (hours d)
    (days d) v (months d) (a1m1 d) (al1seconds d) (a1m2 d) (al1minutes d)
    (a1m3 d) (a1ampm d) (al1hours d) (a2m2 d) (al2minutes d) (a2m3 d)
    (a2ampm d) (al2hours d) (tempMSB d) (startreg d) (inblock d) (blockmode d)
    (reg d) (ss d) (es d) (options d) (out d).

Definition set_months (v : Z) (d : Decoder) : Decoder :=
  mkDecoder (state d) (bits d) (seconds d) (minutes d) (ampm d) (hours d)
    (days d) (date d) v (a1m1 d) (al1seconds d) (a1m2 d) (al1minutes d)
    (a1m3 d) (a1ampm d) (al1hours d) (a2m2 d) (al2minutes d) (a2m3 d)
    (a2ampm d) (al2hours d) (tempMSB d) (startreg d) (inblock d) (blockmode d)
    (reg d) (ss d) (es d) (options d) (out d).

Definition set_a1m1 (v : Z) (d : Decoder) : Decoder :=
  mkDecoder (state d) (bits d) (seconds d) (minutes d) (ampm d) (hours d)
    (days d) (date d) (months d) v (al1seconds d) (a1m2 d) (al1minutes d)
    (a1m3 d) (a1ampm d) (al1hours d) (a2m2 d) (al2minutes d) (a2m3 d)
    (a2ampm d) (al2hours d) (tempMSB d) (startreg d) (inblock d) (blockmode d)
    (reg d) (ss d) (es d) (options d) (out d).

Definition set_al1seconds (v : Z) (d : Decoder) : Decoder :=
  mkDecoder (state d) (bits d) (seconds d) (minutes d) (ampm d) (hours d)
    (days d) (date d) (months d) (a1m1 d) v (a1m2 d) (al1minutes d) (a1m3 d)
    (a1ampm d) (al1hours d) (a2m2 d) (al2minutes d) (a2m3 d) (a2ampm d)
    (al2hours d) (tempMSB d) (startreg d) (inblock d) (blockmode d) (reg d)
    (ss d) (es d) (options d) (out d).

Definition set_a1m2 (v : Z) (d : Decoder) : Decoder :=
  mkDecoder (state d) (bits d) (seconds d) (minutes d) (ampm d) (hours d)
    (days d) (date d) (months d) (a1m1 d) (al1seconds d) v (al1minutes d)
    (a1m3 d) (a1ampm d) (al1hours d) (a2m2 d) (al2minutes d) (a2m3 d)
    (a2ampm d) (al2hours d) (tempMSB d) (startreg d) (inblock d) (blockmode d)
    (reg d) (ss d) (es d) (options d) (out d).

Definition set_al1minutes (v : Z) (d : Decoder) : Decoder :=
  mkDecoder (state d) (bits d) (seconds d) (minutes d) (ampm d) (hours d)
    (days d) (date d) (months d) (a1m1 d) (al1seconds d) (a1m2 d) v (a1m3 d)
    (a1ampm d) (al1hours d) (a2m2 d) (al2minutes d) (a2m3 d) (a2ampm d)
    (al2hours d) (tempMSB d) (startreg d) (inblock d) (blockmode d) (reg d)
    (ss d) (es d) (options d) (out d).

Definition set_a1m3 (v : Z) (d : Decoder) : Decoder :=
  mkDecoder (state d) (bits d) (seconds d) (minutes d) (ampm d) (hours d)
    (days d) (date d) (months d) (a1m1 d) (al1seconds d) (a1m2 d)
    (al1minutes d) v (a1ampm d) (al1hours d) (a2m2 d) (al2minutes d) (a2m3 d)
    (a2ampm d) (al2hours d) (tempMSB d) (startreg d) (inblock d) (blockmode d)
    (reg d) (ss d) (es d) (options d) (out d).

Definition set_a1ampm (v : pyval) (d : Decoder) : Decoder :=
  mkDecoder (state d) (bits d) (seconds d) (minutes d) (ampm d) (hours d)
    (days d) (date d) (months d) (a1m1 d) (al1seconds d) (a1m2 d)
    (al1minutes d) (a1m3 d) v (al1hours d) (a2m2 d) (al2minutes d) (a2m3 d)
    (a2ampm d) (al2hours d) (tempMSB d) (startreg d) (inblock d) (blockmode d)
    (reg d) (ss d) (es d) (options d) (out d).

Definition set_al1hours (v : Z) (d : Decoder) : Decoder :=
  mkDecoder (state d) (bits d) (seconds d) (minutes d) (ampm d) (hours d)
    (days d) (date d) (months d) (a1m1 d) (al1seconds d) (a1m2 d)
    (al1minutes d) (a1m3 d) (a1ampm d) v (a2m2 d) (al2minutes d) (a2m3 d)
    (a2ampm d) (al2hours d) (tempMSB d) (startreg d) (inblock d) (blockmode d)
    (reg d) (ss d) (es d) (options d) (out d).

Definition set_a2m2 (v : Z) (d : Decoder) : Decoder :=
  mkDecoder (state d) (bits d) (seconds d) (minutes d) (ampm d) (hours d)
    (days d) (date d) (months d) (a1m1 d) (al1seconds d) (a1m2 d)
    (al1minutes d) (a1m3 d) (a1ampm d) (al1hours d) v (al2minutes d) (a2m3 d)
    (a2ampm d) (al2hours d) (tempMSB d) (startreg d) (inblock d) (blockmode d)
    (reg d) (ss d) (es d) (options d) (out d).

Definition set_al2minutes (v : Z) (d : Decoder) : Decoder :=
  mkDecoder (state d) (bits d) (seconds d) (minutes d) (ampm d) (hours d)
    (days d) (date d) (months d) (a1m1 d) (al1seconds d) (a1m2 d)
    (al1minutes d) (a1m3 d) (a1ampm d) (al1hours d) (a2m2 d) v (a2m3 d)
    (a2ampm d) (al2hours d) (tempMSB d) (startreg d) (inblock d) (blockmode d)
    (reg d) (ss d) (es d) (options d) (out d).

Definition set_a2m3 (v : Z) (d : Decoder) : Decoder :=
  mkDecoder (state d) (bits d) (seconds d) (minutes d) (ampm d) (hours d)
    (days d) (date d) (months d) (a1m1 d) (al1seconds d) (a1m2 d)
    (al1minutes d) (a1m3 d) (a1ampm d) (al1hours d) (a2m2 d) (al2minutes d) v
    (a2ampm d) (al2hours d) (tempMSB d) (startreg d) (inblock d) (blockmode d)
    (reg d) (ss d) (es d) (options d) (out d).

Definition set_a2ampm (v : pyval) (d : Decoder) : Decoder :=
  mkDecoder (state d) (bits d) (seconds d) (minutes d) (ampm d) (hours d)
    (days d) (date d) (months d) (a1m1 d) (al1seconds d) (a1m2 d)
    (al1minutes d) (a1m3 d) (a1ampm d) (al1hours d) (a2m2 d) (al2minutes d)
    (a2m3 d) v (al2hours d) (tempMSB d) (startreg d) (inblock d) (blockmode d)
    (reg d) (ss d) (es d) (options d) (out d).

Definition set_al2hours (v : Z) (d : Decoder) : Decoder :=
  mkDecoder (state d) (bits d) (seconds d) (minutes d) (ampm d) (hours d)
    (days d) (date d) (months d) (a1m1 d) (al1seconds d) (a1m2 d)
    (al1minutes d) (a1m3 d) (a1ampm d) (al1hours d) (a2m2 d) (al2minutes d)
    (a2m3 d) (a2ampm d) v (tempMSB d) (startreg d) (inblock d) (blockmode d)
    (reg d) (ss d) (es d) (options d) (out d).

Definition set_tempMSB (v : Z) (d : Decoder) : Decoder :=
  mkDecoder (state d) (bits d) (seconds d) (minutes d) (ampm d) (hours d)
    (days d) (date d) (months d) (a1m1 d) (al1seconds d) (a1m2 d)
    (al1minutes d) (a1m3 d) (a1ampm d) (al1hours d) (a2m2 d) (al2minutes d)
    (a2m3 d) (a2ampm d) (al2hours d) v (startreg d) (inblock d) (blockmode d)
    (reg d) (ss d) (es d) (options d) (out d).

Definition set_startreg (v : Z) (d : Decoder) : Decoder :=
  mkDecoder (state d) (bits d) (seconds d) (minutes d) (ampm d) (hours d)
    (days d) (date d) (months d) (a1m1 d) (al1seconds d) (a1m2 d)
    (al1minutes d) (a1m3 d) (a1ampm d) (al1hours d) (a2m2 d) (al2minutes d)
    (a2m3 d) (a2ampm d) (al2hours d) (tempMSB d) v (inblock d) (blockmode d)
    (reg d) (ss d) (es d) (options d) (out d).

Definition set_inblock (v : Z) (d : Decoder) : Decoder :=
  mkDecoder (state d) (bits d) (seconds d) (minutes d) (ampm d) (hours d)
    (days d) (date d) (months d) (a1m1 d) (al1seconds d) (a1m2 d)
    (al1minutes d) (a1m3 d) (a1ampm d) (al1hours d) (a2m2 d) (al2minutes d)
    (a2m3 d) (a2ampm d) (al2hours d) (tempMSB d) (startreg d) v (blockmode d)
    (reg d) (ss d) (es d) (options d) (out d).

Definition set_blockmode (v : string) (d : Decoder) : Decoder :=
  mkDecoder (state d) (bits d) (seconds d) (minutes d) (ampm d) (hours d)
    (days d) (date d) (months d) (a1m1 d) (al1seconds d) (a1m2 d)
    (al1minutes d) (a1m3 d) (a1ampm d) (al1hours d) (a2m2 d) (al2minutes d)
    (a2m3 d) (a2ampm d) (al2hours d) (tempMSB d) (startreg d) (inblock d) v
    (reg d) (ss d) (es d) (options d) (out d).

Definition set_reg (v : Z) (d : Decoder) : Decoder :=
  mkDecoder (state d) (bits d) (seconds d) (minutes d) (ampm d) (hours d)
    (days d) (date d) (months d) (a1m1 d) (al1seconds d) (a1m2 d)
    (al1minutes d) (a1m3 d) (a1ampm d) (al1hours d) (a2m2 d) (al2minutes d)
    (a2m3 d) (a2ampm d) (al2hours d) (tempMSB d) (startreg d) (inblock d)
    (blockmode d) v (ss d) (es d) (options d) (out d).

Definition set_ss (v : Z) (d : Decoder) : Decoder :=
  mkDecoder (state d) (bits d) (seconds d) (minutes d) (ampm d) (hours d)
    (days d) (date d) (months d) (a1m1 d) (al1seconds d) (a1m2 d)
    (al1minutes d) (a1m3 d) (a1ampm d) (al1hours d) (a2m2 d) (al2minutes d)
    (a2m3 d) (a2ampm d) (al2hours d) (tempMSB d) (startreg d) (inblock d)
    (blockmode d) (reg d) v (es d) (options d) (out d).

Definition set_es (v : Z) (d : Decoder) : Decoder :=
  mkDecoder (state d) (bits d) (seconds d) (minutes d) (ampm d) (hours d)
    (days d) (date d) (months d) (a1m1 d) (al1seconds d) (a1m2 d)
    (al1minutes d) (a1m3 d) (a1ampm d) (al1hours d) (a2m2 d) (al2minutes d)
    (a2m3 d) (a2ampm d) (al2hours d) (tempMSB d) (startreg d) (inblock d)
    (blockmode d) (reg d) (ss d) v (options d) (out d).

Definition set_out (v : list annotation) (d : Decoder) : Decoder :=
  mkDecoder (state d) (bits d) (seconds d) (minutes d) (ampm d) (hours d)
    (days d) (date d) (months d) (a1m1 d) (al1seconds d) (a1m2 d)
    (al1minutes d) (a1m3 d) (a1ampm d) (al1hours d) (a2m2 d) (al2minutes d)
    (a2m3 d) (a2ampm d) (al2hours d) (tempMSB d) (startreg d) (inblock d)
    (blockmode d) (reg d) (ss d) (es d) (options d) v.

(** [reset()] followed by [start()].  [self.ss] and [self.es] do not exist
    before the first packet; [decode] assigns them before any use. *)
Definition init (o : Options) : Decoder :=
  {| state := IDLE; bits := [];
     seconds := -1; minutes := -1; ampm := PyInt (-1); hours := -1;
     days := -1; date := -1; months := -1;
     a1m1 := -1; al1seconds := -1; a1m2 := -1; al1minutes := -1;
     a1m3 := -1; a1ampm := PyInt (-1); al1hours := -1;
     a2m2 := -1; al2minutes := -1; a2m3 := -1; a2ampm := PyInt (-1);
     al2hours := -1;
     tempMSB := -1;
     startreg := -1; inblock := -1; blockmode := "";
     reg := regptr o; ss := 0; es := 0;
     options := o; out := [] |}.

(** ** A state-and-exception monad for the methods *)

Definition act (A : Type) : Type := Decoder -> exn + (A * Decoder).

Definition ret {A : Type} (a : A) : act A := fun d => inr (a, d).

Definition bind {A B : Type} (m : act A) (f : A -> act B) : act B :=
  fun d =>
    match m d with
    | inl e => inl e
    | inr (a, d') => f a d'
    end.

Definition raise {A : Type} (e : exn) : act A := fun _ => inl e.

Definition get : act Decoder := fun d => inr (d, d).

Definition modify (f : Decoder -> Decoder) : act unit :=
  fun d => inr (tt, f d).

Definition lift {A : Type} (e : exn) (o : option A) : act A :=
  match o with
  | Some a => ret a
  | None => raise e
  end.

Declare Scope act_scope.
Delimit Scope act_scope with act.
Bind Scope act_scope with act.

Notation "x <- m ;; k" := (bind m (fun x => k))
  (at level 61, m at next level, right associativity) : act_scope.
Notation "m ;; k" := (bind m (fun _ => k))
  (at level 61, right associativity) : act_scope.

Open Scope act_scope.

(** ** Output helpers *)

Definition put (s e : Z) (data : Ann * list string) : act unit :=
  modify (fun d => set_out (out d ++ [mkAnnotation s e (fst data) (snd data)]) d).

(** [self.bits[i]]: the indices used by the decoder are never negative. *)
Definition bits_at (i : nat) : act bitinfo :=
  self <- get ;; lift IndexError (nth_error (bits self) i).

Definition putd (bit1 bit2 : nat) (data : Ann * list string) : act unit :=
  b1 <- bits_at bit1 ;;
  b2 <- bits_at bit2 ;;
  put (snd (fst b1)) (snd b2) data.

Definition putr (bit : nat) : act unit :=
  b1 <- bits_at bit ;;
  b2 <- bits_at bit ;;
  put (snd (fst b1)) (snd b2)
      (BIT_RESERVED, ["Reserved bit"; "Reserved"; "Rsvd"; "R"]).

(** [for i in l: self.putr(i)] *)
Fixpoint putr_each (l : list nat) : act unit :=
  match l with
  | [] => ret tt
  | i :: l' => putr i ;; putr_each l'
  end.

(** [b & (1 << n)] used as a condition *)
Definition bit_set (b : Z) (n : Z) : bool :=
  negb (Z.land b (Z.shiftl 1 n) =? 0).

(** [1 if (b & (1 << n)) else 0] *)
Definition bit_of (b : Z) (n : Z) : Z :=
  if bit_set b n then 1 else 0.

(** [v if inblock == prev and blockmode == rw else -1] *)
Definition next_inblock (d : Decoder) (prev v : Z) (rw : string) : Z :=
  if (inblock d =? prev) && (blockmode d =? rw)%string then v else -1.

Definition weekday_name (w : Z) : act string :=
  self <- get ;;
  lift IndexError (py_index (days_of_week (fdw (options self))) (w - 1)).

(** ** Register handlers, 0x00 to 0x06: date and time *)

Definition handle_reg_0x00 (b : Z) (rw : string) : act unit :=
  putd 7 0 (REG_SECONDS, ["Seconds"; "Sec"; "S"]) ;;
  let s := bcd2int (Z.land b 0x7f) in
  modify (set_seconds s) ;;
  putr 7 ;;
  putd 6 0 (BIT_SECONDS, ["Second: " ++ fmt_d s; "Sec: " ++ fmt_d s;
                          "S: " ++ fmt_d s; "S"]) ;;
  modify (fun d => set_startreg (ss d) d) ;;
  modify (set_inblock 0) ;;
  modify (set_blockmode rw).

Definition handle_reg_0x01 (b : Z) (rw : string) : act unit :=
  putd 7 0 (REG_MINUTES, ["Minutes"; "Min"; "M"]) ;;
  putr 7 ;;
  let m := bcd2int (Z.land b 0x7f) in
  modify (set_minutes m) ;;
  putd 6 0 (BIT_MINUTES, ["Minute: " ++ fmt_d m; "Min: " ++ fmt_d m;
                          "M: " ++ fmt_d m; "M"]) ;;
  modify (fun d => set_inblock (next_inblock d 0 1 rw) d).

Definition handle_reg_0x02 (b : Z) (rw : string) : act unit :=
  putd 7 0 (REG_HOURS, ["Hours"; "H"]) ;;
  putr 7 ;;
  (if bit_set b 6 then
     putd 6 6 (BIT_12_24_HOURS, ["12-hour mode"; "12h mode"; "12h"]) ;;
     let ap := if bit_set b 5 then "PM" else "AM" in
     modify (set_ampm (PyStr ap)) ;;
     putd 5 5 (BIT_AM_PM, [ap; substring 0 1 ap]) ;;
     let h := bcd2int (Z.land b 0x1f) in
     modify (set_hours h) ;;
     putd 4 0 (BIT_HOURS, ["Hour: " ++ fmt_d h; "H: " ++ fmt_d h; "H"])
   else
     putd 6 6 (BIT_12_24_HOURS, ["24-hour mode"; "24h mode"; "24h"]) ;;
     modify (set_ampm (PyStr "")) ;;
     let h := bcd2int (Z.land b 0x3f) in
     modify (set_hours h) ;;
     putd 5 0 (BIT_HOURS, ["Hour: " ++ fmt_d h; "H: " ++ fmt_d h; "H"])) ;;
  modify (fun d => set_inblock (next_inblock d 1 2 rw) d).

Definition handle_reg_0x03 (b : Z) (rw : string) : act unit :=
  putd 7 0 (REG_DAY, ["Day of week"; "Day"; "D"]) ;;
  putr_each [7; 6; 5; 4; 3]%nat ;;
  let w := bcd2int (Z.land b 0x07) in
  modify (set_days w) ;;
  ws <- weekday_name w ;;
  putd 2 0 (BIT_DAY, ["Weekday: " ++ ws; "WD: " ++ ws; "WD"; "W"]) ;;
  modify (fun d => set_inblock (next_inblock d 2 3 rw) d).

Definition handle_reg_0x04 (b : Z) (rw : string) : act unit :=
  putd 7 0 (REG_DATE, ["Date"; "D"]) ;;
  putr_each [7; 6]%nat ;;
  let n := bcd2int (Z.land b 0x3f) in
  modify (set_date n) ;;
  putd 5 0 (BIT_DATE, ["Date: " ++ fmt_d n; "D: " ++ fmt_d n; "D"]) ;;
  modify (fun d => set_inblock (next_inblock d 3 4 rw) d).

Definition handle_reg_0x05 (b : Z) (rw : string) : act unit :=
  putd 7 0 (REG_MONTH, ["Month"; "Mon"; "M"]) ;;
  let century := bit_of b 7 in
  putd 7 7 (BIT_CENTURY, ["Century overflow: " ++ fmt_d century;
                          "Cent OVF: " ++ fmt_d century;
                          "CO: " ++ fmt_d century; "CO"]) ;;
  putr_each [6; 5]%nat ;;
  let m := bcd2int (Z.land b 0x1f) in
  modify (set_months m) ;;
  putd 4 0 (BIT_MONTH, ["Month: " ++ fmt_d m; "Mon: " ++ fmt_d m;
                        "M: " ++ fmt_d m; "M"]) ;;
  modify (fun d => set_inblock (next_inblock d 4 5 rw) d).

(** ['Date / time: %s, %02d.%02d.%4d %02d:%02d:%02d%s'] *)
Definition date_time_text (self : Decoder) (ws : string) (year : Z) : string :=
  "Date / time: " ++ ws ++ ", " ++ fmt_02d (date self) ++ "." ++
  fmt_02d (months self) ++ "." ++ fmt_4d year ++ " " ++
  fmt_02d (hours self) ++ ":" ++ fmt_02d (minutes self) ++ ":" ++
  fmt_02d (seconds self) ++ fmt_s (ampm self).

Definition handle_reg_0x06 (b : Z) (rw : string) : act unit :=
  putd 7 0 (REG_YEAR, ["Year"; "Y"]) ;;
  let y := bcd2int (Z.land b 0xff) in
  let year := y + 2000 in
  putd 7 0 (BIT_YEAR, ["Year: " ++ fmt_d year; "Y: " ++ fmt_d y; "Y"]) ;;
  self <- get ;;
  (if (inblock self =? 5) && (blockmode self =? rw)%string then
     ws <- weekday_name (days self) ;;
     let d := date_time_text self ws year in
     put (startreg self) (es self) (BLOCK_DATE_TIME, [rw ++ " " ++ d])
   else ret tt) ;;
  modify (set_inblock (-1)).

(** ** Register handlers, 0x07 to 0x0a: alarm 1 *)

Definition handle_reg_0x07 (b : Z) (rw : string) : act unit :=
  putd 7 0 (REG_ALARM1_SECONDS, ["Alarm1 Seconds"; "Al1 Sec"; "A1S"]) ;;
  let m1 := bit_of b 7 in
  modify (set_a1m1 m1) ;;
  putd 7 7 (BIT_A1M1, ["A1M1: " ++ fmt_d m1; "A1M1"]) ;;
  let s := bcd2int (Z.land b 0x7f) in
  modify (set_al1seconds s) ;;
  putd 6 0 (BIT_SECONDS, ["Second: " ++ fmt_d s; "Sec: " ++ fmt_d s;
                          "S: " ++ fmt_d s; "S"]) ;;
  modify (fun d => set_startreg (ss d) d) ;;
  modify (set_inblock 7) ;;
  modify (set_blockmode rw).

Definition handle_reg_0x08 (b : Z) (rw : string) : act unit :=
  putd 7 0 (REG_ALARM1_MINUTES, ["Alarm1 Minutes"; "Al1 Min"; "A1M"]) ;;
  let m2 := bit_of b 7 in
  modify (set_a1m2 m2) ;;
  putd 7 7 (BIT_A1M2, ["A1M2: " ++ fmt_d m2; "A1M2"]) ;;
  let m := bcd2int (Z.land b 0x7f) in
  modify (set_al1minutes m) ;;
  putd 6 0 (BIT_MINUTES, ["Minute: " ++ fmt_d m; "Min: " ++ fmt_d m;
                          "M: " ++ fmt_d m; "M"]) ;;
  modify (fun d => set_inblock (next_inblock d 7 8 rw) d).

Definition handle_reg_0x09 (b : Z) (rw : string) : act unit :=
  putd 7 0 (REG_ALARM1_HOURS, ["Alarm1 Hours"; "Al1 Hr"; "A1H"]) ;;
  let m3 := bit_of b 7 in
  modify (set_a1m3 m3) ;;
  putd 7 7 (BIT_A1M3, ["A1M3: " ++ fmt_d m3; "A1M3"]) ;;
  (if bit_set b 6 then
     putd 6 6 (BIT_12_24_HOURS, ["12-hour mode"; "12h mode"; "12h"]) ;;
     let ap := if bit_set b 5 then "PM" else "AM" in
     modify (set_a1ampm (PyStr ap)) ;;
     putd 5 5 (BIT_AM_PM, [ap; substring 0 1 ap]) ;;
     let h := bcd2int (Z.land b 0x1f) in
     modify (set_al1hours h) ;;
     putd 4 0 (BIT_HOURS, ["Hour: " ++ fmt_d h; "H: " ++ fmt_d h; "H"])
   else
     putd 6 6 (BIT_12_24_HOURS, ["24-hour mode"; "24h mode"; "24h"]) ;;
     modify (set_a1ampm (PyStr "")) ;;
     let h := bcd2int (Z.land b 0x3f) in
     modify (set_al1hours h) ;;
     putd 5 0 (BIT_HOURS, ["Hour: " ++ fmt_d h; "H: " ++ fmt_d h; "H"])) ;;
  modify (fun d => set_inblock (next_inblock d 8 9 rw) d).

(** [(a, b, c, d) == (x, y, z, w)] *)
Definition tup4_eqb (p q : Z * Z * Z * Z) : bool :=
  let '(a, b, c, d) := p in
  let '(x, y, z, w) := q in
  (a =? x) && (b =? y) && (c =? z) && (d =? w).

(** [(a, b, c) == (x, y, z)] *)
Definition tup3_eqb (p q : Z * Z * Z) : bool :=
  let '(a, b, c) := p in
  let '(x, y, z) := q in
  (a =? x) && (b =? y) && (c =? z).

(** The weekday or the date of the last register of an alarm: the local [ws]
    is bound only when the DY/DT bit is set, [da] only when it is clear. *)
Definition alarm_day_date (b : Z) (dydt : Z) (date_label : string)
  : act (option string) :=
  if dydt =? 1 then
    let w := bcd2int (Z.land b 0x07) in
    ws <- weekday_name w ;;
    putd 2 0 (BIT_DAY, ["Weekday: " ++ ws; "WD: " ++ fmt_d w; "WD"; "W"]) ;;
    ret (Some ws)
  else
    let da := bcd2int (Z.land b 0x3f) in
    putd 5 0 (BIT_DATE, [date_label ++ fmt_d da; "D: " ++ fmt_d da; "D"]) ;;
    ret None.

(** The [if]/[elif] ladder over [(a1m1, a1m2, a1m3, a1m4)]. *)
Definition alarm1_setting (self : Decoder) (a1m4 a1dydt : Z)
  (ws : option string) (da : Z) : act string :=
  let m := (a1m1 self, a1m2 self, a1m3 self, a1m4) in
  if tup4_eqb m (1, 1, 1, 1) then
    ret "every second"
  else if tup4_eqb m (0, 1, 1, 1) then
    ret ("every minute, second=" ++ fmt_02d (al1seconds self))
  else if tup4_eqb m (0, 0, 1, 1) then
    ret ("every hour, mm:ss=" ++ fmt_02d (al1minutes self) ++ ":" ++
         fmt_02d (al1seconds self))
  else if tup4_eqb m (0, 0, 0, 1) then
    ret ("daily, hh:mm:ss=" ++ fmt_02d (al1hours self) ++ ":" ++
         fmt_02d (al1minutes self) ++ ":" ++ fmt_02d (al1seconds self) ++
         fmt_s (a1ampm self))
  else if tup4_eqb m (0, 0, 0, 0) then
    daydate <- (if a1dydt =? 1 then lift UnboundLocalError ws
                else ret (fmt_d da ++ ". of every month")) ;;
    ret (daydate ++ ", " ++ fmt_02d (al1hours self) ++ ":" ++
         fmt_02d (al1minutes self) ++ ":" ++ fmt_02d (al1seconds self))
  else
    ret "invalid setting".

Definition handle_reg_0x0a (b : Z) (rw : string) : act unit :=
  putd 7 0 (REG_ALARM1_DAY_DATE,
            ["Alarm1 Date or Day of week"; "Al1 Day / DOW"; "A1DD"]) ;;
  let a1m4 := bit_of b 7 in
  putd 7 7 (BIT_A1M4, ["A1M4: " ++ fmt_d a1m4; "A1M4"]) ;;
  let a1dydt := bit_of b 6 in
  putd 6 6 (BIT_DAY_DATE, ["DYDT: " ++ fmt_d a1dydt; "DYDT"]) ;;
  ws <- alarm_day_date b a1dydt "Date / Day: " ;;
  self <- get ;;
  (if (inblock self =? 9) && (blockmode self =? rw)%string then
     d <- alarm1_setting self a1m4 a1dydt ws (bcd2int (Z.land b 0x3f)) ;;
     let d := "Alarm1: " ++ d in
     put (startreg self) (es self) (BLOCK_ALARM1, [rw ++ " " ++ d])
   else ret tt) ;;
  modify (set_inblock (-1)).

(** ** Register handlers, 0x0b to 0x0d: alarm 2 *)

Definition handle_reg_0x0b (b : Z) (rw : string) : act unit :=
  putd 7 0 (REG_ALARM2_MINUTES, ["Alarm2 Minutes"; "Al2 Min"; "A2M"]) ;;
  let m2 := bit_of b 7 in
  modify (set_a2m2 m2) ;;
  putd 7 7 (BIT_A2M2, ["A2M2: " ++ fmt_d m2; "A2M2"]) ;;
  let m := bcd2int (Z.land b 0x7f) in
  modify (set_al2minutes m) ;;
  putd 6 0 (BIT_MINUTES, ["Minute: " ++ fmt_d m; "Min: " ++ fmt_d m;
                          "M: " ++ fmt_d m; "M"]) ;;
  modify (fun d => set_startreg (ss d) d) ;;
  modify (set_inblock 0x0b) ;;
  modify (set_blockmode rw).

Definition handle_reg_0x0c (b : Z) (rw : string) : act unit :=
  putd 7 0 (REG_ALARM2_HOURS, ["Alarm2 Hours"; "Al2 Hr"; "A2H"]) ;;
  let m3 := bit_of b 7 in
  modify (set_a2m3 m3) ;;
  putd 7 7 (BIT_A2M3, ["A2M3: " ++ fmt_d m3; "A2M3"]) ;;
  (if bit_set b 6 then
     putd 6 6 (BIT_12_24_HOURS, ["12-hour mode"; "12h mode"; "12h"]) ;;
     let ap := if bit_set b 5 then "PM" else "AM" in
     modify (set_a2ampm (PyStr ap)) ;;
     putd 5 5 (BIT_AM_PM, [ap; substring 0 1 ap]) ;;
     let h := bcd2int (Z.land b 0x1f) in
     modify (set_al2hours h) ;;
     putd 4 0 (BIT_HOURS, ["Hour: " ++ fmt_d h; "H: " ++ fmt_d h; "H"])
   else
     putd 6 6 (BIT_12_24_HOURS, ["24-hour mode"; "24h mode"; "24h"]) ;;
     modify (set_a2ampm (PyStr "")) ;;
     let h := bcd2int (Z.land b 0x3f) in
     modify (set_al2hours h) ;;
     putd 5 0 (BIT_HOURS, ["Hour: " ++ fmt_d h; "H: " ++ fmt_d h; "H"])) ;;
  modify (fun d => set_inblock (next_inblock d 0x0b 0x0c rw) d).

(** The [if]/[elif] ladder over [(a2m2, a2m3, a2m4)]. *)
Definition alarm2_setting (self : Decoder) (a2m4 a2dydt : Z)
  (ws : option string) (da : Z) : act string :=
  let m := (a2m2 self, a2m3 self, a2m4) in
  if tup3_eqb m (1, 1, 1) then
    ret "every minute"
  else if tup3_eqb m (0, 1, 1) then
    ret ("every hour, minute=" ++ fmt_02d (al2minutes self))
  else if tup3_eqb m (0, 0, 1) then
    ret ("every day, hh:mm=" ++ fmt_02d (al2hours self) ++ ":" ++
         fmt_02d (al2minutes self) ++ fmt_s (a2ampm self))
  else if tup3_eqb m (0, 0, 0) then
    daydate <- (if a2dydt =? 1 then lift UnboundLocalError ws
                else ret (fmt_d da ++ ". of month")) ;;
    ret ("every " ++ daydate ++ ", hh:mm=" ++ fmt_02d (al2hours self) ++
         ":" ++ fmt_02d (al2minutes self))
  else
    ret "invalid setting".

Definition handle_reg_0x0d (b : Z) (rw : string) : act unit :=
  putd 7 0 (REG_ALARM2_DAY_DATE,
            ["Alarm2 Date or Day of week"; "Al2 Day / DOW"; "A2DD"]) ;;
  let a2m4 := bit_of b 7 in
  putd 7 7 (BIT_A2M4, ["A2M4: " ++ fmt_d a2m4; "A2M4"]) ;;
  let a2dydt := bit_of b 6 in
  putd 6 6 (BIT_DAY_DATE, ["DYDT: " ++ fmt_d a2dydt; "DYDT"]) ;;
  ws <- alarm_day_date b a2dydt "Date / Date: " ;;
  self <- get ;;
  (if (inblock self =? 0x0c) && (blockmode self =? rw)%string then
     d <- alarm2_setting self a2m4 a2dydt ws (bcd2int (Z.land b 0x3f)) ;;
     let d := "Alarm2: " ++ d in
     put (startreg self) (es self) (BLOCK_ALARM2, [rw ++ " " ++ d])
   else ret tt) ;;
  modify (set_inblock (-1)).

(** ** Register handlers, 0x0e to 0x10: control, status, aging offset *)

Definition handle_reg_0x0e (b : Z) (rw : string) : act unit :=
  putd 7 0 (REG_CONTROL, ["Control"; "Ctrl"; "C"]) ;;
  let eosc := bit_of b 7 in
  let bbsqw := bit_of b 6 in
  let bbsqw2 := if bit_set b 6 then "en" else "dis" in
  let conv := bit_of b 5 in
  let intcn2 := if bit_set b 5 then "alarm interrupt" else "square wave" in
  let intcn := bit_of b 2 in
  let a2ie := bit_of b 1 in
  let a2ie2 := if bit_set b 1 then "en" else "dis" in
  let a1ie := if Z.land b 1 =? 0 then 0 else 1 in
  let a1ie2 := if Z.land b 1 =? 0 then "dis" else "en" in
  putd 7 7 (BIT__EOSC, ["Enable oscillator: " ++ fmt_d eosc;
                        "enab osc: " ++ fmt_d eosc; "EO: " ++ fmt_d eosc;
                        "EO"]) ;;
  putd 6 6 (BIT_BBSQWE, ["Battery backed square wave " ++ bbsqw2 ++ "abled";
                         "BBSQWE: " ++ bbsqw2 ++ "abled";
                         "SQWE: " ++ fmt_d bbsqw; "S: " ++ fmt_d bbsqw; "S"]) ;;
  putd 5 5 (BIT_CONV, ["Forced temperature conversion: " ++ fmt_d conv;
                       "frc tconv: " ++ fmt_d conv; "FC: " ++ fmt_d conv;
                       "FC"]) ;;
  self <- get ;;
  match subtype (options self) with
  | SN =>
      r <- lift KeyError (rates (Z.land (Z.shiftr b 3) 0x03)) ;;
      putd 4 3 (BIT_RATE, ["Square wave output rate: " ++ r;
                           "Square wave rate: " ++ r; "SQW rate: " ++ r;
                           "Rate: " ++ r; "RA: " ++ r; "RA"; "R"])
  | M =>
      putr 4 ;;
      putr 3
  end ;;
  putd 2 2 (BIT_INTCN, ["Int/SQW pin: " ++ intcn2;
                        "Int on pin: " ++ fmt_d intcn; "IP: " ++ fmt_d intcn;
                        "IP"]) ;;
  putd 1 1 (BIT_A2IE, ["Alarm2 interrupt " ++ a2ie2 ++ "abled";
                       "Al2 INT " ++ a2ie2 ++ "abled";
                       "Al2 INT: " ++ fmt_d a2ie; "A2I: " ++ fmt_d a2ie;
                       "A2I"]) ;;
  putd 0 0 (BIT_A1IE, ["Alarm1 interrupt " ++ a1ie2 ++ "abled";
                       "Al1 INT " ++ a1ie2 ++ "abled";
                       "Al1 INT: " ++ fmt_d a1ie; "A1I: " ++ fmt_d a1ie;
                       "A1I"]).

Definition handle_reg_0x0f (b : Z) (rw : string) : act unit :=
  putd 7 0 (REG_CONTROL_STATUS, ["Control / Status"; "Ctrl/Stat"; "C/S"]) ;;
  putr_each [6; 5; 4]%nat ;;
  let osf := bit_of b 7 in
  let en32 := bit_of b 3 in
  let bsy := bit_of b 2 in
  let a2f := bit_of b 1 in
  let a1f := if Z.land b 1 =? 0 then 0 else 1 in
  putd 7 7 (BIT_OSF, ["Oscillator stop flag: " ++ fmt_d osf;
                      "Osc stop: " ++ fmt_d osf; "OS: " ++ fmt_d osf; "OS"]) ;;
  putd 3 3 (BIT_EN32KHZ, ["Enable 32kHz output: " ++ fmt_d en32;
                          "En 32k out: " ++ fmt_d en32; "32k: " ++ fmt_d en32;
                          "32k"]) ;;
  putd 2 2 (BIT_BSY, ["Busy TXCO: " ++ fmt_d bsy; "TXCO: " ++ fmt_d bsy;
                      "TX: " ++ fmt_d bsy; "TX"]) ;;
  putd 1 1 (BIT_A2F, ["Alarm2 flag: " ++ fmt_d a2f; "Al2 flg: " ++ fmt_d a2f;
                      "A2F: " ++ fmt_d a2f; "A2"]) ;;
  putd 0 0 (BIT_A1F, ["Alarm1 flag: " ++ fmt_d a1f; "Al1 flg: " ++ fmt_d a1f;
                      "A1F: " ++ fmt_d a1f; "A1"]).

(** [b if b < 128 else b - 256]: signed 2's complement *)
Definition signed8 (b : Z) : Z := if b <? 128 then b else b - 256.

Definition handle_reg_0x10 (b : Z) (rw : string) : act unit :=
  putd 7 0 (REG_AGING_OFFSET, ["Aging offset"; "Aging"; "A"]) ;;
  let ao := signed8 b in
  putd 7 0 (BIT_AOFS, ["Offset: " ++ fmt_d ao; "Ofs: " ++ fmt_d ao;
                       "O: " ++ fmt_d ao; "O"]).

(** ** Register handlers, 0x11 and 0x12: temperature *)

Definition handle_reg_0x11 (b : Z) (rw : string) : act unit :=
  putd 7 0 (REG_TEMPERATURE_MSB, ["Temperature MSB"; "tm"; "t"]) ;;
  modify (set_tempMSB b) ;;
  let tm := signed8 b in
  putd 7 0 (BIT_TMSB, ["tempMSB: " ++ fmt_d tm; "tm: " ++ fmt_d tm;
                       "tm: " ++ fmt_d tm; "t"]) ;;
  modify (fun d => set_startreg (ss d) d) ;;
  modify (set_inblock 0x11).

(** [theta = (self.tempMSB << 2) + tl], then
    [if theta >= 512: theta = theta - 1024] *)
Definition temp_theta (msb tl : Z) : Z :=
  let theta := Z.shiftl msb 2 + tl in
  if theta >=? 512 then theta - 1024 else theta.

Definition handle_reg_0x12 (b : Z) (rw : string) : act unit :=
  putd 7 0 (REG_TEMPERATURE_LSB, ["Temperature LSB"; "tl"; "t"]) ;;
  putr_each [0; 1; 2; 3; 4; 5]%nat ;;
  let tl := Z.shiftr b 6 in
  putd 7 6 (BIT_TLSB, ["tempLSB: " ++ fmt_d tl; "tl: " ++ fmt_d tl;
                       "tl: " ++ fmt_d tl; "t"]) ;;
  self <- get ;;
  (if inblock self =? 0x11 then
     let theta := temp_theta (tempMSB self) tl in
     let d := "Temperature: " ++ fmt_2f_quarters theta in
     put (startreg self) (es self)
         (BLOCK_TEMPERATURE, [rw ++ " block data: " ++ d])
   else ret tt) ;;
  modify (set_inblock (-1)).

(** ** Dispatch *)

(** [getattr(self, 'handle_reg_0x%02x' % self.reg)] *)
Definition handler_of (r : Z) : option (Z -> string -> act unit) :=
  match r with
  | 0x00 => Some handle_reg_0x00
  | 0x01 => Some handle_reg_0x01
  | 0x02 => Some handle_reg_0x02
  | 0x03 => Some handle_reg_0x03
  | 0x04 => Some handle_reg_0x04
  | 0x05 => Some handle_reg_0x05
  | 0x06 => Some handle_reg_0x06
  | 0x07 => Some handle_reg_0x07
  | 0x08 => Some handle_reg_0x08
  | 0x09 => Some handle_reg_0x09
  | 0x0a => Some handle_reg_0x0a
  | 0x0b => Some handle_reg_0x0b
  | 0x0c => Some handle_reg_0x0c
  | 0x0d => Some handle_reg_0x0d
  | 0x0e => Some handle_reg_0x0e
  | 0x0f => Some handle_reg_0x0f
  | 0x10 => Some handle_reg_0x10
  | 0x11 => Some handle_reg_0x11
  | 0x12 => Some handle_reg_0x12
  | _ => None
  end.

(** [self.reg in range(0, 0x13)] *)
Definition reg_in_range (r : Z) : bool := (0 <=? r) && (r <? 0x13).

Definition handle_reg (b : Z) (rw : string) : act unit :=
  self <- get ;;
  if negb (reg_in_range (reg self)) then
    put (ss self) (es self)
        (WARNING, ["Ignoring out-of-range register 0x" ++ fmt_02X (reg self)])
  else
    fn <- lift AttributeError (handler_of (reg self)) ;;
    fn b rw ;;
    modify (fun d => set_reg (reg d + 1) d) ;;
    modify (fun d => if reg d >? 0x12 then set_reg 0 d else d).

Definition is_correct_chip (addr : Z) : act bool :=
  if addr =? DS3231_I2C_ADDRESS then ret true
  else
    self <- get ;;
    put (ss self) (es self)
        (WARNING, ["Ignoring non-DS3231 data (slave 0x" ++ fmt_02X addr ++ ")"]) ;;
    ret false.

(** ** The packets of the I2C decoder and the state machine *)

(** [data = (cmd, databyte)].  The I2C decoder also sends ['ACK'] and
    ['NACK']; no branch of [decode] mentions them. *)
Inductive packet : Type :=
| START
| START_REPEAT
| STOP
| ACK
| NACK
| BITS (l : list bitinfo)
| ADDRESS_WRITE (addr : Z)
| ADDRESS_READ (addr : Z)
| DATA_WRITE (databyte : Z)
| DATA_READ (databyte : Z).

Definition decode (ss0 es0 : Z) (data : packet) : act unit :=
  match data with
  | BITS l => modify (set_bits l)
  | _ =>
      modify (set_ss ss0) ;;
      modify (set_es es0) ;;
      self <- get ;;
      match state self with
      | IDLE =>
          match data with
          | START => modify (set_state GET_SLAVE_ADDR)
          | _ => ret tt
          end
      | GET_SLAVE_ADDR =>
          match data with
          | ADDRESS_WRITE databyte =>
              ok <- is_correct_chip databyte ;;
              if ok : bool then modify (set_state GET_REG_ADDR)
              else modify (set_state IDLE)
          | ADDRESS_READ databyte =>
              ok <- is_correct_chip databyte ;;
              if ok : bool then modify (set_state READ_RTC_REGS)
              else modify (set_state IDLE)
          | _ => ret tt
          end
      | GET_REG_ADDR =>
          match data with
          | DATA_WRITE databyte =>
              modify (set_reg databyte) ;;
              modify (set_state WRITE_RTC_REGS)
          | STOP => modify (set_state IDLE)
          | _ => ret tt
          end
      | WRITE_RTC_REGS =>
          match data with
          | START_REPEAT => modify (set_state GET_SLAVE_ADDR)
          | DATA_WRITE databyte => handle_reg databyte "Wrote"
          | STOP => modify (set_state IDLE)
          | _ => ret tt
          end
      | READ_RTC_REGS =>
          match data with
          | DATA_READ databyte => handle_reg databyte "Read"
          | STOP => modify (set_state IDLE)
          | _ => ret tt
          end
      end
  end.

(** The host calls [decode] once per packet, in order; an exception ends the
    session. *)
Fixpoint run (trace : list (Z * Z * packet)) : act unit :=
  match trace with
  | [] => ret tt
  | (s, e, p) :: rest => decode s e p ;; run rest
  end.

(** The session after a trace, started with the given options. *)
Definition session (o : Options) (trace : list (Z * Z * packet))
  : exn + Decoder :=
  match run trace (init o) with
  | inl e => inl e
  | inr (_, d) => inr d
  end.

(** The annotations of one class among those emitted. *)
Definition of_class (c : Ann) (l : list annotation) : list annotation :=
  filter (fun a => Ann_value (a_cls a) =? Ann_value c) l.

(** The annotations shown in one row. *)
Definition in_row (r : row) (l : list annotation) : list annotation :=
  filter (fun a => match ann_row (a_cls a), r with
                   | RowBits, RowBits | RowRegs, RowRegs
                   | RowBlockData, RowBlockData
                   | RowWarnings, RowWarnings => true
                   | _, _ => false
                   end) l.

(** * Vocabulary of the statements *)

Open Scope list_scope.

Definition not_warning (a : annotation) : Prop := is_warning (a_cls a) = false.

(** [keeps d d']: the session [d'] differs from [d] only in cached fields,
    in the block-aggregation state and by annotations that are not warnings;
    a weekday that changed is in the range of the three name tuples. *)
Record keeps (d d' : Decoder) : Prop := mkKeeps {
  k_reg : reg d' = reg d;
  k_bits : bits d' = bits d;
  k_state : state d' = state d;
  k_options : options d' = options d;
  k_ss : ss d' = ss d;
  k_es : es d' = es d;
  k_out : exists l, out d' = out d ++ l /\ Forall not_warning l;
  k_days : days d' = days d \/ 0 <= days d' <= 7
}.

(** [ready d]: a ['BITS'] packet with (at least) eight entries is buffered and
    the cached weekday can index a tuple of seven names. *)
Definition ready (d : Decoder) : Prop :=
  (8 <= List.length (bits d))%nat /\ -6 <= days d <= 7.

(** [good m d]: run from [d], the action [m] keeps the frame above whenever it
    returns, and it does return when [d] is ready. *)
Definition good {A : Type} (m : act A) (d : Decoder) : Prop :=
  (forall a d', m d = inr (a, d') -> keeps d d') /\
  (ready d -> exists a d', m d = inr (a, d')).

(** [self.reg += 1], then [if self.reg > 0x12: self.reg = 0]. *)
Definition bump (d : Decoder) : Decoder :=
  (fun d => if reg d >? 0x12 then set_reg 0 d else d) (set_reg (reg d + 1) d).

(** Successive accesses [(b, rw)], each dispatched by [handle_reg]. *)
Fixpoint handle_regs (accesses : list (Z * string)) : act unit :=
  match accesses with
  | [] => ret tt
  | (b, rw) :: rest => handle_reg b rw ;; handle_regs rest
  end.

(** The warning of [handle_reg] for the current register pointer. *)
Definition out_of_range_warning (d : Decoder) : annotation :=
  mkAnnotation (ss d) (es d) WARNING
    [("Ignoring out-of-range register 0x" ++ fmt_02X (reg d))%string].

(** A ['BITS'] payload of eight entries, most significant bit last. *)
Definition eight_bits (s : Z) : list bitinfo :=
  map (fun i => (0, s + 7 - i, s + 8 - i)) [0; 1; 2; 3; 4; 5; 6; 7].

(** The block-aggregation state: [startreg], [inblock], [blockmode]. *)
Definition block_state (d : Decoder) : Z * Z * string :=
  (startreg d, inblock d, blockmode d).

(** The field values cached between register accesses. *)
Definition cached_fields (d : Decoder) :=
  ((seconds d, minutes d, ampm d, hours d, days d, date d, months d),
   (a1m1 d, al1seconds d, a1m2 d, al1minutes d, a1m3 d, a1ampm d, al1hours d),
   (a2m2 d, al2minutes d, a2m3 d, a2ampm d, al2hours d),
   tempMSB d).

(** The warning of [is_correct_chip] for a foreign slave address. *)
Definition wrong_chip_warning (s e addr : Z) : annotation :=
  mkAnnotation s e WARNING
    [("Ignoring non-DS3231 data (slave 0x" ++ fmt_02X addr ++ ")")%string].

(** No ['START'] among the packets. *)
Definition no_start (trace : list (Z * Z * packet)) : Prop :=
  Forall (fun x => snd x <> START) trace.

(** ['ADDRESS WRITE'], ['ADDRESS READ'], ['DATA WRITE'] and ['DATA READ']
    carry a byte; the I2C decoder sends the ['BITS'] packet of a byte right
    before the packet of the byte itself. *)
Definition carries_byte (p : packet) : bool :=
  match p with
  | ADDRESS_WRITE _ | ADDRESS_READ _ | DATA_WRITE _ | DATA_READ _ => true
  | _ => false
  end.

(** The packets [l] as the host delivers them: the [k]-th packet at the
    samples [pos k], a byte preceded by the payload [payload k]. *)
Fixpoint deliver_from (k : nat) (pos : nat -> Z * Z)
  (payload : nat -> list bitinfo) (l : list packet) : list (Z * Z * packet) :=
  match l with
  | [] => []
  | p :: rest =>
      (if carries_byte p
       then [(fst (pos k), snd (pos k), BITS (payload k))] else []) ++
      (fst (pos k), snd (pos k), p) ::
      deliver_from (S k) pos payload rest
  end.

Definition deliver := deliver_from 0.

(** Ten samples per packet, one sample per bit. *)
Definition ten_apart (k : nat) : Z * Z :=
  (10 * Z.of_nat k, 10 * Z.of_nat k + 8).

Definition standard (l : list packet) : list (Z * Z * packet) :=
  deliver ten_apart (fun k => eight_bits (10 * Z.of_nat k)) l.

(** The packets alone, without any ['BITS'] packet. *)
Definition bare (l : list packet) : list (Z * Z * packet) :=
  map (fun kp => (fst (ten_apart (fst kp)), snd (ten_apart (fst kp)), snd kp))
      (combine (seq 0 (List.length l)) l).

(** A write of the seven date and time registers, from 0x00. *)
Definition write_date_time : list packet :=
  [START; ADDRESS_WRITE 0x68; DATA_WRITE 0x00;
   DATA_WRITE 0x30; DATA_WRITE 0x45; DATA_WRITE 0x12; DATA_WRITE 0x03;
   DATA_WRITE 0x15; DATA_WRITE 0x06; DATA_WRITE 0x23; STOP].

(** The same registers written in two transactions, split after the hours. *)
Definition write_date_time_split : list packet :=
  [START; ADDRESS_WRITE 0x68; DATA_WRITE 0x00;
   DATA_WRITE 0x30; DATA_WRITE 0x45; DATA_WRITE 0x12; STOP;
   START; ADDRESS_WRITE 0x68; DATA_WRITE 0x03;
   DATA_WRITE 0x03; DATA_WRITE 0x15; DATA_WRITE 0x06; DATA_WRITE 0x23; STOP].

(** The temperature MSB written, then, after a repeated start, the LSB
    read. *)
Definition temperature_write_then_read : list packet :=
  [START; ADDRESS_WRITE 0x68; DATA_WRITE 0x11; DATA_WRITE 0x19;
   START_REPEAT; ADDRESS_READ 0x68; DATA_READ 0xC0; STOP].

(** The seconds written, then, after a repeated start, the other six date
    and time registers read. *)
Definition date_time_write_then_read : list packet :=
  [START; ADDRESS_WRITE 0x68; DATA_WRITE 0x00; DATA_WRITE 0x30;
   START_REPEAT; ADDRESS_READ 0x68;
   DATA_READ 0x45; DATA_READ 0x12; DATA_READ 0x03;
   DATA_READ 0x15; DATA_READ 0x06; DATA_READ 0x23; STOP].

(** ['START'], then ['STOP'] while the slave address is awaited. *)
Definition start_then_stop : list packet := [START; STOP].

(** A register pointer byte of 0x20, then one data byte. *)
Definition write_from_0x20 : list packet :=
  [START; ADDRESS_WRITE 0x68; DATA_WRITE 0x20; DATA_WRITE 0x00; STOP].

(** The annotation is the warning of the out-of-range branch of
    [handle_reg]. *)
Definition is_out_of_range_warning (a : annotation) : bool :=
  is_warning (a_cls a) &&
  match a_texts a with
  | [t] => String.prefix "Ignoring out-of-range register" t
  | _ => false
  end.

(** Every byte that [decode] stores in the register pointer, the
    ['DATA WRITE'] received in [GET_REG_ADDR], is in [0x00, 0x12]. *)
Fixpoint pointer_bytes_in_range (trace : list (Z * Z * packet)) (d : Decoder)
  : bool :=
  match trace with
  | [] => true
  | (s, e, p) :: rest =>
      match state d, p with
      | GET_REG_ADDR, DATA_WRITE databyte => reg_in_range databyte
      | _, _ => true
      end &&
      match decode s e p d with
      | inr (_, d') => pointer_bytes_in_range rest d'
      | inl _ => true
      end
  end.

(** The register pointer is in range and the branch has not been taken. *)
Definition pointer_safe (d : Decoder) : Prop :=
  reg_in_range (reg d) = true /\
  existsb is_out_of_range_warning (out d) = false.

Definition date_time_wednesday : string :=
  "Wrote Date / time: Wednesday, 15.06.2023 12:45:30".

Definition date_time_tuesday : string :=
  "Wrote Date / time: Tuesday, 15.06.2023 12:45:30".

(** The session with one more annotation. *)
Definition emit (a : annotation) (d : Decoder) : Decoder :=
  set_out (out d ++ [a]) d.

(** The sixteen combinations of (A1M1, A1M2, A1M3, A1M4). *)
Definition alarm1_modes : list (bool * bool * bool * bool) :=
  flat_map (fun m1 => flat_map (fun m2 => flat_map (fun m3 =>
    map (fun m4 => (m1, m2, m3, m4)) [false; true])
    [false; true]) [false; true]) [false; true].

(** The ladder says ['invalid setting'] for a combination cached in a fresh
    session. *)
Definition alarm1_invalid (m : bool * bool * bool * bool) : bool :=
  let '(m1, m2, m3, m4) := m in
  let self :=
    set_a1m3 (Z.b2z m3)
      (set_a1m2 (Z.b2z m2) (set_a1m1 (Z.b2z m1) (init default_options))) in
  match alarm1_setting self (Z.b2z m4) 0 None 1 self with
  | inr (txt, _) => (txt =? "invalid setting")%string
  | inl _ => false
  end.

(** Reading a rendered temperature back: the value of a decimal digit, of a
    run of digits, and the number of hundredths that a text with an optional
    minus sign, digits, a point and two decimals denotes. *)
Definition digit_value (c : ascii) : option Z :=
  let n := nat_of_ascii c in
  if ((48 <=? n) && (n <=? 57))%nat then Some (Z.of_nat (n - 48)) else None.

Fixpoint read_digits (acc : Z) (s : string) : option Z :=
  match s with
  | EmptyString => Some acc
  | String c s' =>
      match digit_value c with
      | Some v => read_digits (10 * acc + v) s'
      | None => None
      end
  end.

Definition read_hundredths (s : string) : option Z :=
  let (sign, body) :=
    match s with
    | String "-" r => (-1, r)
    | _ => (1, s)
    end in
  match String.index 0 "." body with
  | Some i =>
      let whole := substring 0 i body in
      let frac := substring (S i) (String.length body - S i) body in
      if ((0 <? i) && (String.length frac =? 2))%nat then
        match read_digits 0 whole, read_digits 0 frac with
        | Some w, Some f => Some (sign * (100 * w + f))
        | _, _ => None
        end
      else None
  | None => None
  end.

(** The 1024 values of a signed 10-bit reading. *)
Definition ten_bit_values : list Z :=
  map (fun i => Z.of_nat i - 512) (seq 0 1024).

(** ** Vocabulary of the further properties *)

Definition select_then_read (p : Z) : list packet :=
  [START; ADDRESS_WRITE 0x68; DATA_WRITE p; START_REPEAT; ADDRESS_READ 0x68].

(** The samples of the byte whose ['BITS'] packet is buffered: from the start
    of bit 7 to the end of bit 0. *)
Definition byte_span (d : Decoder) : Z * Z :=
  (match nth_error (bits d) 7 with Some x => snd (fst x) | None => 0 end,
   match nth_error (bits d) 0 with Some x => snd x | None => 0 end).

(** The block-aggregation state that an access to register [r] in direction
    [rw] leaves behind. *)
Definition block_step (r : Z) (rw : string) (d : Decoder) : Z * Z * string :=
  match r with
  | 0x00 | 0x07 | 0x0b => (ss d, r, rw)
  | 0x11 => (ss d, r, blockmode d)
  | 0x01 | 0x02 | 0x03 | 0x04 | 0x05 | 0x08 | 0x09 | 0x0c =>
      (startreg d, next_inblock d (r - 1) r rw, blockmode d)
  | 0x06 | 0x0a | 0x0d | 0x12 => (startreg d, -1, blockmode d)
  | _ => block_state d
  end.

(** The access to register [r] completes a block. *)
Definition block_due (r : Z) (rw : string) (d : Decoder) : bool :=
  match r with
  | 0x06 => (inblock d =? 5) && (blockmode d =? rw)%string
  | 0x0a => (inblock d =? 9) && (blockmode d =? rw)%string
  | 0x0d => (inblock d =? 0x0c) && (blockmode d =? rw)%string
  | 0x12 => inblock d =? 0x11
  | _ => false
  end.

Definition block_class (r : Z) : Ann :=
  match r with
  | 0x06 => BLOCK_DATE_TIME
  | 0x0a => BLOCK_ALARM1
  | 0x0d => BLOCK_ALARM2
  | _ => BLOCK_TEMPERATURE
  end.

Definition access_effect (r : Z) (rw : string) (d d' : Decoder)
  (l : list annotation) : Prop :=
  out d' = out d ++ l /\
  map (fun a => (Ann_value (a_cls a), a_ss a, a_es a)) (in_row RowRegs l) =
    [(r, fst (byte_span d), snd (byte_span d))] /\
  block_state d' = block_step r rw d /\
  map (fun a => (a_cls a, a_ss a, a_es a)) (in_row RowBlockData l) =
    (if block_due r rw d then [(block_class r, startreg d, es d)] else []) /\
  in_row RowWarnings l = [].

Definition block_annotations (l : list annotation) : list (Ann * Z * Z) :=
  map (fun a => (a_cls a, a_ss a, a_es a)) (in_row RowBlockData l).

(** The registers between the first and the last of a block. *)
Definition middle_register (k : Z) : bool :=
  match k with
  | 0x01 | 0x02 | 0x03 | 0x04 | 0x05 | 0x08 | 0x09 | 0x0c => true
  | _ => false
  end.

(** [in_block d0 d k rw0 ok]: the session [d] is inside a block that began
    at the session [d0] in direction [rw0]; the next register is [k]; [ok]
    tells whether every access since had that direction; no block annotation
    was emitted since [d0]. *)
Record in_block (d0 d : Decoder) (k : Z) (rw0 : string) (ok : bool) : Prop :=
  mkInBlock {
    ib_reg : reg d = k;
    ib_ready : ready d;
    ib_ss : ss d = ss d0;
    ib_es : es d = es d0;
    ib_start : startreg d = ss d0;
    ib_mode : blockmode d = rw0;
    ib_index : inblock d = if ok then k - 1 else -1;
    ib_out : exists l, out d = out d0 ++ l /\ block_annotations l = []
  }.

(** The three blocks that record their direction: first and last
    register. *)
Definition directed_block (f t : Z) : Prop :=
  (f = 0x00 /\ t = 0x06) \/ (f = 0x07 /\ t = 0x0a) \/ (f = 0x0b /\ t = 0x0d).

Definition alarm2_modes : list (bool * bool * bool) :=
  flat_map (fun m2 => flat_map (fun m3 =>
    map (fun m4 => (m2, m3, m4)) [false; true]) [false; true]) [false; true].

Definition alarm2_invalid (m : bool * bool * bool) : bool :=
  let '(m2, m3, m4) := m in
  let self :=
    set_a2m3 (Z.b2z m3) (set_a2m2 (Z.b2z m2) (init default_options)) in
  match alarm2_setting self (Z.b2z m4) 0 None 1 self with
  | inr (txt, _) => (txt =? "invalid setting")%string
  | inl _ => false
  end.

(** DS3231: registers 00h to 12h *)
Definition regs : list string :=
  ["Seconds"; "Minutes"; "Hours"; "Day"; "Date"; "Month"; "Year";
   "Alarm1 Seconds"; "Alarm1 Minutes"; "Alarm1 Hours"; "Alarm1 Day/Date";
   "Alarm2 Minutes"; "Alarm2 Hours"; "Alarm2 Day/Date"; "Control";
   "Control/Status"; "Aging Offset"; "Temperature MSB"; "Temperature LSB"]%string.

(** The tuple [bits] of the module (the session has a field of that name). *)
Definition bit_names : list string :=
  ["Seconds"; "Reserved"; "Minutes"; "12/24 hours"; "AM/PM";
   "Hours"; "Day"; "Date"; "Century"; "Month"; "Year"; "Day/Date"; "/EOSC";
   "BBSQWE"; "CONV"; "RATE"; "INTCN"; "A2IE"; "A1IE"; "RS1"; "OSF";
   "EN32kHz"; "BSY"; "A2F"; "A1F"; "A1M1"; "A1M2"; "A1M3"; "A1M4"; "A2M2";
   "A2M3"; "A2M4"; "TMSB"; "TLSB"; "AOFS"]%string.

Definition blocks : list string :=
  ["Date Time"; "Alarm1"; "Alarm2"; "Temperature"]%string.

Fixpoint map_chars (f : ascii -> ascii) (s : string) : string :=
  match s with
  | EmptyString => EmptyString
  | String c s' => String (f c) (map_chars f s')
  end.

(** [re.sub('\\/| ', '_', r)]: every slash and every space becomes an
    underscore. *)
Definition sub_slash_space : string -> string :=
  map_chars (fun c => if (Ascii.eqb c "/" || Ascii.eqb c " ")%bool
                      then "_"%char else c).

(** [str.lower] and [str.upper] on ASCII text, the only text they are used
    on below: the letters A to Z, respectively a to z, move by 32 and every
    other ASCII character stays, as in Python.  Python text with a character
    outside ASCII is not covered ([ascii_text] is then false). *)
Definition ascii_text (s : string) : bool :=
  forallb (fun c => (nat_of_ascii c <? 128)%nat) (list_ascii_of_string s).

Definition lower_char (c : ascii) : ascii :=
  let n := nat_of_ascii c in
  if ((65 <=? n) && (n <=? 90))%nat then ascii_of_nat (n + 32) else c.

Definition upper_char (c : ascii) : ascii :=
  let n := nat_of_ascii c in
  if ((97 <=? n) && (n <=? 122))%nat then ascii_of_nat (n - 32) else c.

Definition lower : string -> string := map_chars lower_char.
Definition upper : string -> string := map_chars upper_char.

(** [regs_and_bits_and_blocks()], the tables it reads being arguments. *)
Definition regs_and_bits_and_blocks_of (rs bs bls : list string)
  : list (string * string) :=
  map (fun r => ("reg_" ++ lower (sub_slash_space r), r ++ " register")%string) rs ++
  map (fun b => ("bit_" ++ lower (sub_slash_space b), b ++ " bit")%string) bs ++
  map (fun bl => ("block_" ++ lower (sub_slash_space bl), bl ++ " block")%string) bls.

Definition regs_and_bits_and_blocks : list (string * string) :=
  regs_and_bits_and_blocks_of regs bit_names blocks.

(** The list [a] that the enumeration [Ann] is built from. *)
Definition enum_names_of (rs bs bls : list string) : list string :=
  map (fun r => ("REG_" ++ upper (sub_slash_space r))%string) rs ++
  map (fun b => ("BIT_" ++ upper (sub_slash_space b))%string) bs ++
  map (fun bl => ("BLOCK_" ++ upper (sub_slash_space bl))%string) bls ++
  ["WARNING"%string].

Definition a : list string := enum_names_of regs bit_names blocks.

(** [Decoder.annotations] *)
Definition annotations_of (rs bs bls : list string) : list (string * string) :=
  regs_and_bits_and_blocks_of rs bs bls ++ [("warning", "Warning")%string].

Definition annotations : list (string * string) :=
  annotations_of regs bit_names blocks.

(** The row of a class, read off its name as [Ann.prefixes] does. *)
Definition row_of_name (n : string) : row :=
  if String.prefix "REG_" n then RowRegs
  else if String.prefix "BIT_" n then RowBits
  else if String.prefix "BLOCK_" n then RowBlockData
  else RowWarnings.

(** * Reasoning about the methods *)

(** ** The formatting functions on sample values *)

Example fmt_d_samples :
  fmt_d 0 = "0"%string /\ fmt_d 59 = "59"%string /\ fmt_d (-1) = "-1"%string.
Proof. repeat split. Qed.

Example fmt_02d_samples :
  fmt_02d 5 = "05"%string /\ fmt_02d 45 = "45"%string /\
  fmt_02d (-1) = "-1"%string /\ fmt_02d 123 = "123"%string.
Proof. repeat split. Qed.

Example fmt_4d_samples :
  fmt_4d 2023 = "2023"%string /\ fmt_4d 12 = "  12"%string.
Proof. repeat split. Qed.

Example fmt_02X_samples :
  fmt_02X 0x2a = "2A"%string /\ fmt_02X 5 = "05"%string /\
  fmt_02X 0xff = "FF"%string /\ fmt_02X 0x100 = "100"%string.
Proof. repeat split. Qed.

Example fmt_2f_quarters_samples :
  fmt_2f_quarters 103 = "25.75"%string /\
  fmt_2f_quarters 0 = "0.00"%string /\
  fmt_2f_quarters (-1) = "-0.25"%string /\
  fmt_2f_quarters (-512) = "-128.00"%string /\
  fmt_2f_quarters 511 = "127.75"%string.
Proof. repeat split. Qed.

Example bcd2int_samples :
  bcd2int 0x45 = 45 /\ bcd2int 0x00 = 0 /\ bcd2int 0x59 = 59.
Proof. repeat split. Qed.

Example py_index_samples :
  py_index (days_of_week FdwMonday) 2 = Some "Wednesday"%string /\
  py_index (days_of_week FdwMonday) (-1) = Some "Sunday"%string /\
  py_index (days_of_week FdwMonday) 7 = None /\
  py_index (days_of_week FdwMonday) (-8) = None.
Proof. repeat split. Qed.

(** ** Elementary facts *)

Lemma land_low_bits (b : Z) (n : Z) :
  0 <= n -> 0 <= Z.land b (Z.ones n) < 2 ^ n.
Proof.
  intros Hn. rewrite Z.land_ones by assumption.
  apply Z.mod_pos_bound. apply Z.pow_pos_nonneg; lia.
Qed.

Lemma bcd2int_small (x : Z) : 0 <= x < 10 -> bcd2int x = x.
Proof.
  intros Hx. unfold bcd2int.
  rewrite Z.shiftr_div_pow2 by lia.
  change 0x0F with (Z.ones 4). rewrite Z.land_ones by lia.
  change (2 ^ 4) with 16.
  rewrite Z.div_small by lia. rewrite Z.mod_small by lia. lia.
Qed.

Lemma weekday_value_range (b : Z) : 0 <= bcd2int (Z.land b 0x07) <= 7.
Proof.
  pose proof (land_low_bits b 3 ltac:(lia)) as H.
  change (Z.ones 3) with 7 in H. change (2 ^ 3) with 8 in H.
  rewrite bcd2int_small by lia. lia.
Qed.

Lemma rates_total (b : Z) :
  exists r, rates (Z.land (Z.shiftr b 3) 0x03) = Some r.
Proof.
  pose proof (land_low_bits (Z.shiftr b 3) 2 ltac:(lia)) as H.
  change (Z.ones 2) with 3 in H. change (2 ^ 2) with 4 in H.
  assert (Hc : Z.land (Z.shiftr b 3) 3 = 0 \/ Z.land (Z.shiftr b 3) 3 = 1 \/
               Z.land (Z.shiftr b 3) 3 = 2 \/ Z.land (Z.shiftr b 3) 3 = 3)
    by lia.
  destruct Hc as [-> | [-> | [-> | ->]]]; cbn; eauto.
Qed.

(** A tuple of seven names can be indexed from -7 to 6. *)
Lemma days_of_week_index (k : fdw_option) (w : Z) :
  -6 <= w <= 7 -> exists ws, py_index (days_of_week k) (w - 1) = Some ws.
Proof.
  intros Hw.
  assert (Hc : w = -6 \/ w = -5 \/ w = -4 \/ w = -3 \/ w = -2 \/ w = -1 \/
               w = 0 \/ w = 1 \/ w = 2 \/ w = 3 \/ w = 4 \/ w = 5 \/
               w = 6 \/ w = 7) by lia.
  destruct k;
    repeat (destruct Hc as [-> | Hc]; [vm_compute; eauto | ]);
    subst; vm_compute; eauto.
Qed.

(** ** What a register handler leaves alone *)

Lemma keeps_refl (d : Decoder) : keeps d d.
Proof.
  constructor; auto.
  exists []. rewrite app_nil_r. split; [reflexivity | constructor].
Qed.

Lemma keeps_trans (d1 d2 d3 : Decoder) :
  keeps d1 d2 -> keeps d2 d3 -> keeps d1 d3.
Proof.
  intros [R1 B1 S1 O1 SS1 ES1 [l1 [E1 F1]] D1]
         [R2 B2 S2 O2 SS2 ES2 [l2 [E2 F2]] D2].
  constructor; try congruence.
  - exists (l1 ++ l2). rewrite E2, E1, app_assoc. split; [reflexivity | ].
    apply Forall_app. split; assumption.
  - destruct D2 as [D2 | D2]; [rewrite D2; exact D1 | right; exact D2].
Qed.

Lemma keeps_ready (d d' : Decoder) : keeps d d' -> ready d -> ready d'.
Proof.
  intros K [Hb Hd]. split.
  - rewrite (k_bits _ _ K). exact Hb.
  - destruct (k_days _ _ K) as [E | E]; [rewrite E; exact Hd | lia].
Qed.

Lemma good_ret {A : Type} (a : A) (d : Decoder) : good (ret a) d.
Proof.
  split.
  - intros a' d' H. inversion H; subst. apply keeps_refl.
  - intros _. exists a, d. reflexivity.
Qed.

Lemma good_bind {A B : Type} (m : act A) (f : A -> act B) (d : Decoder) :
  good m d ->
  (forall a d', m d = inr (a, d') -> good (f a) d') ->
  good (bind m f) d.
Proof.
  intros [Pm Tm] Hf. unfold bind. split.
  - intros b d'' H. destruct (m d) as [e | [a d']] eqn:E; [discriminate | ].
    apply keeps_trans with d'.
    + apply Pm with a. reflexivity.
    + destruct (Hf a d' eq_refl) as [Pf _]. apply Pf with b. exact H.
  - intros Hr. destruct (Tm Hr) as [a [d' E]]. rewrite E.
    destruct (Hf a d' E) as [_ Tf]. apply Tf.
    apply keeps_ready with d; [ | exact Hr]. apply Pm with a. exact E.
Qed.

Lemma good_get_bind {B : Type} (f : Decoder -> act B) (d : Decoder) :
  good (f d) d -> good (bind get f) d.
Proof. intros H. exact H. Qed.

Lemma good_modify (f : Decoder -> Decoder) (d : Decoder) :
  keeps d (f d) -> good (modify f) d.
Proof.
  intros K. split.
  - intros a d' H. inversion H; subst. exact K.
  - intros _. exists tt, (f d). reflexivity.
Qed.

Lemma good_lift {A : Type} (e : exn) (o : option A) (d : Decoder) :
  (ready d -> exists a, o = Some a) -> good (lift e o) d.
Proof.
  intros H. split.
  - intros a d' E. destruct o; cbn in E; inversion E; subst. apply keeps_refl.
  - intros Hr. destruct (H Hr) as [a ->]. exists a, d. reflexivity.
Qed.

Lemma good_put (s e : Z) (data : Ann * list string) (d : Decoder) :
  is_warning (fst data) = false -> good (put s e data) d.
Proof.
  intros Hw. apply good_modify. constructor; cbn; auto.
  eexists. split; [reflexivity | ].
  constructor; [exact Hw | constructor].
Qed.

Lemma nth_error_ready (d : Decoder) (i : nat) :
  (i < 8)%nat -> ready d -> exists x, nth_error (bits d) i = Some x.
Proof.
  intros Hi [Hb _].
  destruct (nth_error (bits d) i) eqn:E; [eauto | ].
  apply nth_error_None in E. lia.
Qed.

Lemma good_bits_at (i : nat) (d : Decoder) : (i < 8)%nat -> good (bits_at i) d.
Proof.
  intros Hi. unfold bits_at. apply good_get_bind. apply good_lift.
  intros Hr. apply nth_error_ready; assumption.
Qed.

Lemma good_putd (i j : nat) (data : Ann * list string) (d : Decoder) :
  (i < 8)%nat -> (j < 8)%nat -> is_warning (fst data) = false ->
  good (putd i j data) d.
Proof.
  intros Hi Hj Hw. unfold putd.
  apply good_bind; [apply good_bits_at; exact Hi | intros b1 d1 _].
  apply good_bind; [apply good_bits_at; exact Hj | intros b2 d2 _].
  apply good_put. exact Hw.
Qed.

Lemma good_putr (i : nat) (d : Decoder) : (i < 8)%nat -> good (putr i) d.
Proof.
  intros Hi. unfold putr.
  apply good_bind; [apply good_bits_at; exact Hi | intros b1 d1 _].
  apply good_bind; [apply good_bits_at; exact Hi | intros b2 d2 _].
  apply good_put. reflexivity.
Qed.

Lemma good_putr_each (l : list nat) (d : Decoder) :
  Forall (fun i => (i < 8)%nat) l -> good (putr_each l) d.
Proof.
  intros H. revert d. induction H as [ | i l Hi Hl IH]; intros d; cbn.
  - apply good_ret.
  - apply good_bind; [apply good_putr; exact Hi | intros _ d' _; apply IH].
Qed.

Lemma good_weekday_name (w : Z) (d : Decoder) :
  (ready d -> -6 <= w <= 7) -> good (weekday_name w) d.
Proof.
  intros H. unfold weekday_name. apply good_get_bind. apply good_lift.
  intros Hr. apply days_of_week_index. apply H. exact Hr.
Qed.

(** ** Every register handler is [good] *)

Ltac keeps_field :=
  constructor; cbn;
  try solve [ auto
            | exists []; rewrite app_nil_r; split; [reflexivity | constructor] ].

Ltac good_step :=
  cbv beta zeta;
  lazymatch goal with
  | |- good (ret _) _ => apply good_ret
  | |- good (bind get _) _ => apply good_get_bind
  | |- good (bind _ _) _ => apply good_bind; [ | intros ? ? ? ]
  | |- good (putd _ _ _) _ => apply good_putd; [lia | lia | reflexivity]
  | |- good (putr _) _ => apply good_putr; lia
  | |- good (putr_each _) _ =>
      apply good_putr_each; repeat (constructor; try lia)
  | |- good (put _ _ _) _ => apply good_put; reflexivity
  | |- good (modify (set_days _)) _ =>
      apply good_modify; keeps_field; right; apply weekday_value_range
  | |- good (modify _) _ => apply good_modify; keeps_field
  | |- good (weekday_name (days ?d)) ?d =>
      apply good_weekday_name; intros [_ ?]; assumption
  | |- good (weekday_name (bcd2int (Z.land ?b 7))) _ =>
      apply good_weekday_name; intros _;
      pose proof (weekday_value_range b); lia
  | |- good (lift KeyError (rates _)) _ =>
      apply good_lift; intros _; apply rates_total
  | |- good (if ?c then _ else _) _ => destruct c
  | |- good (match ?c with _ => _ end) _ => destruct c
  end.

Ltac good_handler h := intros; unfold h; repeat good_step.

Lemma good_handle_reg_0x00 b rw d : good (handle_reg_0x00 b rw) d.
Proof. good_handler handle_reg_0x00. Qed.

Lemma good_handle_reg_0x01 b rw d : good (handle_reg_0x01 b rw) d.
Proof. good_handler handle_reg_0x01. Qed.

Lemma good_handle_reg_0x02 b rw d : good (handle_reg_0x02 b rw) d.
Proof. good_handler handle_reg_0x02. Qed.

Lemma good_handle_reg_0x03 b rw d : good (handle_reg_0x03 b rw) d.
Proof. good_handler handle_reg_0x03. Qed.

Lemma good_handle_reg_0x04 b rw d : good (handle_reg_0x04 b rw) d.
Proof. good_handler handle_reg_0x04. Qed.

Lemma good_handle_reg_0x05 b rw d : good (handle_reg_0x05 b rw) d.
Proof. good_handler handle_reg_0x05. Qed.

Lemma good_handle_reg_0x06 b rw d : good (handle_reg_0x06 b rw) d.
Proof. good_handler handle_reg_0x06. Qed.

Lemma good_handle_reg_0x07 b rw d : good (handle_reg_0x07 b rw) d.
Proof. good_handler handle_reg_0x07. Qed.

Lemma good_handle_reg_0x08 b rw d : good (handle_reg_0x08 b rw) d.
Proof. good_handler handle_reg_0x08. Qed.

Lemma good_handle_reg_0x09 b rw d : good (handle_reg_0x09 b rw) d.
Proof. good_handler handle_reg_0x09. Qed.

Lemma good_handle_reg_0x0b b rw d : good (handle_reg_0x0b b rw) d.
Proof. good_handler handle_reg_0x0b. Qed.

Lemma good_handle_reg_0x0c b rw d : good (handle_reg_0x0c b rw) d.
Proof. good_handler handle_reg_0x0c. Qed.

Lemma good_handle_reg_0x0e b rw d : good (handle_reg_0x0e b rw) d.
Proof. good_handler handle_reg_0x0e. Qed.

Lemma good_handle_reg_0x0f b rw d : good (handle_reg_0x0f b rw) d.
Proof. good_handler handle_reg_0x0f. Qed.

Lemma good_handle_reg_0x10 b rw d : good (handle_reg_0x10 b rw) d.
Proof. good_handler handle_reg_0x10. Qed.

Lemma good_handle_reg_0x11 b rw d : good (handle_reg_0x11 b rw) d.
Proof. good_handler handle_reg_0x11. Qed.

Lemma good_handle_reg_0x12 b rw d : good (handle_reg_0x12 b rw) d.
Proof. good_handler handle_reg_0x12. Qed.

Lemma good_alarm_day_date b dydt lbl d : good (alarm_day_date b dydt lbl) d.
Proof. good_handler alarm_day_date. Qed.

(** The local [ws] is bound whenever the DY/DT bit is set. *)
Lemma alarm_day_date_bound b dydt lbl d ws d' :
  alarm_day_date b dydt lbl d = inr (ws, d') ->
  (dydt =? 1) = true -> exists s, ws = Some s.
Proof.
  unfold alarm_day_date. intros H E. rewrite E in H.
  unfold bind in H.
  destruct (weekday_name _ d) as [e | [s d1]]; [discriminate | ].
  destruct (putd 2 0 _ d1) as [e | [u d2]]; [discriminate | ].
  inversion H. eauto.
Qed.

Lemma good_alarm1_setting self a1m4 a1dydt ws da d :
  ((a1dydt =? 1) = true -> exists s, ws = Some s) ->
  good (alarm1_setting self a1m4 a1dydt ws da) d.
Proof.
  intros Hws. unfold alarm1_setting. cbv zeta.
  repeat match goal with
         | |- good (if tup4_eqb ?p ?q then _ else _) _ => destruct (tup4_eqb p q)
         | |- good (ret _) _ => apply good_ret
         end.
  apply good_bind; [ | intros; apply good_ret].
  destruct (a1dydt =? 1); [ | apply good_ret].
  apply good_lift. intros _. apply Hws. reflexivity.
Qed.

Lemma good_alarm2_setting self a2m4 a2dydt ws da d :
  ((a2dydt =? 1) = true -> exists s, ws = Some s) ->
  good (alarm2_setting self a2m4 a2dydt ws da) d.
Proof.
  intros Hws. unfold alarm2_setting. cbv zeta.
  repeat match goal with
         | |- good (if tup3_eqb ?p ?q then _ else _) _ => destruct (tup3_eqb p q)
         | |- good (ret _) _ => apply good_ret
         end.
  apply good_bind; [ | intros; apply good_ret].
  destruct (a2dydt =? 1); [ | apply good_ret].
  apply good_lift. intros _. apply Hws. reflexivity.
Qed.

Lemma good_handle_reg_0x0a b rw d : good (handle_reg_0x0a b rw) d.
Proof.
  unfold handle_reg_0x0a.
  do 3 (cbv beta zeta; apply good_bind; [good_step | intros ? ? _]).
  cbv beta zeta. apply good_bind; [apply good_alarm_day_date | ].
  intros ws d3 Hws. apply good_get_bind. cbv beta.
  apply good_bind; [ | intros; good_step].
  destruct (_ && _); [ | apply good_ret].
  apply good_bind; [ | intros; good_step].
  apply good_alarm1_setting. intros E.
  eapply alarm_day_date_bound; eassumption.
Qed.

Lemma good_handle_reg_0x0d b rw d : good (handle_reg_0x0d b rw) d.
Proof.
  unfold handle_reg_0x0d.
  do 3 (cbv beta zeta; apply good_bind; [good_step | intros ? ? _]).
  cbv beta zeta. apply good_bind; [apply good_alarm_day_date | ].
  intros ws d3 Hws. apply good_get_bind. cbv beta.
  apply good_bind; [ | intros; good_step].
  destruct (_ && _); [ | apply good_ret].
  apply good_bind; [ | intros; good_step].
  apply good_alarm2_setting. intros E.
  eapply alarm_day_date_bound; eassumption.
Qed.

(** The handler of every register in range. *)
Lemma good_handler_of r fn b rw d :
  handler_of r = Some fn -> good (fn b rw) d.
Proof.
  unfold handler_of. intros H.
  repeat match type of H with
         | match ?x with _ => _ end = _ => destruct x; try discriminate
         end;
    inversion H; subst;
    auto using good_handle_reg_0x00, good_handle_reg_0x01,
      good_handle_reg_0x02, good_handle_reg_0x03, good_handle_reg_0x04,
      good_handle_reg_0x05, good_handle_reg_0x06, good_handle_reg_0x07,
      good_handle_reg_0x08, good_handle_reg_0x09, good_handle_reg_0x0a,
      good_handle_reg_0x0b, good_handle_reg_0x0c, good_handle_reg_0x0d,
      good_handle_reg_0x0e, good_handle_reg_0x0f, good_handle_reg_0x10,
      good_handle_reg_0x11, good_handle_reg_0x12.
Qed.

Lemma handler_of_in_range r :
  reg_in_range r = true -> exists fn, handler_of r = Some fn.
Proof.
  unfold reg_in_range. intros H.
  apply andb_true_iff in H. destruct H as [H1 H2].
  apply Z.leb_le in H1. apply Z.ltb_lt in H2.
  assert (Hc : r = 0 \/ r = 1 \/ r = 2 \/ r = 3 \/ r = 4 \/ r = 5 \/ r = 6 \/
               r = 7 \/ r = 8 \/ r = 9 \/ r = 10 \/ r = 11 \/ r = 12 \/
               r = 13 \/ r = 14 \/ r = 15 \/ r = 16 \/ r = 17 \/ r = 18)
    by lia.
  repeat (destruct Hc as [-> | Hc]; [cbn; eauto | ]).
  subst. cbn. eauto.
Qed.

(** ** Dispatch of one access *)

Lemma handle_reg_in_range b rw d :
  reg_in_range (reg d) = true ->
  forall fn, handler_of (reg d) = Some fn ->
  handle_reg b rw d =
  match fn b rw d with
  | inl e => inl e
  | inr (_, d1) => inr (tt, bump d1)
  end.
Proof.
  intros Hr fn Hfn. unfold handle_reg, bind, get. rewrite Hr. cbn [negb].
  rewrite Hfn. cbn [lift ret].
  destruct (fn b rw d) as [e | [u d1]]; reflexivity.
Qed.

Lemma reg_in_range_iff r : reg_in_range r = true <-> 0 <= r <= 0x12.
Proof.
  unfold reg_in_range. rewrite andb_true_iff, Z.leb_le, Z.ltb_lt. lia.
Qed.

Lemma reg_bump d :
  reg_in_range (reg d) = true ->
  reg (bump d) = (if reg d =? 0x12 then 0 else reg d + 1) /\
  reg_in_range (reg (bump d)) = true.
Proof.
  intros Hr. apply reg_in_range_iff in Hr. unfold bump. cbn.
  rewrite Z.gtb_ltb.
  destruct (Z.ltb_spec 18 (reg d + 1)) as [E | E];
    destruct (Z.eqb_spec (reg d) 18) as [E' | E']; cbn;
    rewrite ?reg_in_range_iff; split; first [reflexivity | lia].
Qed.

Lemma keeps_bump d d1 :
  keeps d d1 ->
  bits (bump d1) = bits d /\ state (bump d1) = state d /\
  options (bump d1) = options d /\ ss (bump d1) = ss d /\
  es (bump d1) = es d /\
  (exists l, out (bump d1) = out d ++ l /\ Forall not_warning l) /\
  (days (bump d1) = days d \/ 0 <= days (bump d1) <= 7) /\
  reg (bump d1) = reg (bump d).
Proof.
  intros [R B S O SS ES OUT D]. unfold bump. cbn.
  rewrite R. destruct (reg d + 1 >? 18); cbn; auto 10.
Qed.

(** One access at a register in range: the handler runs, then the pointer
    advances. *)
Lemma handle_reg_frame b rw d u d' :
  reg_in_range (reg d) = true ->
  handle_reg b rw d = inr (u, d') ->
  reg d' = (if reg d =? 0x12 then 0 else reg d + 1) /\
  reg_in_range (reg d') = true /\
  bits d' = bits d /\ state d' = state d /\ options d' = options d /\
  ss d' = ss d /\ es d' = es d /\
  (exists l, out d' = out d ++ l /\ Forall not_warning l) /\
  (days d' = days d \/ 0 <= days d' <= 7).
Proof.
  intros Hr H.
  destruct (handler_of_in_range _ Hr) as [fn Hfn].
  rewrite (handle_reg_in_range b rw d Hr fn Hfn) in H.
  destruct (fn b rw d) as [e | [u1 d1]] eqn:E; [discriminate | ].
  inversion H; subst d'. clear H.
  destruct (good_handler_of _ fn b rw d Hfn) as [P _].
  specialize (P u1 d1 E).
  destruct (keeps_bump d d1 P) as (B & S & O & SS & ES & OUT & D & R).
  destruct (reg_bump d Hr) as [R1 R2].
  rewrite R. auto 12.
Qed.

Lemma handle_reg_returns b rw d :
  reg_in_range (reg d) = true -> ready d ->
  exists d', handle_reg b rw d = inr (tt, d').
Proof.
  intros Hr Hd.
  destruct (handler_of_in_range _ Hr) as [fn Hfn].
  rewrite (handle_reg_in_range b rw d Hr fn Hfn).
  destruct (good_handler_of _ fn b rw d Hfn) as [_ T].
  destruct (T Hd) as [a [d1 E]]. rewrite E. eauto.
Qed.

(** ** The cached weekday of a session *)

Lemma handle_reg_days b rw d u d' :
  handle_reg b rw d = inr (u, d') ->
  days d' = days d \/ 0 <= days d' <= 7.
Proof.
  intros H. destruct (reg_in_range (reg d)) eqn:Hr.
  - destruct (handle_reg_frame b rw d u d' Hr H)
      as (_ & _ & _ & _ & _ & _ & _ & _ & D). exact D.
  - unfold handle_reg, bind, get in H. rewrite Hr in H.
    inversion H; subst. left. reflexivity.
Qed.

Lemma is_correct_chip_days addr d ok d' :
  is_correct_chip addr d = inr (ok, d') -> days d' = days d.
Proof.
  unfold is_correct_chip. intros H.
  destruct (addr =? DS3231_I2C_ADDRESS); inversion H; subst; reflexivity.
Qed.

Lemma decode_days s e p d u d' :
  decode s e p d = inr (u, d') ->
  days d' = days d \/ 0 <= days d' <= 7.
Proof.
  intros H.
  destruct p; unfold decode, bind, modify, get in H;
    cbn -[handle_reg is_correct_chip] in H;
    try (inversion H; subst; left; reflexivity);
    destruct (state d) eqn:Es; cbn -[handle_reg is_correct_chip] in H;
    try (inversion H; subst; left; reflexivity);
    try (apply (handle_reg_days _ _ _ _ _ H)).
  - destruct (is_correct_chip _ _) as [x | [ok d1]] eqn:E; [discriminate | ].
    apply is_correct_chip_days in E.
    destruct ok; inversion H; subst; left; exact E.
  - destruct (is_correct_chip _ _) as [x | [ok d1]] eqn:E; [discriminate | ].
    apply is_correct_chip_days in E.
    destruct ok; inversion H; subst; left; exact E.
Qed.

(** X18. In every session the cached weekday can index a tuple of seven
    names, so the lookup of the year handler never raises: the second half
    of [ready] is an invariant. *)
Lemma session_days_in_range o trace d :
  session o trace = inr d -> -6 <= days d <= 7.
Proof.
  unfold session.
  assert (G : forall tr d0 u d1,
             run tr d0 = inr (u, d1) -> -6 <= days d0 <= 7 ->
             -6 <= days d1 <= 7).
  { induction tr as [ | [[s e] p] rest IH]; intros d0 u d1 H H0.
    - inversion H; subst. exact H0.
    - cbn [run] in H. unfold bind in H.
      destruct (decode s e p d0) as [x | [u1 d2]] eqn:E; [discriminate | ].
      apply (IH d2 u d1 H).
      destruct (decode_days s e p d0 u1 d2 E) as [D | D]; [rewrite D | ]; lia. }
  destruct (run trace (init o)) as [x | [u d1]] eqn:E; [discriminate | ].
  intros H. inversion H; subst.
  apply (G trace (init o) u d E). cbn. lia.
Qed.

(** * Running a handler step by step *)

Lemma eight_entries {A : Type} (l : list A) :
  (8 <= List.length l)%nat ->
  exists b0 b1 b2 b3 b4 b5 b6 b7 tl,
    l = b0 :: b1 :: b2 :: b3 :: b4 :: b5 :: b6 :: b7 :: tl.
Proof.
  intros H.
  do 8 (destruct l as [ | ? l]; [cbn in H; lia | ]).
  repeat eexists.
Qed.

Lemma bind_inr {A B : Type} (m : act A) (k : A -> act B) d a d' :
  m d = inr (a, d') -> bind m k d = k a d'.
Proof. intros H. unfold bind. rewrite H. reflexivity. Qed.

Lemma run_putd i j data d x y :
  nth_error (bits d) i = Some x -> nth_error (bits d) j = Some y ->
  putd i j data d =
  inr (tt, emit (mkAnnotation (snd (fst x)) (snd y) (fst data) (snd data)) d).
Proof.
  intros Hx Hy. unfold putd, bits_at, bind, get, lift. rewrite Hx. cbn.
  rewrite Hy. reflexivity.
Qed.

Lemma run_putr i d x :
  nth_error (bits d) i = Some x ->
  putr i d =
  inr (tt, emit (mkAnnotation (snd (fst x)) (snd x) BIT_RESERVED
                   ["Reserved bit"; "Reserved"; "Rsvd"; "R"]%string) d).
Proof.
  intros Hx. unfold putr, bits_at, bind, get, lift. rewrite Hx. cbn.
  rewrite Hx. reflexivity.
Qed.

Lemma run_weekday_name_zero d :
  weekday_name 0 d = inr (nth 6 (days_of_week (fdw (options d))) ""%string, d).
Proof.
  unfold weekday_name, bind, get. destruct (fdw (options d)); reflexivity.
Qed.

Ltac fields :=
  cbn [state bits seconds minutes ampm hours days date months a1m1 al1seconds
       a1m2 al1minutes a1m3 a1ampm al1hours a2m2 al2minutes a2m3 a2ampm
       al2hours tempMSB startreg inblock blockmode reg ss es options out
       set_state set_bits set_seconds set_minutes set_ampm set_hours set_days
       set_date set_months set_a1m1 set_al1seconds set_a1m2 set_al1minutes
       set_a1m3 set_a1ampm set_al1hours set_a2m2 set_al2minutes set_a2m3
       set_a2ampm set_al2hours set_tempMSB set_startreg set_inblock
       set_blockmode set_reg set_ss set_es set_out emit].

Ltac bits_lookup Hbits := fields; rewrite Hbits; reflexivity.

Ltac run_leaf Hbits :=
  lazymatch goal with
  | |- putd _ _ _ _ = _ => apply run_putd; bits_lookup Hbits
  | |- putr _ _ = _ => apply run_putr; bits_lookup Hbits
  | |- modify _ _ = _ => reflexivity
  | |- get _ = _ => reflexivity
  | |- ret _ _ = _ => reflexivity
  | |- put _ _ _ _ = _ => reflexivity
  | |- weekday_name 0 _ = _ => apply run_weekday_name_zero
  end.

Lemma bind_assoc {A B C : Type} (m : act A) (f : A -> act B) (g : B -> act C) d :
  bind (bind m f) g d = bind m (fun a => bind (f a) g) d.
Proof. unfold bind. destruct (m d) as [e | [a d']]; reflexivity. Qed.

Ltac run_step Hbits :=
  cbv beta zeta;
  lazymatch goal with
  | |- context [bind (bind ?m ?f) ?g ?d] => rewrite (bind_assoc m f g d)
  | |- context [bind ?m ?k ?d] =>
      erewrite (bind_inr m k d); [ | run_leaf Hbits]; fields; cbn [fst snd]
  end.

(** The last action of a method is a [modify], a [put] or a [ret]. *)
Ltac run_last :=
  cbv beta zeta; cbv [modify put ret]; fields; cbn [fst snd];
  rewrite <- ?app_assoc; cbn [app].

Ltac out_shape :=
  fields; cbn [fst snd]; rewrite <- ?app_assoc; cbn [app]; reflexivity.

Lemma alarm1_setting_returns self a1m4 a1dydt ws da d :
  exists txt, alarm1_setting self a1m4 a1dydt (Some ws) da d = inr (txt, d).
Proof.
  unfold alarm1_setting. cbv zeta.
  repeat match goal with
         | |- context [if tup4_eqb ?p ?q then _ else _] =>
             destruct (tup4_eqb p q)
         end;
    try destruct (a1dydt =? 1); eexists; reflexivity.
Qed.

Lemma alarm2_setting_returns self a2m4 a2dydt ws da d :
  exists txt, alarm2_setting self a2m4 a2dydt (Some ws) da d = inr (txt, d).
Proof.
  unfold alarm2_setting. cbv zeta.
  repeat match goal with
         | |- context [if tup3_eqb ?p ?q then _ else _] =>
             destruct (tup3_eqb p q)
         end;
    try destruct (a2dydt =? 1); eexists; reflexivity.
Qed.

Lemma run_weekday_name w d ws :
  py_index (days_of_week (fdw (options d))) (w - 1) = Some ws ->
  weekday_name w d = inr (ws, d).
Proof.
  intros H. unfold weekday_name, bind, get, lift. rewrite H. reflexivity.
Qed.

Lemma block_condition d prev rw :
  (inblock d =? prev) && (blockmode d =? rw)%string = true <->
  inblock d = prev /\ blockmode d = rw.
Proof. rewrite andb_true_iff, Z.eqb_eq, String.eqb_eq. reflexivity. Qed.

Ltac run_day_date b d E :=
  unfold alarm_day_date, bit_of;
  let Ews := fresh "Ews" in
  let ws := fresh "ws" in
  destruct (days_of_week_index (fdw (options d)) (bcd2int (Z.land b 7))
              ltac:(pose proof (weekday_value_range b); lia)) as [ws Ews];
  destruct (bit_set b 6);
  [ change (1 =? 1) with true | change (0 =? 1) with false ]; cbv iota;
  repeat first
    [ run_step E
    | erewrite (bind_inr (weekday_name _) _ _ ws)
        by (apply run_weekday_name; fields; exact Ews) ].

(** * The register pointer *)

Lemma handle_regs_advance (accesses : list (Z * string)) :
  forall d, reg_in_range (reg d) = true -> ready d ->
  exists d', handle_regs accesses d = inr (tt, d') /\
             reg d' = (reg d + Z.of_nat (List.length accesses)) mod 19.
Proof.
  induction accesses as [ | [b rw] rest IH]; intros d Hr Hd.
  - exists d. split; [reflexivity | ].
    apply reg_in_range_iff in Hr. cbn [List.length Z.of_nat].
    rewrite Z.add_0_r, Z.mod_small by lia. reflexivity.
  - destruct (handle_reg_returns b rw d Hr Hd) as [d1 E1].
    destruct (handle_reg_frame b rw d tt d1 Hr E1)
      as (R & Rr & B & _ & _ & _ & _ & _ & D).
    assert (Hd1 : ready d1).
    { destruct Hd as [Hb Hw]. split; [rewrite B; exact Hb | ].
      destruct D as [D | D]; [rewrite D; exact Hw | lia]. }
    destruct (IH d1 Rr Hd1) as [d' [E' R']].
    exists d'. split.
    + cbn [handle_regs]. unfold bind. rewrite E1. exact E'.
    + rewrite R'. apply reg_in_range_iff in Hr.
      replace (reg d + Z.of_nat (List.length ((b, rw) :: rest)))
        with (reg d + 1 + Z.of_nat (List.length rest))
        by (cbn [List.length]; lia).
      assert (R1 : reg d1 = (reg d + 1) mod 19).
      { rewrite R. destruct (reg d =? 18) eqn:E.
        - apply Z.eqb_eq in E. rewrite E. reflexivity.
        - apply Z.eqb_neq in E. rewrite Z.mod_small by lia. reflexivity. }
      rewrite R1. apply Z.add_mod_idemp_l. lia.
Qed.

(** C3. From a register pointer in [0x00, 0x12] (and with a ['BITS'] packet
    buffered, without which no handler returns), N successive dispatches by
    [handle_reg] return and leave the pointer at (start + N) mod 19, whatever
    the bytes and directions; one dispatch moves the pointer to the next
    address, and to 0x00 exactly when it was 0x12. *)
Theorem register_pointer_advances
  (accesses : list (Z * string)) (d : Decoder)
  (Hreg : 0 <= reg d <= 0x12) (Hready : ready d) :
  (exists d', handle_regs accesses d = inr (tt, d') /\
              reg d' = (reg d + Z.of_nat (List.length accesses)) mod 19) /\
  (forall b rw, exists d1, handle_reg b rw d = inr (tt, d1) /\
                           reg d1 = (if reg d =? 0x12 then 0 else reg d + 1) /\
                           (reg d1 = 0 <-> reg d = 0x12)).
Proof.
  apply reg_in_range_iff in Hreg. split.
  - apply handle_regs_advance; assumption.
  - intros b rw.
    destruct (handle_reg_returns b rw d Hreg Hready) as [d1 E1].
    destruct (handle_reg_frame b rw d tt d1 Hreg E1) as (R & _).
    exists d1. split; [exact E1 | split; [exact R | ]].
    apply reg_in_range_iff in Hreg. rewrite R.
    destruct (reg d =? 18) eqn:E.
    + apply Z.eqb_eq in E. lia.
    + apply Z.eqb_neq in E. lia.
Qed.

(** Twenty-one accesses from register 0x11 end at register 0x00 + 0x0d. *)
Lemma register_pointer_advances_witness :
  let d := set_reg 0x11 (set_bits (eight_bits 0) (init default_options)) in
  let accesses := repeat (0x59, "Read"%string) 21 in
  0 <= reg d <= 0x12 /\ ready d /\
  (exists d', handle_regs accesses d = inr (tt, d') /\ reg d' = 0x00) /\
  (forall b rw, exists d1, handle_reg b rw d = inr (tt, d1) /\
                           reg d1 = 0x12 /\ (reg d1 = 0 <-> reg d = 0x12)).
Proof.
  intros d accesses.
  assert (Hreg : 0 <= reg d <= 0x12) by (cbn; lia).
  assert (Hready : ready d) by (split; cbn; lia).
  split; [exact Hreg | split; [exact Hready | ]].
  exact (register_pointer_advances accesses d Hreg Hready).
Defined.

(** C4. With the register pointer outside [0x00, 0x12], an access returns
    the session unchanged but for one out-of-range warning: no handler has
    run, the pointer has not moved, and the state machine stays in the
    transfer state it was in. *)
Theorem out_of_range_access_skipped
  (b : Z) (rw : string) (d : Decoder)
  (Hreg : reg d < 0 \/ 0x12 < reg d) :
  handle_reg b rw d =
    inr (tt, set_out (out d ++ [out_of_range_warning d]) d) /\
  (forall s e, state d = WRITE_RTC_REGS ->
     let d0 := set_es e (set_ss s d) in
     decode s e (DATA_WRITE b) d =
       inr (tt, set_out (out d ++ [out_of_range_warning d0]) d0)) /\
  (forall s e, state d = READ_RTC_REGS ->
     let d0 := set_es e (set_ss s d) in
     decode s e (DATA_READ b) d =
       inr (tt, set_out (out d ++ [out_of_range_warning d0]) d0)).
Proof.
  assert (Hr : reg_in_range (reg d) = false).
  { destruct (reg_in_range (reg d)) eqn:E; [ | reflexivity].
    apply reg_in_range_iff in E. lia. }
  split; [ | split].
  - unfold handle_reg, bind, get. rewrite Hr. reflexivity.
  - intros s e Hs d0. unfold decode, bind, modify, get. cbn.
    rewrite Hs. unfold handle_reg, bind, get. cbn. rewrite Hr. reflexivity.
  - intros s e Hs d0. unfold decode, bind, modify, get. cbn.
    rewrite Hs. unfold handle_reg, bind, get. cbn. rewrite Hr. reflexivity.
Qed.

Lemma out_of_range_access_skipped_witness :
  let d := set_state WRITE_RTC_REGS (set_reg 0x20 (init default_options)) in
  (reg d < 0 \/ 0x12 < reg d) /\
  handle_reg 0x55 "Wrote" d =
    inr (tt, set_out (out d ++ [out_of_range_warning d]) d) /\
  reg d = 0x20.
Proof.
  intros d.
  assert (Hreg : reg d < 0 \/ 0x12 < reg d) by (right; cbn; lia).
  split; [exact Hreg | split; [ | reflexivity]].
  exact (proj1 (out_of_range_access_skipped 0x55 "Wrote" d Hreg)).
Defined.

(** * Foreign slave addresses *)

(** In [IDLE] every packet but ['START'] is ignored. *)
Lemma decode_idle s e p d :
  state d = IDLE -> p <> START ->
  exists d', decode s e p d = inr (tt, d') /\
             state d' = IDLE /\ out d' = out d /\ reg d' = reg d /\
             block_state d' = block_state d /\
             cached_fields d' = cached_fields d.
Proof.
  intros Hs Hp.
  destruct p; try congruence;
    unfold decode, bind, modify, get; cbn; try rewrite Hs;
    (eexists; split; [reflexivity | cbn; auto 6]).
Qed.

Lemma run_idle trace :
  forall d, state d = IDLE -> no_start trace ->
  exists d', run trace d = inr (tt, d') /\
             state d' = IDLE /\ out d' = out d /\ reg d' = reg d /\
             block_state d' = block_state d /\
             cached_fields d' = cached_fields d.
Proof.
  induction trace as [ | [[s e] p] rest IH]; intros d Hs Hn.
  - exists d. auto 6.
  - inversion Hn as [ | x l Hp Hrest]; subst. cbn in Hp.
    destruct (decode_idle s e p d Hs Hp) as (d1 & E1 & S1 & O1 & R1 & B1 & C1).
    destruct (IH d1 S1 Hrest) as (d2 & E2 & S2 & O2 & R2 & B2 & C2).
    exists d2. split.
    + cbn [run]. unfold bind. rewrite E1. exact E2.
    + repeat split; congruence.
Qed.

(** C6. While the slave address is awaited, an address packet for another
    chip than 0x68 yields one warning and the state [IDLE], and changes
    nothing else; the packets that follow, up to the next ['START'], are
    ignored, so the transaction yields no further annotation and the next one
    starts from an unchanged register pointer and block state.  The trace
    START, ADDRESS WRITE 0x50, STOP gives that one warning and ends in
    [IDLE]. *)
Theorem foreign_address_ignored
  (addr s e : Z) (p : packet) (d : Decoder)
  (Haddr : addr <> 0x68) (Hstate : state d = GET_SLAVE_ADDR)
  (Hp : p = ADDRESS_WRITE addr \/ p = ADDRESS_READ addr) :
  decode s e p d =
    inr (tt, set_state IDLE
               (set_out (out d ++ [wrong_chip_warning s e addr])
                  (set_es e (set_ss s d)))) /\
  (forall rest, no_start rest ->
     exists d', run ((s, e, p) :: rest) d = inr (tt, d') /\
                out d' = out d ++ [wrong_chip_warning s e addr] /\
                state d' = IDLE /\ reg d' = reg d /\
                block_state d' = block_state d /\
                cached_fields d' = cached_fields d) /\
  (forall s0 e0 s1 e1 s2 e2,
     exists d', session default_options
                  [(s0, e0, START); (s1, e1, ADDRESS_WRITE 0x50);
                   (s2, e2, STOP)] = inr d' /\
                out d' = [wrong_chip_warning s1 e1 0x50] /\
                a_texts (wrong_chip_warning s1 e1 0x50) =
                  ["Ignoring non-DS3231 data (slave 0x50)"%string] /\
                state d' = IDLE).
Proof.
  assert (Hne : (addr =? DS3231_I2C_ADDRESS) = false)
    by (apply Z.eqb_neq; exact Haddr).
  assert (Hd : decode s e p d =
    inr (tt, set_state IDLE
               (set_out (out d ++ [wrong_chip_warning s e addr])
                  (set_es e (set_ss s d))))).
  { destruct Hp as [-> | ->];
      unfold decode, bind, modify, get; cbn; rewrite Hstate;
      unfold is_correct_chip; rewrite Hne; reflexivity. }
  split; [exact Hd | split].
  - intros rest Hn.
    destruct (run_idle rest
                (set_state IDLE
                   (set_out (out d ++ [wrong_chip_warning s e addr])
                      (set_es e (set_ss s d)))) eq_refl Hn)
      as (d' & E & S & O & R & B & C).
    exists d'. split.
    + cbn [run]. unfold bind. rewrite Hd. exact E.
    + repeat split; assumption.
  - intros s0 e0 s1 e1 s2 e2. unfold session.
    match goal with
    | |- context [run ?t ?i] =>
        let r := eval vm_compute in (run t i) in
        change (run t i) with r
    end.
    eexists. split; [reflexivity | ]. cbn. auto.
Qed.

Lemma foreign_address_ignored_witness :
  let d := set_state GET_SLAVE_ADDR (init default_options) in
  0x50 <> 0x68 /\ state d = GET_SLAVE_ADDR /\
  decode 1 9 (ADDRESS_READ 0x50) d =
    inr (tt, set_state IDLE
               (set_out (out d ++ [wrong_chip_warning 1 9 0x50])
                  (set_es 9 (set_ss 1 d)))).
Proof.
  intros d.
  assert (Haddr : 0x50 <> 0x68) by lia.
  split; [exact Haddr | split; [reflexivity | ]].
  exact (proj1 (foreign_address_ignored 0x50 1 9 (ADDRESS_READ 0x50) d
                  Haddr eq_refl (or_intror eq_refl))).
Defined.

(** * Whole traces *)

(** Evaluate [run] on a trace whose packets are known. *)
Ltac eval_run :=
  match goal with
  | |- context [run ?t ?i] =>
      let r := eval vm_compute in (run t i) in
      let E := fresh "E" in
      assert (E : run t i = r) by (vm_compute; reflexivity);
      rewrite E; clear E
  end.

(** C1. The temperature block is emitted although the direction changed
    between its two registers: the MSB at 0x11 is written, the LSB at 0x12 is
    read after a repeated start, and the block annotation appears, labelled
    with the direction of the second access.  The date and time block, in the
    same situation, is not emitted. *)
Theorem temperature_block_ignores_direction :
  (exists d,
     session default_options (standard temperature_write_then_read) = inr d /\
     in_row RowBlockData (out d) =
       [mkAnnotation 30 68 BLOCK_TEMPERATURE
          ["Read block data: Temperature: 25.75"%string]]) /\
  (exists d,
     session default_options (standard date_time_write_then_read) = inr d /\
     in_row RowBlockData (out d) = []).
Proof.
  split; unfold session; eval_run; eexists; (split; [reflexivity | ]);
    vm_compute; reflexivity.
Qed.

(** ** The blocks that do check the direction *)

(** The year handler emits the date and time block only when the month
    handler left [inblock] at 5 and the direction is the one recorded at the
    seconds register. *)
Lemma date_time_block_needs_direction b rw d d' l :
  ready d ->
  handle_reg_0x06 b rw d = inr (tt, d') -> out d' = out d ++ l ->
  in_row RowBlockData l <> [] ->
  inblock d = 5 /\ blockmode d = rw.
Proof.
  intros [Hb Hd] H Hout Hne.
  destruct ((inblock d =? 5) && (blockmode d =? rw)%string) eqn:Ec;
    [apply block_condition; exact Ec | exfalso].
  destruct (eight_entries _ Hb) as (b0&b1&b2&b3&b4&b5&b6&b7&tl&E).
  revert H. unfold handle_reg_0x06.
  repeat run_step E. rewrite Ec. repeat run_step E. run_last.
  intros H. inversion H; subst d'. clear H.
  revert Hout. fields. rewrite <- ?app_assoc. cbn [app]. intros Hout.
  apply app_inv_head in Hout. subst l. apply Hne. reflexivity.
Qed.

Lemma alarm1_block_needs_direction b rw d d' l :
  ready d ->
  handle_reg_0x0a b rw d = inr (tt, d') -> out d' = out d ++ l ->
  in_row RowBlockData l <> [] ->
  inblock d = 9 /\ blockmode d = rw.
Proof.
  intros [Hb Hd] H Hout Hne.
  destruct ((inblock d =? 9) && (blockmode d =? rw)%string) eqn:Ec;
    [apply block_condition; exact Ec | exfalso].
  destruct (eight_entries _ Hb) as (b0&b1&b2&b3&b4&b5&b6&b7&tl&E).
  revert H. unfold handle_reg_0x0a.
  run_day_date b d E; rewrite Ec; repeat run_step E; run_last;
    intros H; inversion H; subst d'; clear H;
    revert Hout; fields; rewrite <- ?app_assoc; cbn [app]; intros Hout;
    apply app_inv_head in Hout; subst l; apply Hne; reflexivity.
Qed.

Lemma alarm2_block_needs_direction b rw d d' l :
  ready d ->
  handle_reg_0x0d b rw d = inr (tt, d') -> out d' = out d ++ l ->
  in_row RowBlockData l <> [] ->
  inblock d = 0x0c /\ blockmode d = rw.
Proof.
  intros [Hb Hd] H Hout Hne.
  destruct ((inblock d =? 12) && (blockmode d =? rw)%string) eqn:Ec;
    [apply block_condition; exact Ec | exfalso].
  destruct (eight_entries _ Hb) as (b0&b1&b2&b3&b4&b5&b6&b7&tl&E).
  revert H. unfold handle_reg_0x0d.
  run_day_date b d E; rewrite Ec; repeat run_step E; run_last;
    intros H; inversion H; subst d'; clear H;
    revert Hout; fields; rewrite <- ?app_assoc; cbn [app]; intros Hout;
    apply app_inv_head in Hout; subst l; apply Hne; reflexivity.
Qed.

(** The temperature handler asks for [inblock] only. *)
Lemma temperature_block_needs_sequence b rw d d' l :
  ready d ->
  handle_reg_0x12 b rw d = inr (tt, d') -> out d' = out d ++ l ->
  in_row RowBlockData l <> [] ->
  inblock d = 0x11.
Proof.
  intros [Hb Hd] H Hout Hne.
  destruct (inblock d =? 17) eqn:Ec; [apply Z.eqb_eq; exact Ec | exfalso].
  destruct (eight_entries _ Hb) as (b0&b1&b2&b3&b4&b5&b6&b7&tl&E).
  revert H. unfold handle_reg_0x12, putr_each.
  repeat run_step E. rewrite Ec. repeat run_step E. run_last.
  intros H. inversion H; subst d'. clear H.
  revert Hout. fields. rewrite <- ?app_assoc. cbn [app]. intros Hout.
  apply app_inv_head in Hout. subst l. apply Hne. reflexivity.
Qed.

(** * The ['STOP'] condition *)

(** A ['STOP'] while the slave address is awaited is ignored: the state is
    not [IDLE] afterwards. *)
Lemma stop_awaiting_address_counterexample :
  exists d,
    session default_options (bare start_then_stop) = inr d /\
    state d = GET_SLAVE_ADDR /\ state d <> IDLE.
Proof.
  unfold session. eval_run. eexists. split; [reflexivity | ].
  split; [reflexivity | discriminate].
Qed.

(** C9, amended. A ['STOP'] leaves the state machine in [IDLE], except while
    the slave address is awaited, where it is ignored; in every state it
    leaves the register pointer, the block-aggregation state, the cached
    field values and the annotations untouched.  So the date and time
    registers written in two transactions, the second resuming at 0x03,
    still yield the block annotation. *)
Theorem stop_keeps_registers (s e : Z) (d : Decoder) :
  (exists d',
     decode s e STOP d = inr (tt, d') /\
     state d' = match state d with
                | GET_SLAVE_ADDR => GET_SLAVE_ADDR
                | _ => IDLE
                end /\
     reg d' = reg d /\ block_state d' = block_state d /\
     cached_fields d' = cached_fields d /\
     out d' = out d /\ bits d' = bits d /\ options d' = options d) /\
  (exists d',
     session default_options (standard write_date_time_split) = inr d' /\
     in_row RowBlockData (out d') =
       [mkAnnotation 30 138 BLOCK_DATE_TIME
          ["Wrote Date / time: Wednesday, 15.06.2023 12:45:30"%string]]).
Proof.
  split.
  - unfold decode, bind, modify, get. cbn.
    destruct (state d) eqn:E; cbn;
      (eexists; split; [reflexivity | cbn; rewrite ?E; auto 10]).
  - unfold session. eval_run. eexists. split; [reflexivity | ].
    vm_compute. reflexivity.
Qed.

(** * Reaching the out-of-range branch *)

(** A pointer byte of 0x20 is stored as it comes; the next data byte finds
    the pointer out of range. *)
Lemma pointer_byte_0x20_counterexample :
  0 <= regptr default_options <= 0x12 /\
  exists d,
    session default_options (standard write_from_0x20) = inr d /\
    of_class WARNING (out d) =
      [mkAnnotation 30 38 WARNING
         ["Ignoring out-of-range register 0x20"%string]] /\
    existsb is_out_of_range_warning (out d) = true.
Proof.
  split; [cbn; lia | ].
  unfold session. eval_run. eexists. split; [reflexivity | ].
  split; vm_compute; reflexivity.
Qed.

Lemma not_warning_not_out_of_range l :
  Forall not_warning l -> existsb is_out_of_range_warning l = false.
Proof.
  induction 1 as [ | a l Ha Hl IH]; [reflexivity | ].
  cbn [existsb]. rewrite IH. unfold is_out_of_range_warning.
  unfold not_warning in Ha. rewrite Ha. reflexivity.
Qed.

Lemma is_correct_chip_pointer_safe addr d ok d' :
  is_correct_chip addr d = inr (ok, d') ->
  pointer_safe d ->
  pointer_safe d' /\ forall st, pointer_safe (set_state st d').
Proof.
  unfold is_correct_chip. intros H [Hr Ho].
  destruct (addr =? DS3231_I2C_ADDRESS).
  - inversion H; subst. split; [split; assumption | ].
    intros st. split; cbn; assumption.
  - unfold bind, get, put, modify, ret in H. inversion H; subst. clear H.
    assert (Hout : existsb is_out_of_range_warning
                     (out d ++ [wrong_chip_warning (ss d) (es d) addr]) = false).
    { rewrite existsb_app, Ho. reflexivity. }
    split; [split; cbn; assumption | ].
    intros st. split; cbn; assumption.
Qed.

Lemma handle_reg_pointer_safe b rw d u d' :
  handle_reg b rw d = inr (u, d') -> pointer_safe d -> pointer_safe d'.
Proof.
  intros H [Hr Ho].
  destruct (handle_reg_frame b rw d u d' Hr H)
    as (_ & Hr' & _ & _ & _ & _ & _ & (l & El & Fl) & _).
  split; [exact Hr' | ].
  rewrite El, existsb_app, Ho.
  rewrite (not_warning_not_out_of_range l Fl). reflexivity.
Qed.

Lemma decode_pointer_safe s e p d u d' :
  decode s e p d = inr (u, d') ->
  pointer_safe d ->
  match state d, p with
  | GET_REG_ADDR, DATA_WRITE databyte => reg_in_range databyte
  | _, _ => true
  end = true ->
  pointer_safe d'.
Proof.
  intros H Hd Hp.
  assert (H0 : pointer_safe (set_es e (set_ss s d)))
    by (destruct Hd; split; cbn; assumption).
  assert (Hst : forall st, pointer_safe (set_state st (set_es e (set_ss s d))))
    by (intros st; destruct Hd; split; cbn; assumption).
  destruct p; unfold decode, bind, modify, get in H;
    cbn -[handle_reg is_correct_chip] in H;
    try (inversion H; subst; destruct Hd; split; cbn; assumption);
    destruct (state d) eqn:Es; cbn -[handle_reg is_correct_chip] in H;
    try (inversion H; subst; solve [exact H0 | apply Hst]).
  - destruct (is_correct_chip _ _) as [x | [ok d1]] eqn:E; [discriminate | ].
    destruct (is_correct_chip_pointer_safe _ _ _ _ E H0) as [_ S1].
    destruct ok; inversion H; subst; apply S1.
  - destruct (is_correct_chip _ _) as [x | [ok d1]] eqn:E; [discriminate | ].
    destruct (is_correct_chip_pointer_safe _ _ _ _ E H0) as [_ S1].
    destruct ok; inversion H; subst; apply S1.
  - inversion H; subst. destruct Hd as [_ Ho]. split; cbn; assumption.
  - apply (handle_reg_pointer_safe _ _ _ _ _ H H0).
  - apply (handle_reg_pointer_safe _ _ _ _ _ H H0).
Qed.

Lemma run_pointer_safe trace :
  forall d u d',
    run trace d = inr (u, d') ->
    pointer_safe d -> pointer_bytes_in_range trace d = true ->
    pointer_safe d'.
Proof.
  induction trace as [ | [[s e] p] rest IH]; intros d u d' H Hd Hb.
  - inversion H; subst. exact Hd.
  - cbn [run] in H. unfold bind in H. cbn [pointer_bytes_in_range] in Hb.
    apply andb_true_iff in Hb. destruct Hb as [Hp Hrest].
    destruct (decode s e p d) as [x | [u1 d1]] eqn:E; [discriminate | ].
    apply (IH d1 u d' H); [ | exact Hrest].
    apply (decode_pointer_safe s e p d u1 d1 E Hd Hp).
Qed.

(** C5, amended. With the configured initial register pointer in
    [0x00, 0x12], the out-of-range branch of [handle_reg] is not reached by a
    trace in which every register pointer byte, the ['DATA WRITE'] that
    follows the slave address, is in [0x00, 0x12]: no annotation of that
    branch is emitted and the pointer stays in range. *)
Theorem out_of_range_needs_pointer_byte
  (o : Options) (trace : list (Z * Z * packet)) (d : Decoder)
  (Hptr : 0 <= regptr o <= 0x12)
  (Hbytes : pointer_bytes_in_range trace (init o) = true)
  (Hrun : session o trace = inr d) :
  existsb is_out_of_range_warning (out d) = false /\ 0 <= reg d <= 0x12.
Proof.
  unfold session in Hrun.
  destruct (run trace (init o)) as [x | [u d1]] eqn:E; [discriminate | ].
  inversion Hrun; subst d1. clear Hrun.
  assert (Hi : pointer_safe (init o)).
  { split; [apply reg_in_range_iff; exact Hptr | reflexivity]. }
  destruct (run_pointer_safe trace (init o) u d E Hi Hbytes) as [Hr Ho].
  split; [exact Ho | apply reg_in_range_iff; exact Hr].
Qed.

Lemma out_of_range_needs_pointer_byte_witness :
  let trace := standard write_date_time in
  let d := match session default_options trace with
           | inr d => d
           | inl _ => init default_options
           end in
  0 <= regptr default_options <= 0x12 /\
  pointer_bytes_in_range trace (init default_options) = true /\
  session default_options trace = inr d /\
  existsb is_out_of_range_warning (out d) = false /\ 0 <= reg d <= 0x12.
Proof.
  intros trace d.
  assert (Hptr : 0 <= regptr default_options <= 0x12) by (cbn; lia).
  assert (Hbytes : pointer_bytes_in_range trace (init default_options) = true)
    by (vm_compute; reflexivity).
  assert (Hrun : session default_options trace = inr d)
    by (vm_compute; reflexivity).
  split; [exact Hptr | split; [exact Hbytes | split; [exact Hrun | ]]].
  exact (out_of_range_needs_pointer_byte default_options trace d
           Hptr Hbytes Hrun).
Defined.

(** * The date and time block, end to end *)

(** The day register holds 3: with Monday first the third name is Wednesday,
    and no annotation reports Tuesday.  (Without the ['BITS'] packets the
    first register handler raises [IndexError].) *)
Lemma write_date_time_counterexample :
  (exists d,
     session default_options (standard write_date_time) = inr d /\
     of_class BLOCK_DATE_TIME (out d) =
       [mkAnnotation 30 98 BLOCK_DATE_TIME [date_time_wednesday]] /\
     forall a, In a (out d) -> a_texts a <> [date_time_tuesday]) /\
  session default_options (bare write_date_time) = inl IndexError.
Proof.
  split.
  - unfold session. eval_run. eexists. split; [reflexivity | ].
    split; [vm_compute; reflexivity | ].
    intros a Ha. cbn [out] in Ha.
    repeat (destruct Ha as [<- | Ha]; [cbn; discriminate | ]).
    destruct Ha.
  - vm_compute. reflexivity.
Qed.

Lemma exactly_eight {A : Type} (l : list A) :
  List.length l = 8%nat ->
  exists b0 b1 b2 b3 b4 b5 b6 b7, l = [b0; b1; b2; b3; b4; b5; b6; b7].
Proof.
  intros H.
  do 8 (destruct l as [ | ? l]; [discriminate H | ]).
  destruct l; [ | discriminate H].
  repeat eexists.
Qed.

(** C2, amended. The write of the seven date and time registers, delivered
    at any sample positions and with any eight-entry ['BITS'] payloads,
    yields exactly one block annotation, of class date and time, spanning
    from the seconds byte to the year byte; it reports Wednesday, 15.06.2023,
    12:45:30; the session ends in [IDLE]. *)
Theorem write_date_time_block
  (pos : nat -> Z * Z) (payload : nat -> list bitinfo)
  (Hpayload : forall k, List.length (payload k) = 8%nat) :
  exists d,
    session default_options (deliver pos payload write_date_time) = inr d /\
    in_row RowBlockData (out d) =
      [mkAnnotation (fst (pos 3%nat)) (snd (pos 9%nat)) BLOCK_DATE_TIME
         [date_time_wednesday]] /\
    of_class BLOCK_DATE_TIME (out d) = in_row RowBlockData (out d) /\
    state d = IDLE.
Proof.
  unfold session, deliver, write_date_time.
  cbn [deliver_from carries_byte app].
  destruct (exactly_eight _ (Hpayload 1%nat)) as (?&?&?&?&?&?&?&?&->).
  destruct (exactly_eight _ (Hpayload 2%nat)) as (?&?&?&?&?&?&?&?&->).
  destruct (exactly_eight _ (Hpayload 3%nat)) as (?&?&?&?&?&?&?&?&->).
  destruct (exactly_eight _ (Hpayload 4%nat)) as (?&?&?&?&?&?&?&?&->).
  destruct (exactly_eight _ (Hpayload 5%nat)) as (?&?&?&?&?&?&?&?&->).
  destruct (exactly_eight _ (Hpayload 6%nat)) as (?&?&?&?&?&?&?&?&->).
  destruct (exactly_eight _ (Hpayload 7%nat)) as (?&?&?&?&?&?&?&?&->).
  destruct (exactly_eight _ (Hpayload 8%nat)) as (?&?&?&?&?&?&?&?&->).
  destruct (exactly_eight _ (Hpayload 9%nat)) as (?&?&?&?&?&?&?&?&->).
  eval_run. eexists. split; [reflexivity | ].
  repeat split; vm_compute; reflexivity.
Qed.

Lemma write_date_time_block_witness :
  (forall k, List.length (eight_bits (10 * Z.of_nat k)) = 8%nat) /\
  exists d,
    session default_options (standard write_date_time) = inr d /\
    in_row RowBlockData (out d) =
      [mkAnnotation 30 98 BLOCK_DATE_TIME [date_time_wednesday]] /\
    of_class BLOCK_DATE_TIME (out d) = in_row RowBlockData (out d) /\
    state d = IDLE.
Proof.
  assert (H : forall k, List.length (eight_bits (10 * Z.of_nat k)) = 8%nat)
    by (intros k; reflexivity).
  split; [exact H | ].
  exact (write_date_time_block ten_apart
           (fun k => eight_bits (10 * Z.of_nat k)) H).
Defined.

(** * A weekday value of zero *)

(** C10. A day register byte, or an alarm day/date byte in weekday mode,
    whose weekday bits are all zero does not make the handler fail: the
    index -1 selects the seventh name of the configured ordering, and that
    name is rendered in the weekday annotation. *)
Theorem weekday_zero_is_last_name
  (b : Z) (rw : string) (d : Decoder)
  (Hready : ready d) (Hzero : Z.land b 0x07 = 0) :
  let name := nth 6 (days_of_week (fdw (options d))) ""%string in
  (exists d' l s e,
     handle_reg_0x03 b rw d = inr (tt, d') /\
     out d' = out d ++ l /\
     of_class BIT_DAY l =
       [mkAnnotation s e BIT_DAY
          [("Weekday: " ++ name)%string; ("WD: " ++ name)%string;
           "WD"%string; "W"%string]]) /\
  (bit_set b 6 = true ->
   exists d' l s e,
     handle_reg_0x0a b rw d = inr (tt, d') /\
     out d' = out d ++ l /\
     of_class BIT_DAY l =
       [mkAnnotation s e BIT_DAY
          [("Weekday: " ++ name)%string; "WD: 0"%string;
           "WD"%string; "W"%string]]) /\
  (bit_set b 6 = true ->
   exists d' l s e,
     handle_reg_0x0d b rw d = inr (tt, d') /\
     out d' = out d ++ l /\
     of_class BIT_DAY l =
       [mkAnnotation s e BIT_DAY
          [("Weekday: " ++ name)%string; "WD: 0"%string;
           "WD"%string; "W"%string]]).
Proof.
  destruct Hready as [Hb Hd].
  destruct (eight_entries _ Hb) as (b0&b1&b2&b3&b4&b5&b6&b7&tl&E).
  intros name. split; [ | split].
  - unfold handle_reg_0x03, putr_each. rewrite Hzero.
    change (bcd2int 0) with 0.
    repeat run_step E. run_last.
    do 4 eexists. split; [reflexivity | split; [out_shape | ]].
    cbn. reflexivity.
  - intros H6.
    unfold handle_reg_0x0a, alarm_day_date, bit_of. rewrite Hzero, H6.
    change (bcd2int 0) with 0. change (1 =? 1) with true. cbv iota.
    repeat run_step E.
    destruct ((inblock d =? 9) && (blockmode d =? rw)%string) eqn:Eb.
    + match goal with
      | |- context [bind (bind (alarm1_setting ?s ?m ?y (Some ?w) ?da) _) _ ?dd] =>
          destruct (alarm1_setting_returns s m y w da dd) as [txt Et]
      end.
      run_step E. erewrite bind_inr by exact Et.
      repeat run_step E. run_last.
      do 4 eexists. split; [reflexivity | split; [out_shape | ]].
      cbn. reflexivity.
    + repeat run_step E. run_last.
      do 4 eexists. split; [reflexivity | split; [out_shape | ]].
      cbn. reflexivity.
  - intros H6.
    unfold handle_reg_0x0d, alarm_day_date, bit_of. rewrite Hzero, H6.
    change (bcd2int 0) with 0. change (1 =? 1) with true. cbv iota.
    repeat run_step E.
    destruct ((inblock d =? 12) && (blockmode d =? rw)%string) eqn:Eb.
    + match goal with
      | |- context [bind (bind (alarm2_setting ?s ?m ?y (Some ?w) ?da) _) _ ?dd] =>
          destruct (alarm2_setting_returns s m y w da dd) as [txt Et]
      end.
      run_step E. erewrite bind_inr by exact Et.
      repeat run_step E. run_last.
      do 4 eexists. split; [reflexivity | split; [out_shape | ]].
      cbn. reflexivity.
    + repeat run_step E. run_last.
      do 4 eexists. split; [reflexivity | split; [out_shape | ]].
      cbn. reflexivity.
Qed.

Lemma weekday_zero_is_last_name_witness :
  let d := set_bits (eight_bits 0) (init default_options) in
  ready d /\ Z.land 0x40 0x07 = 0 /\
  exists d' l s e,
    handle_reg_0x03 0x40 "Wrote" d = inr (tt, d') /\
    out d' = out d ++ l /\
    of_class BIT_DAY l =
      [mkAnnotation s e BIT_DAY
         ["Weekday: Sunday"; "WD: Sunday"; "WD"; "W"]%string].
Proof.
  intros d.
  assert (Hready : ready d) by (split; cbn; lia).
  assert (Hzero : Z.land 0x40 0x07 = 0) by reflexivity.
  split; [exact Hready | split; [exact Hzero | ]].
  exact (proj1 (weekday_zero_is_last_name 0x40 "Wrote" d Hready Hzero)).
Defined.

(** * The alarm 1 mode ladder *)

(** C7. The alarm 1 ladder returns a text for each of the sixteen
    combinations of the mask bits: the five documented ones select every
    second, every minute, every hour, daily, and day or date (the weekday
    when the DY/DT bit is set, the day of the month otherwise); the other
    eleven give the invalid-setting label. *)
Theorem alarm1_mode_table
  (self d : Decoder) (m1 m2 m3 m4 : bool) (a1dydt da : Z) (ws : option string)
  (H1 : a1m1 self = Z.b2z m1) (H2 : a1m2 self = Z.b2z m2)
  (H3 : a1m3 self = Z.b2z m3)
  (Hws : a1dydt = 1 -> exists s, ws = Some s) :
  (exists txt,
     alarm1_setting self (Z.b2z m4) a1dydt ws da d = inr (txt, d) /\
     txt =
       (let hh := fmt_02d (al1hours self) in
        let mm := fmt_02d (al1minutes self) in
        let sec := fmt_02d (al1seconds self) in
        match m1, m2, m3, m4 with
        | true, true, true, true => "every second"
        | false, true, true, true => "every minute, second=" ++ sec
        | false, false, true, true => "every hour, mm:ss=" ++ mm ++ ":" ++ sec
        | false, false, false, true =>
            "daily, hh:mm:ss=" ++ hh ++ ":" ++ mm ++ ":" ++ sec ++
            fmt_s (a1ampm self)
        | false, false, false, false =>
            match (a1dydt =? 1)%Z, ws with
            | true, Some s => s
            | _, _ => fmt_d da ++ ". of every month"
            end ++ ", " ++ hh ++ ":" ++ mm ++ ":" ++ sec
        | _, _, _, _ => "invalid setting"
        end)%string) /\
  List.length alarm1_modes = 16%nat /\
  List.length (filter alarm1_invalid alarm1_modes) = 11%nat.
Proof.
  split; [ | split; vm_compute; reflexivity].
  unfold alarm1_setting. rewrite H1, H2, H3.
  destruct m1, m2, m3, m4; cbn [tup4_eqb Z.b2z Z.eqb andb];
    try (eexists; split; reflexivity).
  destruct (a1dydt =? 1) eqn:E.
  - apply Z.eqb_eq in E. destruct (Hws E) as [s ->].
    eexists; split; reflexivity.
  - eexists; split; reflexivity.
Qed.

Lemma alarm1_mode_table_witness :
  let self :=
    set_al1seconds 30 (set_al1minutes 45 (set_al1hours 12
      (set_a1ampm (PyStr "")
         (set_a1m3 0 (set_a1m2 0 (set_a1m1 0 (init default_options))))))) in
  exists txt,
    alarm1_setting self 0 1 (Some "Friday"%string) 5 self = inr (txt, self) /\
    txt = "Friday, 12:45:30"%string.
Proof.
  intros self.
  exact (proj1 (alarm1_mode_table self self false false false false 1 5
                  (Some "Friday"%string) eq_refl eq_refl eq_refl
                  (fun _ => ex_intro _ "Friday"%string eq_refl))).
Defined.

Lemma alarm1_setting_total self a1m4 a1dydt ws da d :
  ((a1dydt =? 1) = true -> exists s, ws = Some s) ->
  exists txt, alarm1_setting self a1m4 a1dydt ws da d = inr (txt, d).
Proof.
  intros Hws. unfold alarm1_setting. cbv zeta.
  repeat match goal with
         | |- context [if tup4_eqb ?p ?q then _ else _] =>
             destruct (tup4_eqb p q)
         end;
    try (destruct (a1dydt =? 1); [destruct (Hws eq_refl) as [s ->] | ]);
    eexists; reflexivity.
Qed.

Lemma alarm1_setting_state self a1m4 a1dydt ws da d d' txt :
  alarm1_setting self a1m4 a1dydt ws da d = inr (txt, d) ->
  alarm1_setting self a1m4 a1dydt ws da d' = inr (txt, d').
Proof.
  unfold alarm1_setting. cbv zeta.
  repeat match goal with
         | |- context [if tup4_eqb ?p ?q then _ else _] =>
             destruct (tup4_eqb p q)
         end;
    try (destruct (a1dydt =? 1); [destruct ws | ]);
    unfold bind, lift, ret, raise; intros H; inversion H; reflexivity.
Qed.

(** X17. In sequence and in the recorded direction, the last alarm 1
    register emits the block annotation with the text of the ladder, the
    ladder being given the weekday name that the byte selects when the DY/DT
    bit is set. *)
Lemma alarm1_block_text b rw d :
  ready d -> inblock d = 9 -> blockmode d = rw ->
  exists d' l txt,
    handle_reg_0x0a b rw d = inr (tt, d') /\
    out d' = out d ++ l /\
    alarm1_setting d (bit_of b 7) (bit_of b 6)
      (if bit_set b 6
       then py_index (days_of_week (fdw (options d)))
              (bcd2int (Z.land b 0x07) - 1)
       else None)
      (bcd2int (Z.land b 0x3f)) d = inr (txt, d) /\
    in_row RowBlockData l =
      [mkAnnotation (startreg d) (es d) BLOCK_ALARM1
         [(rw ++ " Alarm1: " ++ txt)%string]].
Proof.
  intros [Hb Hd] Hi Hm.
  assert (Ec : (inblock d =? 9) && (blockmode d =? rw)%string = true)
    by (apply block_condition; split; assumption).
  destruct (eight_entries _ Hb) as (b0&b1&b2&b3&b4&b5&b6&b7&tl&E).
  unfold handle_reg_0x0a.
  run_day_date b d E; rewrite Ec; cbv iota.
  - match goal with
    | |- context [bind (bind (alarm1_setting ?s ?m ?y ?w ?da) _) _ ?dd] =>
        destruct (alarm1_setting_total s m y w da dd) as [txt Et];
          [intros _; eexists; reflexivity | ]
    end.
    run_step E. erewrite bind_inr by exact Et.
    repeat run_step E. run_last.
    do 3 eexists.
    split; [reflexivity | split; [out_shape | split]].
    + rewrite Ews. exact (alarm1_setting_state _ _ _ _ _ _ d _ Et).
    + reflexivity.
  - match goal with
    | |- context [bind (bind (alarm1_setting ?s ?m ?y ?w ?da) _) _ ?dd] =>
        destruct (alarm1_setting_total s m y w da dd) as [txt Et];
          [intros X; discriminate X | ]
    end.
    run_step E. erewrite bind_inr by exact Et.
    repeat run_step E. run_last.
    do 3 eexists.
    split; [reflexivity | split; [out_shape | split]].
    + exact (alarm1_setting_state _ _ _ _ _ _ d _ Et).
    + reflexivity.
Qed.

(** * The temperature block *)

(** The rendering of a signed 10-bit reading reads back as that reading
    over four: 25 hundredths for each quarter. *)
Lemma fmt_2f_quarters_reads (theta : Z) :
  -512 <= theta < 512 ->
  read_hundredths (fmt_2f_quarters theta) = Some (25 * theta).
Proof.
  intros H.
  assert (Hall : forallb
            (fun t => match read_hundredths (fmt_2f_quarters t) with
                      | Some v => v =? 25 * t
                      | None => false
                      end) ten_bit_values = true)
    by (vm_compute; reflexivity).
  rewrite forallb_forall in Hall.
  specialize (Hall theta).
  assert (Hin : In theta ten_bit_values).
  { unfold ten_bit_values. apply in_map_iff.
    exists (Z.to_nat (theta + 512)). split; [lia | ].
    apply in_seq. lia. }
  specialize (Hall Hin).
  destruct (read_hundredths (fmt_2f_quarters theta)) as [v | ];
    [ | discriminate Hall].
  apply Z.eqb_eq in Hall. rewrite Hall. reflexivity.
Qed.

(** C8. After the MSB byte at 0x11, the handler of the LSB byte at 0x12 emits
    one block annotation whose value is theta / 4 for
    theta = (MSB << 2) + (LSB >> 6), less 1024 when that sum is 512 or more,
    the MSB being the raw byte: theta is the signed 10-bit reading, the text
    emitted reads back as 25 * theta hundredths, and the bytes 0x19, 0xC0
    give theta = 103, rendered 25.75. *)
Theorem temperature_block_value
  (b : Z) (rw : string) (d : Decoder)
  (Hready : ready d) (Hblock : inblock d = 0x11)
  (Hmsb : 0 <= tempMSB d < 256) (Hlsb : 0 <= b < 256) :
  let raw := Z.shiftl (tempMSB d) 2 + Z.shiftr b 6 in
  let theta := if raw >=? 512 then raw - 1024 else raw in
  (exists d' l txt,
     handle_reg_0x12 b rw d = inr (tt, d') /\
     out d' = out d ++ l /\
     in_row RowBlockData l =
       [mkAnnotation (startreg d) (es d) BLOCK_TEMPERATURE
          [(rw ++ " block data: Temperature: " ++ txt)%string]] /\
     txt = fmt_2f_quarters theta /\
     read_hundredths txt = Some (25 * theta)) /\
  theta = 4 * tempMSB d + b / 64 - (if tempMSB d <? 128 then 0 else 1024) /\
  -512 <= theta < 512 /\
  (tempMSB d = 0x19 -> b = 0xC0 ->
   theta = 103 /\ fmt_2f_quarters theta = "25.75"%string).
Proof.
  intros raw theta.
  assert (Htheta :
    theta = 4 * tempMSB d + b / 64 - (if tempMSB d <? 128 then 0 else 1024) /\
    -512 <= theta < 512).
  { subst theta raw.
    rewrite Z.shiftl_mul_pow2, Z.shiftr_div_pow2 by lia.
    change (2 ^ 2) with 4. change (2 ^ 6) with 64.
    assert (Hq : 0 <= b / 64 < 4).
    { split; [apply Z.div_pos; lia | apply Z.div_lt_upper_bound; lia]. }
    rewrite Z.geb_leb.
    destruct (Z.ltb_spec (tempMSB d) 128);
      destruct (Z.leb_spec 512 (tempMSB d * 4 + b / 64)); lia. }
  split; [ | split; [apply Htheta | split; [apply Htheta | ]]].
  - destruct Hready as [Hb Hd].
    destruct (eight_entries _ Hb) as (b0&b1&b2&b3&b4&b5&b6&b7&tl&E).
    unfold handle_reg_0x12, putr_each.
    repeat run_step E. rewrite Hblock. change (17 =? 17) with true. cbv iota.
    repeat run_step E. run_last.
    do 2 eexists. exists (fmt_2f_quarters theta).
    split; [reflexivity | split; [out_shape | split; [ | split]]].
    + cbn. reflexivity.
    + reflexivity.
    + apply fmt_2f_quarters_reads. apply Htheta.
  - intros Hm Hl. subst theta raw. rewrite Hm, Hl. split; reflexivity.
Qed.

Lemma temperature_block_value_witness :
  let d := set_inblock 0x11 (set_tempMSB 0xFF
             (set_bits (eight_bits 0) (init default_options))) in
  ready d /\ inblock d = 0x11 /\ 0 <= tempMSB d < 256 /\ 0 <= 0x40 < 256 /\
  exists d' l txt,
    handle_reg_0x12 0x40 "Read" d = inr (tt, d') /\
    out d' = out d ++ l /\
    in_row RowBlockData l =
      [mkAnnotation (startreg d) (es d) BLOCK_TEMPERATURE
         [("Read block data: Temperature: " ++ txt)%string]] /\
    txt = "-0.75"%string /\
    read_hundredths txt = Some (-75).
Proof.
  intros d.
  assert (Hready : ready d) by (split; cbn; lia).
  assert (Hblock : inblock d = 0x11) by reflexivity.
  assert (Hmsb : 0 <= tempMSB d < 256) by (cbn; lia).
  assert (Hlsb : 0 <= 0x40 < 256) by lia.
  split; [exact Hready | split; [exact Hblock | split; [exact Hmsb | split;
    [exact Hlsb | ]]]].
  exact (proj1 (temperature_block_value 0x40 "Read" d
                  Hready Hblock Hmsb Hlsb)).
Defined.

(** * Further properties of the decoder *)

(** * Sessions that never raise *)

Lemma handle_reg_out_of_range b rw d :
  reg_in_range (reg d) = false ->
  handle_reg b rw d = inr (tt, emit (out_of_range_warning d) d).
Proof. intros Hr. unfold handle_reg, bind, get. rewrite Hr. reflexivity. Qed.

Lemma handle_reg_total b rw d :
  ready d -> exists d', handle_reg b rw d = inr (tt, d').
Proof.
  intros Hd. destruct (reg_in_range (reg d)) eqn:Hr.
  - apply handle_reg_returns; assumption.
  - rewrite (handle_reg_out_of_range b rw d Hr). eauto.
Qed.

(** A packet that is no byte never makes [decode] raise; a byte needs the
    ['BITS'] packet before it. *)
Lemma decode_total s e p d :
  -6 <= days d <= 7 ->
  (carries_byte p = true -> (8 <= List.length (bits d))%nat) ->
  exists d', decode s e p d = inr (tt, d').
Proof.
  intros Hdays Hbits.
  assert (Hr : carries_byte p = true -> ready (set_es e (set_ss s d))).
  { intros Hp. split; cbn; [apply Hbits; exact Hp | exact Hdays]. }
  destruct p; unfold decode, bind, modify, get;
    cbn -[handle_reg is_correct_chip]; try (eexists; reflexivity);
    destruct (state d); cbn -[handle_reg is_correct_chip];
    try (eexists; reflexivity);
    try (unfold is_correct_chip;
         destruct (_ =? DS3231_I2C_ADDRESS); eexists; reflexivity).
  - destruct (handle_reg_total databyte "Wrote" _ (Hr eq_refl)) as [d' E].
    rewrite E. eauto.
  - destruct (handle_reg_total databyte "Read" _ (Hr eq_refl)) as [d' E].
    rewrite E. eauto.
Qed.

Lemma run_deliver_total pos payload
  (Hpayload : forall k, (8 <= List.length (payload k))%nat) l :
  forall k d, -6 <= days d <= 7 ->
  exists d', run (deliver_from k pos payload l) d = inr (tt, d').
Proof.
  induction l as [ | p rest IH]; intros k d Hdays.
  - exists d. reflexivity.
  - cbn [deliver_from].
    assert (Hstep : forall d0 : Decoder,
              -6 <= days d0 <= 7 ->
              (carries_byte p = true -> (8 <= List.length (bits d0))%nat) ->
              exists d',
                run ((fst (pos k), snd (pos k), p) ::
                     deliver_from (S k) pos payload rest) d0 = inr (tt, d')).
    { intros d0 H0 Hb.
      destruct (decode_total (fst (pos k)) (snd (pos k)) p d0 H0 Hb)
        as [d1 E1].
      destruct (IH (S k) d1) as [d2 E2].
      { destruct (decode_days _ _ _ _ _ _ E1) as [D | D]; [rewrite D | ]; lia. }
      exists d2. cbn [run]. unfold bind. rewrite E1. exact E2. }
    destruct (carries_byte p) eqn:Hp; cbn [app].
    + destruct (Hstep (set_bits (payload k) d)) as [d' E'].
      * cbn. exact Hdays.
      * intros _. cbn. apply Hpayload.
      * exists d'. cbn [run]. unfold bind at 1. cbn [decode modify].
        exact E'.
    + apply Hstep; [exact Hdays | intros X; discriminate X].
Qed.

(** X1. A session never raises on a trace as the host delivers it: whatever
    the options, the packets and their bytes, when every byte packet is
    preceded by a ['BITS'] packet of at least eight entries, every call of
    [decode] returns. *)
Theorem host_framed_session_returns
  (o : Options) (pos : nat -> Z * Z) (payload : nat -> list bitinfo)
  (l : list packet)
  (Hpayload : forall k, (8 <= List.length (payload k))%nat) :
  exists d, session o (deliver pos payload l) = inr d.
Proof.
  unfold session, deliver.
  destruct (run_deliver_total pos payload Hpayload l 0%nat (init o))
    as [d E]; [cbn; lia | ].
  rewrite E. eauto.
Qed.

Lemma host_framed_session_returns_witness :
  (forall k, (8 <= List.length (eight_bits (10 * Z.of_nat k)))%nat) /\
  exists d, session default_options (standard write_from_0x20) = inr d.
Proof.
  assert (H : forall k, (8 <= List.length (eight_bits (10 * Z.of_nat k)))%nat)
    by (intros k; cbn; lia).
  split; [exact H | ].
  exact (host_framed_session_returns default_options ten_apart
           (fun k => eight_bits (10 * Z.of_nat k)) write_from_0x20 H).
Defined.

(** * A byte without its ['BITS'] packet *)

Lemma first_putd_raises data (k : unit -> act unit) d :
  nth_error (bits d) 7 = None -> bind (putd 7 0 data) k d = inl IndexError.
Proof.
  intros H. unfold putd, bits_at, bind, get, lift. cbv beta iota.
  rewrite H. reflexivity.
Qed.

Lemma handler_raises_without_bits r fn b rw d :
  handler_of r = Some fn -> nth_error (bits d) 7 = None ->
  fn b rw d = inl IndexError.
Proof.
  unfold handler_of. intros H Hb.
  repeat match type of H with
         | match ?x with _ => _ end = _ => destruct x; try discriminate
         end;
    inversion H; subst; apply first_putd_raises; exact Hb.
Qed.

(** X2. An access to a register in range while fewer than eight bit entries
    are buffered raises [IndexError]: every handler starts by looking up bit
    7, and [decode] lets the exception through in both transfer states. *)
Theorem access_without_bits_raises
  (b : Z) (rw : string) (d : Decoder)
  (Hreg : 0 <= reg d <= 0x12) (Hbits : (List.length (bits d) < 8)%nat) :
  handle_reg b rw d = inl IndexError /\
  (state d = WRITE_RTC_REGS ->
   forall s e, decode s e (DATA_WRITE b) d = inl IndexError) /\
  (state d = READ_RTC_REGS ->
   forall s e, decode s e (DATA_READ b) d = inl IndexError).
Proof.
  apply reg_in_range_iff in Hreg.
  assert (Hn : nth_error (bits d) 7 = None) by (apply nth_error_None; lia).
  destruct (handler_of_in_range _ Hreg) as [fn Hfn].
  assert (G : forall rw0 d0, reg d0 = reg d -> bits d0 = bits d ->
                handle_reg b rw0 d0 = inl IndexError).
  { intros rw0 d0 R B.
    rewrite (handle_reg_in_range b rw0 d0 ltac:(rewrite R; exact Hreg) fn
               ltac:(rewrite R; exact Hfn)).
    rewrite (handler_raises_without_bits _ fn b rw0 d0
               ltac:(rewrite <- R in Hfn; exact Hfn)
               ltac:(rewrite B; exact Hn)).
    reflexivity. }
  split; [apply G; reflexivity | split].
  - intros Hs s e. unfold decode, bind, modify, get.
    cbn -[handle_reg]. rewrite Hs. apply G; reflexivity.
  - intros Hs s e. unfold decode, bind, modify, get.
    cbn -[handle_reg]. rewrite Hs. apply G; reflexivity.
Qed.

Lemma access_without_bits_raises_witness :
  let d := init default_options in
  0 <= reg d <= 0x12 /\ (List.length (bits d) < 8)%nat /\
  handle_reg 0x30 "Wrote" d = inl IndexError.
Proof.
  intros d.
  assert (Hreg : 0 <= reg d <= 0x12) by (cbn; lia).
  assert (Hbits : (List.length (bits d) < 8)%nat) by (cbn; lia).
  split; [exact Hreg | split; [exact Hbits | ]].
  exact (proj1 (access_without_bits_raises 0x30 "Wrote" d Hreg Hbits)).
Defined.

(** * Outside a transfer *)

(** X3. In [IDLE], while the slave address is awaited and while the register
    pointer is awaited, [decode] returns for every packet, with or without a
    ['BITS'] packet; it emits nothing, or the one warning for a foreign
    slave address, and leaves the block state, the cached fields and the
    options alone. *)
Theorem no_register_annotation_outside_transfer
  (s e : Z) (p : packet) (d : Decoder)
  (Hstate : state d = IDLE \/ state d = GET_SLAVE_ADDR \/
            state d = GET_REG_ADDR) :
  exists d',
    decode s e p d = inr (tt, d') /\
    (out d' = out d \/
     exists addr, addr <> 0x68 /\ state d = GET_SLAVE_ADDR /\
                  state d' = IDLE /\
                  out d' = out d ++ [wrong_chip_warning s e addr]) /\
    block_state d' = block_state d /\
    cached_fields d' = cached_fields d /\
    options d' = options d.
Proof.
  destruct p; unfold decode, bind, modify, get; cbn -[is_correct_chip];
    try (eexists; split; [reflexivity | cbn; auto]);
    destruct Hstate as [-> | [-> | ->]]; cbn -[is_correct_chip];
    try (eexists; split; [reflexivity | cbn; auto]);
    unfold is_correct_chip, bind, get, put, modify, ret;
    destruct (Z.eqb_spec addr DS3231_I2C_ADDRESS) as [E | E];
    (eexists; split; [reflexivity | cbn; auto]);
    (split; [right; exists addr; auto | auto]).
Qed.

Lemma no_register_annotation_outside_transfer_witness :
  let d := set_state GET_REG_ADDR (init default_options) in
  (state d = IDLE \/ state d = GET_SLAVE_ADDR \/ state d = GET_REG_ADDR) /\
  exists d',
    decode 20 28 (DATA_WRITE 0x0e) d = inr (tt, d') /\
    (out d' = out d \/
     exists addr, addr <> 0x68 /\ state d = GET_SLAVE_ADDR /\
                  state d' = IDLE /\
                  out d' = out d ++ [wrong_chip_warning 20 28 addr]) /\
    block_state d' = block_state d /\
    cached_fields d' = cached_fields d /\
    options d' = options d.
Proof.
  intros d.
  assert (H : state d = IDLE \/ state d = GET_SLAVE_ADDR \/
              state d = GET_REG_ADDR) by (right; right; reflexivity).
  split; [exact H | ].
  exact (no_register_annotation_outside_transfer 20 28 (DATA_WRITE 0x0e) d H).
Defined.

(** * Selecting a register, then reading *)

(** X4. START, the chip's address for writing, a register pointer byte, a
    repeated START and the chip's address for reading, from [IDLE]: the
    session is then reading, the register pointer is the byte written, and
    nothing was emitted nor was any block or cached state disturbed. *)
Theorem pointer_select_then_read
  (pos : nat -> Z * Z) (payload : nat -> list bitinfo) (p : Z) (d : Decoder)
  (Hstate : state d = IDLE) :
  exists d',
    run (deliver pos payload (select_then_read p)) d = inr (tt, d') /\
    state d' = READ_RTC_REGS /\ reg d' = p /\ out d' = out d /\
    block_state d' = block_state d /\ cached_fields d' = cached_fields d.
Proof.
  destruct d. cbn in Hstate. subst.
  unfold deliver, select_then_read. cbn [deliver_from carries_byte app].
  eval_run. eexists. split; [reflexivity | ]. cbn. auto 6.
Qed.

Lemma pointer_select_then_read_witness :
  let d := init default_options in
  state d = IDLE /\
  exists d',
    run (standard (select_then_read 0x11)) d = inr (tt, d') /\
    state d' = READ_RTC_REGS /\ reg d' = 0x11 /\ out d' = out d /\
    block_state d' = block_state d /\ cached_fields d' = cached_fields d.
Proof.
  intros d.
  assert (H : state d = IDLE) by reflexivity.
  split; [exact H | ].
  exact (pointer_select_then_read ten_apart
           (fun k => eight_bits (10 * Z.of_nat k)) 0x11 d H).
Defined.

(** * A register pointer out of range stays there *)

(** X5. A register pointer out of range stays where it is: N accesses in a
    row return N times the same warning and change nothing else. *)
Theorem out_of_range_pointer_sticks
  (accesses : list (Z * string)) (d : Decoder)
  (Hreg : reg d < 0 \/ 0x12 < reg d) :
  exists d',
    handle_regs accesses d = inr (tt, d') /\
    reg d' = reg d /\
    out d' = out d ++
             repeat (out_of_range_warning d) (List.length accesses) /\
    block_state d' = block_state d /\ cached_fields d' = cached_fields d.
Proof.
  assert (Hr : reg_in_range (reg d) = false).
  { destruct (reg_in_range (reg d)) eqn:E; [ | reflexivity].
    apply reg_in_range_iff in E. lia. }
  clear Hreg. revert d Hr.
  induction accesses as [ | [b rw] rest IH]; intros d Hr.
  - exists d. cbn. rewrite app_nil_r. auto.
  - destruct (IH (emit (out_of_range_warning d) d) Hr)
      as (d' & E & R & O & B & C).
    exists d'. split.
    + cbn [handle_regs]. unfold bind.
      rewrite (handle_reg_out_of_range b rw d Hr). exact E.
    + split; [exact R | split; [ | split; [exact B | exact C]]].
      rewrite O. cbn [List.length repeat out emit set_out].
      rewrite <- app_assoc. reflexivity.
Qed.

Lemma out_of_range_pointer_sticks_witness :
  let d := set_reg 0x20 (init default_options) in
  (reg d < 0 \/ 0x12 < reg d) /\
  exists d',
    handle_regs [(0x00, "Wrote"); (0x01, "Wrote"); (0x02, "Wrote")] d =
      inr (tt, d') /\
    reg d' = 0x20 /\
    out d' = out d ++ repeat (out_of_range_warning d) 3 /\
    block_state d' = block_state d /\ cached_fields d' = cached_fields d.
Proof.
  intros d.
  assert (H : reg d < 0 \/ 0x12 < reg d) by (right; cbn; lia).
  split; [exact H | ].
  exact (out_of_range_pointer_sticks
           [(0x00, "Wrote"); (0x01, "Wrote"); (0x02, "Wrote")] d H).
Defined.

(** * The effect of one access *)

Lemma run_lift {A : Type} (e : exn) (o : option A) (a : A) (d : Decoder) :
  o = Some a -> lift e o d = inr (a, d).
Proof. intros ->. reflexivity. Qed.

Ltac effect_goal E :=
  try (erewrite run_putd by (bits_lookup E); fields; cbn [fst snd]);
  run_last;
  do 2 eexists; split; [reflexivity | ];
  unfold access_effect, byte_span, block_state, block_step, block_due,
    next_inblock;
  fields; rewrite ?E; cbn [nth_error fst snd];
  rewrite <- ?app_assoc; cbn [app];
  split; [reflexivity | ];
  repeat split; cbn; try reflexivity.

Ltac open_ready Hready E :=
  let Hb := fresh "Hb" in
  let Hd := fresh "Hd" in
  destruct Hready as [Hb Hd];
  destruct (eight_entries _ Hb) as (?b0 & ?b1 & ?b2 & ?b3 & ?b4 & ?b5 & ?b6 & ?b7 & ?tl & E).

Lemma effect_0x00 b rw d : ready d ->
  exists d' l, handle_reg_0x00 b rw d = inr (tt, d') /\ access_effect 0x00 rw d d' l.
Proof.
  intros Hready. open_ready Hready E.
  unfold handle_reg_0x00. repeat run_step E. effect_goal E.
Qed.

Lemma effect_0x01 b rw d : ready d ->
  exists d' l, handle_reg_0x01 b rw d = inr (tt, d') /\ access_effect 0x01 rw d d' l.
Proof.
  intros Hready. open_ready Hready E.
  unfold handle_reg_0x01. repeat run_step E. effect_goal E.
Qed.

Lemma effect_0x04 b rw d : ready d ->
  exists d' l, handle_reg_0x04 b rw d = inr (tt, d') /\ access_effect 0x04 rw d d' l.
Proof.
  intros Hready. open_ready Hready E.
  unfold handle_reg_0x04, putr_each. repeat run_step E. effect_goal E.
Qed.

Lemma effect_0x05 b rw d : ready d ->
  exists d' l, handle_reg_0x05 b rw d = inr (tt, d') /\ access_effect 0x05 rw d d' l.
Proof.
  intros Hready. open_ready Hready E.
  unfold handle_reg_0x05, putr_each. repeat run_step E. effect_goal E.
Qed.

Lemma effect_0x07 b rw d : ready d ->
  exists d' l, handle_reg_0x07 b rw d = inr (tt, d') /\ access_effect 0x07 rw d d' l.
Proof.
  intros Hready. open_ready Hready E.
  unfold handle_reg_0x07, putr_each. repeat run_step E. effect_goal E.
Qed.

Lemma effect_0x08 b rw d : ready d ->
  exists d' l, handle_reg_0x08 b rw d = inr (tt, d') /\ access_effect 0x08 rw d d' l.
Proof.
  intros Hready. open_ready Hready E.
  unfold handle_reg_0x08, putr_each. repeat run_step E. effect_goal E.
Qed.

Lemma effect_0x0b b rw d : ready d ->
  exists d' l, handle_reg_0x0b b rw d = inr (tt, d') /\ access_effect 0x0b rw d d' l.
Proof.
  intros Hready. open_ready Hready E.
  unfold handle_reg_0x0b, putr_each. repeat run_step E. effect_goal E.
Qed.

Lemma effect_0x0f b rw d : ready d ->
  exists d' l, handle_reg_0x0f b rw d = inr (tt, d') /\ access_effect 0x0f rw d d' l.
Proof.
  intros Hready. open_ready Hready E.
  unfold handle_reg_0x0f, putr_each. repeat run_step E. effect_goal E.
Qed.

Lemma effect_0x10 b rw d : ready d ->
  exists d' l, handle_reg_0x10 b rw d = inr (tt, d') /\ access_effect 0x10 rw d d' l.
Proof.
  intros Hready. open_ready Hready E.
  unfold handle_reg_0x10, putr_each. repeat run_step E. effect_goal E.
Qed.

Lemma effect_0x11 b rw d : ready d ->
  exists d' l, handle_reg_0x11 b rw d = inr (tt, d') /\ access_effect 0x11 rw d d' l.
Proof.
  intros Hready. open_ready Hready E.
  unfold handle_reg_0x11, putr_each. repeat run_step E. effect_goal E.
Qed.

Lemma effect_0x02 b rw d : ready d ->
  exists d' l, handle_reg_0x02 b rw d = inr (tt, d') /\ access_effect 0x02 rw d d' l.
Proof.
  intros Hready. open_ready Hready E.
  unfold handle_reg_0x02, bit_of.
  destruct (bit_set b 6); destruct (bit_set b 5);
    repeat run_step E; effect_goal E.
Qed.

Lemma effect_0x09 b rw d : ready d ->
  exists d' l, handle_reg_0x09 b rw d = inr (tt, d') /\ access_effect 0x09 rw d d' l.
Proof.
  intros Hready. open_ready Hready E.
  unfold handle_reg_0x09, bit_of.
  destruct (bit_set b 6); destruct (bit_set b 5);
    repeat run_step E; effect_goal E.
Qed.

Lemma effect_0x0c b rw d : ready d ->
  exists d' l, handle_reg_0x0c b rw d = inr (tt, d') /\ access_effect 0x0c rw d d' l.
Proof.
  intros Hready. open_ready Hready E.
  unfold handle_reg_0x0c, bit_of.
  destruct (bit_set b 6); destruct (bit_set b 5);
    repeat run_step E; effect_goal E.
Qed.

Ltac run_weekday Ews :=
  erewrite (bind_inr (weekday_name _))
    by (apply run_weekday_name; fields; exact Ews).

Lemma effect_0x03 b rw d : ready d ->
  exists d' l, handle_reg_0x03 b rw d = inr (tt, d') /\ access_effect 0x03 rw d d' l.
Proof.
  intros Hready. open_ready Hready E.
  destruct (days_of_week_index (fdw (options d)) (bcd2int (Z.land b 7))
              ltac:(pose proof (weekday_value_range b); lia)) as [ws Ews].
  unfold handle_reg_0x03, putr_each.
  repeat first [run_step E | run_weekday Ews]. effect_goal E.
Qed.

Lemma effect_0x06 b rw d : ready d ->
  exists d' l, handle_reg_0x06 b rw d = inr (tt, d') /\ access_effect 0x06 rw d d' l.
Proof.
  intros Hready. open_ready Hready E.
  destruct (days_of_week_index (fdw (options d)) (days d) Hd) as [ws Ews].
  unfold handle_reg_0x06.
  repeat run_step E.
  destruct ((inblock d =? 5) && (blockmode d =? rw)%string) eqn:Ec;
    repeat first [run_step E | run_weekday Ews]; effect_goal E;
    rewrite Ec; reflexivity.
Qed.

Lemma effect_0x12 b rw d : ready d ->
  exists d' l, handle_reg_0x12 b rw d = inr (tt, d') /\ access_effect 0x12 rw d d' l.
Proof.
  intros Hready. open_ready Hready E.
  unfold handle_reg_0x12, putr_each.
  repeat run_step E.
  destruct (inblock d =? 17) eqn:Ec;
    repeat run_step E; effect_goal E; rewrite Ec; reflexivity.
Qed.

Lemma effect_0x0e b rw d : ready d ->
  exists d' l, handle_reg_0x0e b rw d = inr (tt, d') /\ access_effect 0x0e rw d d' l.
Proof.
  intros Hready. open_ready Hready E.
  destruct (rates_total b) as [r Er].
  unfold handle_reg_0x0e, bit_of.
  repeat run_step E.
  destruct (subtype (options d));
    repeat first
      [ run_step E
      | erewrite (bind_inr (lift KeyError _)) by (apply run_lift; exact Er) ];
    effect_goal E.
Qed.

Lemma alarm2_setting_total self a2m4 a2dydt ws da d :
  ((a2dydt =? 1) = true -> exists s, ws = Some s) ->
  exists txt, alarm2_setting self a2m4 a2dydt ws da d = inr (txt, d).
Proof.
  intros Hws. unfold alarm2_setting. cbv zeta.
  repeat match goal with
         | |- context [if tup3_eqb ?p ?q then _ else _] =>
             destruct (tup3_eqb p q)
         end;
    try (destruct (a2dydt =? 1); [destruct (Hws eq_refl) as [s ->] | ]);
    eexists; reflexivity.
Qed.

Ltac run_alarm1_setting E :=
  match goal with
  | |- context [bind (bind (alarm1_setting ?s ?m ?y ?w ?da) _) _ ?dd] =>
      let txt := fresh "txt" in
      let Et := fresh "Et" in
      destruct (alarm1_setting_total s m y w da dd) as [txt Et];
      [ first [ intros _; eexists; reflexivity
              | intros X; discriminate X ]
      | run_step E; erewrite bind_inr by exact Et ]
  end.

Ltac run_alarm2_setting E :=
  match goal with
  | |- context [bind (bind (alarm2_setting ?s ?m ?y ?w ?da) _) _ ?dd] =>
      let txt := fresh "txt" in
      let Et := fresh "Et" in
      destruct (alarm2_setting_total s m y w da dd) as [txt Et];
      [ first [ intros _; eexists; reflexivity
              | intros X; discriminate X ]
      | run_step E; erewrite bind_inr by exact Et ]
  end.

Lemma effect_0x0a b rw d : ready d ->
  exists d' l, handle_reg_0x0a b rw d = inr (tt, d') /\ access_effect 0x0a rw d d' l.
Proof.
  intros Hready. open_ready Hready E.
  unfold handle_reg_0x0a.
  destruct ((inblock d =? 9) && (blockmode d =? rw)%string) eqn:Ec;
    run_day_date b d E; rewrite Ec; cbv iota;
    try run_alarm1_setting E;
    repeat run_step E; effect_goal E; rewrite Ec; reflexivity.
Qed.

Lemma effect_0x0d b rw d : ready d ->
  exists d' l, handle_reg_0x0d b rw d = inr (tt, d') /\ access_effect 0x0d rw d d' l.
Proof.
  intros Hready. open_ready Hready E.
  unfold handle_reg_0x0d.
  destruct ((inblock d =? 12) && (blockmode d =? rw)%string) eqn:Ec;
    run_day_date b d E; rewrite Ec; cbv iota;
    try run_alarm2_setting E;
    repeat run_step E; effect_goal E; rewrite Ec; reflexivity.
Qed.

Lemma access_effect_bump r rw d d1 l :
  access_effect r rw d d1 l -> access_effect r rw d (bump d1) l.
Proof.
  unfold access_effect, bump, block_state. cbn.
  destruct (reg d1 + 1 >? 18); cbn; exact (fun H => H).
Qed.

Lemma handler_effect r fn b rw d :
  handler_of r = Some fn -> ready d ->
  exists d1 l, fn b rw d = inr (tt, d1) /\ access_effect r rw d d1 l.
Proof.
  unfold handler_of. intros H Hd.
  repeat match type of H with
         | match ?x with _ => _ end = _ => destruct x; try discriminate
         end;
    inversion H; subst;
    auto using effect_0x00, effect_0x01, effect_0x02, effect_0x03,
      effect_0x04, effect_0x05, effect_0x06, effect_0x07, effect_0x08,
      effect_0x09, effect_0x0a, effect_0x0b, effect_0x0c, effect_0x0d,
      effect_0x0e, effect_0x0f, effect_0x10, effect_0x11, effect_0x12.
Qed.

Lemma handle_reg_effect b rw d :
  reg_in_range (reg d) = true -> ready d ->
  exists d' l,
    handle_reg b rw d = inr (tt, d') /\ access_effect (reg d) rw d d' l.
Proof.
  intros Hr Hd.
  destruct (handler_of_in_range _ Hr) as [fn Hfn].
  destruct (handler_effect _ fn b rw d Hfn Hd) as (d1 & l & E1 & A1).
  exists (bump d1), l. split.
  - rewrite (handle_reg_in_range b rw d Hr fn Hfn), E1. reflexivity.
  - apply access_effect_bump. exact A1.
Qed.

(** X7. An access to a register in range emits exactly one register
    annotation: its class number is the register address, it spans the byte
    from the start of bit 7 to the end of bit 0; no warning is emitted. *)
Theorem one_register_annotation_per_access
  (b : Z) (rw : string) (d : Decoder)
  (Hreg : 0 <= reg d <= 0x12) (Hready : ready d) :
  exists d' l,
    handle_reg b rw d = inr (tt, d') /\ out d' = out d ++ l /\
    map (fun a => (Ann_value (a_cls a), a_ss a, a_es a)) (in_row RowRegs l) =
      [(reg d, fst (byte_span d), snd (byte_span d))] /\
    in_row RowWarnings l = [].
Proof.
  apply reg_in_range_iff in Hreg.
  destruct (handle_reg_effect b rw d Hreg Hready)
    as (d' & l & E & O & R & _ & _ & W).
  exists d', l. auto.
Qed.

(** X8. The block-aggregation state after an access depends on the register
    address, the direction and the state before, never on the data byte: a
    first register starts a block, a middle register advances it or breaks
    it, a last register closes it, and control, status and aging offset
    leave it alone. *)
Theorem block_state_follows_register
  (b : Z) (rw : string) (d : Decoder)
  (Hreg : 0 <= reg d <= 0x12) (Hready : ready d) :
  exists d',
    handle_reg b rw d = inr (tt, d') /\
    block_state d' = block_step (reg d) rw d.
Proof.
  apply reg_in_range_iff in Hreg.
  destruct (handle_reg_effect b rw d Hreg Hready)
    as (d' & l & E & _ & _ & B & _).
  exists d'. auto.
Qed.

(** X9. An access emits a block annotation exactly when it is to the last
    register of a block whose other registers were just visited in order
    and, for date/time and the alarms, in the same direction; there is then
    one annotation, of the block's class, from the recorded start to the end
    of the current packet. *)
Theorem block_annotation_iff_due
  (b : Z) (rw : string) (d : Decoder)
  (Hreg : 0 <= reg d <= 0x12) (Hready : ready d) :
  exists d' l,
    handle_reg b rw d = inr (tt, d') /\ out d' = out d ++ l /\
    map (fun a => (a_cls a, a_ss a, a_es a)) (in_row RowBlockData l) =
      (if block_due (reg d) rw d
       then [(block_class (reg d), startreg d, es d)] else []).
Proof.
  apply reg_in_range_iff in Hreg.
  destruct (handle_reg_effect b rw d Hreg Hready)
    as (d' & l & E & O & _ & _ & D & _).
  exists d', l. auto.
Qed.

(** * Runs of accesses over one block *)

Lemma block_annotations_app l1 l2 :
  block_annotations (l1 ++ l2) = block_annotations l1 ++ block_annotations l2.
Proof.
  unfold block_annotations, in_row. rewrite filter_app, map_app. reflexivity.
Qed.

Lemma access_step b rw d :
  reg_in_range (reg d) = true -> ready d ->
  exists d1 l,
    handle_reg b rw d = inr (tt, d1) /\ ready d1 /\
    reg d1 = (if reg d =? 0x12 then 0 else reg d + 1) /\
    ss d1 = ss d /\ es d1 = es d /\
    out d1 = out d ++ l /\
    block_state d1 = block_step (reg d) rw d /\
    block_annotations l =
      (if block_due (reg d) rw d
       then [(block_class (reg d), startreg d, es d)] else []).
Proof.
  intros Hr Hd.
  destruct (handle_reg_effect b rw d Hr Hd)
    as (d1 & l & E & O & _ & B & D & _).
  destruct (handle_reg_frame b rw d tt d1 Hr E)
    as (R & _ & Bi & _ & _ & SS & ES & _ & Dy).
  exists d1, l. repeat split; try assumption.
  - rewrite Bi. apply Hd.
  - destruct Dy as [Dy | Dy]; [rewrite Dy; apply Hd | lia].
  - destruct Dy as [Dy | Dy]; [rewrite Dy; apply Hd | lia].
Qed.

Lemma handle_regs_cons b rw rest d d1 :
  handle_reg b rw d = inr (tt, d1) ->
  handle_regs ((b, rw) :: rest) d = handle_regs rest d1.
Proof. intros H. cbn [handle_regs]. unfold bind. rewrite H. reflexivity. Qed.

Lemma handle_regs_app l1 l2 d :
  handle_regs (l1 ++ l2) d =
  match handle_regs l1 d with
  | inl e => inl e
  | inr (_, d1) => handle_regs l2 d1
  end.
Proof.
  revert d. induction l1 as [ | [b rw] rest IH]; intros d.
  - reflexivity.
  - cbn [app handle_regs]. unfold bind.
    destruct (handle_reg b rw d) as [e | [u d1]]; [reflexivity | apply IH].
Qed.

Ltac small_cases k H :=
  destruct k as [ | p | p]; try discriminate H;
  repeat (destruct p as [p | p | ]; try discriminate H).

Lemma first_step b rw d :
  reg d = 0x00 \/ reg d = 0x07 \/ reg d = 0x0b -> ready d ->
  exists d1,
    handle_reg b rw d = inr (tt, d1) /\ in_block d d1 (reg d + 1) rw true.
Proof.
  intros Hf Hd.
  assert (Hr : reg_in_range (reg d) = true)
    by (destruct Hf as [-> | [-> | ->]]; reflexivity).
  destruct (access_step b rw d Hr Hd)
    as (d1 & l & E & Hd1 & R & SS & ES & O & B & D).
  exists d1. split; [exact E | ].
  unfold block_state in B.
  destruct Hf as [F | [F | F]]; rewrite F in *;
    cbn [block_step block_due Z.eqb Pos.eqb] in *;
    injection B as S I M;
    (constructor; try assumption;
     try (rewrite I; reflexivity); try (exists l; split; assumption)).

Qed.

Lemma middle_step b rw d0 d k rw0 ok :
  in_block d0 d k rw0 ok -> middle_register k = true ->
  exists d1,
    handle_reg b rw d = inr (tt, d1) /\
    in_block d0 d1 (k + 1) rw0 (ok && (rw0 =? rw)%string).
Proof.
  intros [R Hd SS ES S M I (l & O & D)] Hk.
  assert (Hr : reg_in_range (reg d) = true).
  { rewrite R. small_cases k Hk; reflexivity. }
  destruct (access_step b rw d Hr Hd)
    as (d1 & l1 & E1 & Hd1 & R1 & SS1 & ES1 & O1 & B1 & D1).
  exists d1. split; [exact E1 | ].
  unfold block_state in B1. rewrite R in R1, B1, D1.
  assert (Hstep : reg d1 = k + 1 /\
                  block_step k rw d =
                    (startreg d, next_inblock d (k - 1) k rw, blockmode d) /\
                  block_due k rw d = false).
  { small_cases k Hk; repeat split; assumption. }
  destruct Hstep as (R2 & B2 & D2).
  rewrite B2 in B1. rewrite D2 in D1. injection B1 as S1 I1 M1.
  constructor; try congruence.
  - unfold next_inblock in I1. rewrite I1, I, M.
    replace (k + 1 - 1) with k by lia.
    destruct ok; cbn [andb].
    + rewrite Z.eqb_refl. cbn [andb]. destruct (rw0 =? rw)%string; reflexivity.
    + replace (-1 =? k - 1) with false; [reflexivity | ].
      symmetry. apply Z.eqb_neq. small_cases k Hk; lia.
  - exists (l ++ l1). split.
    + rewrite O1, O, app_assoc. reflexivity.
    + rewrite block_annotations_app, D, D1. reflexivity.
Qed.

Lemma middle_run (accesses : list (Z * string)) :
  forall d0 d k rw0 ok,
    in_block d0 d k rw0 ok ->
    (forall j, k <= j < k + Z.of_nat (List.length accesses) ->
               middle_register j = true) ->
    exists d1,
      handle_regs accesses d = inr (tt, d1) /\
      in_block d0 d1 (k + Z.of_nat (List.length accesses)) rw0
        (ok && forallb (String.eqb rw0) (map snd accesses)).
Proof.
  induction accesses as [ | [b rw] rest IH]; intros d0 d k rw0 ok Hin Hmid.
  - exists d. split; [reflexivity | ].
    cbn [List.length Z.of_nat map forallb]. rewrite Z.add_0_r, andb_true_r.
    exact Hin.
  - assert (Hk : middle_register k = true).
    { apply Hmid. cbn [List.length]. lia. }
    destruct (middle_step b rw d0 d k rw0 ok Hin Hk) as (d1 & E1 & Hin1).
    destruct (IH d0 d1 (k + 1) rw0 _ Hin1) as (d2 & E2 & Hin2).
    { intros j Hj. apply Hmid. cbn [List.length]. lia. }
    exists d2. split.
    + rewrite (handle_regs_cons b rw rest d d1 E1). exact E2.
    + replace (k + Z.of_nat (List.length ((b, rw) :: rest)))
        with (k + 1 + Z.of_nat (List.length rest))
        by (cbn [List.length]; lia).
      cbn [map snd forallb]. rewrite andb_assoc. exact Hin2.
Qed.

Lemma last_step b rw d0 d k rw0 ok :
  in_block d0 d k rw0 ok -> k = 0x06 \/ k = 0x0a \/ k = 0x0d ->
  exists d1 l,
    handle_reg b rw d = inr (tt, d1) /\
    out d1 = out d0 ++ l /\
    block_annotations l =
      (if ok && (rw0 =? rw)%string
       then [(block_class k, ss d0, es d0)] else []) /\
    reg d1 = k + 1 /\ inblock d1 = -1.
Proof.
  intros [R Hd SS ES S M I (l & O & D)] Hk.
  assert (Hr : reg_in_range (reg d) = true).
  { rewrite R. destruct Hk as [-> | [-> | ->]]; reflexivity. }
  destruct (access_step b rw d Hr Hd)
    as (d1 & l1 & E1 & Hd1 & R1 & SS1 & ES1 & O1 & B1 & D1).
  exists d1, (l ++ l1). split; [exact E1 | ].
  unfold block_state in B1. rewrite R in R1, B1, D1.
  assert (Hdue : block_due k rw d = ok && (rw0 =? rw)%string).
  { destruct Hk as [-> | [-> | ->]]; cbn [block_due]; rewrite I, M;
      destruct ok; reflexivity. }
  rewrite Hdue in D1.
  split; [rewrite O1, O, app_assoc; reflexivity | ].
  split.
  - rewrite block_annotations_app, D, D1, S, ES. reflexivity.
  - destruct Hk as [-> | [-> | ->]]; cbn in R1, B1; injection B1 as _ I1 _;
      split; assumption.
Qed.

(** X10. For the date/time block and both alarm blocks: a run of accesses
    over all the registers of the block, from its first, emits the block
    annotation if and only if every access has the direction of the first;
    either way the pointer ends behind the block and the block is closed. *)
Theorem block_run_iff_same_direction
  (f t : Z) (b0 bl : Z) (rw0 rwl : string) (middle : list (Z * string))
  (d : Decoder)
  (Hblock : directed_block f t)
  (Hlen : Z.of_nat (List.length middle) = t - f - 1)
  (Hreg : reg d = f) (Hready : ready d) :
  exists d' l,
    handle_regs ((b0, rw0) :: middle ++ [(bl, rwl)]) d = inr (tt, d') /\
    out d' = out d ++ l /\
    block_annotations l =
      (if forallb (String.eqb rw0) (map snd middle ++ [rwl])
       then [(block_class t, ss d, es d)] else []) /\
    reg d' = t + 1 /\ inblock d' = -1.
Proof.
  destruct (first_step b0 rw0 d) as (d1 & E1 & Hin1); [ | exact Hready | ].
  { rewrite Hreg. destruct Hblock as [[-> _] | [[-> _] | [-> _]]]; auto. }
  rewrite Hreg in Hin1.
  destruct (middle_run middle d d1 (f + 1) rw0 true Hin1) as (d2 & E2 & Hin2).
  { intros j Hj. rewrite Hlen in Hj.
    destruct Hblock as [[-> ->] | [[-> ->] | [-> ->]]];
      assert (Hc : j = 1 \/ j = 2 \/ j = 3 \/ j = 4 \/ j = 5 \/ j = 8 \/
                   j = 9 \/ j = 12) by lia;
      repeat (destruct Hc as [-> | Hc]; [reflexivity | ]); subst; reflexivity. }
  rewrite Hlen in Hin2. replace (f + 1 + (t - f - 1)) with t in Hin2 by lia.
  destruct (last_step bl rwl d d2 t rw0 _ Hin2) as (d3 & l & E3 & O & D & R & I).
  { destruct Hblock as [[_ ->] | [[_ ->] | [_ ->]]]; auto. }
  exists d3, l. split.
  - rewrite (handle_regs_cons b0 rw0 _ d d1 E1), handle_regs_app, E2.
    rewrite (handle_regs_cons bl rwl [] d2 d3 E3). reflexivity.
  - split; [exact O | split; [ | split; assumption]].
    rewrite D. cbn [andb]. rewrite forallb_app. cbn [forallb].
    rewrite andb_true_r. reflexivity.
Qed.

(** * The temperature run *)

Lemma signed8_byte (b : Z) :
  0 <= b < 256 ->
  -128 <= signed8 b < 128 /\ (signed8 b) mod 256 = b /\
  (signed8 b < 0 <-> 128 <= b).
Proof.
  intros Hb. unfold signed8.
  destruct (Z.ltb_spec b 128) as [H | H].
  - rewrite Z.mod_small by lia. lia.
  - replace (b - 256) with (b + (-1) * 256) by lia.
    rewrite Z.mod_add by lia. rewrite Z.mod_small by lia. lia.
Qed.

Lemma temp_theta_signed (m l : Z) :
  0 <= m < 256 -> 0 <= l < 256 ->
  temp_theta m (Z.shiftr l 6) = 4 * signed8 m + l / 64.
Proof.
  intros Hm Hl. unfold temp_theta, signed8.
  rewrite Z.shiftl_mul_pow2, Z.shiftr_div_pow2 by lia.
  change (2 ^ 2) with 4. change (2 ^ 6) with 64.
  assert (Hq : 0 <= l / 64 < 4).
  { split; [apply Z.div_pos; lia | apply Z.div_lt_upper_bound; lia]. }
  rewrite Z.geb_leb.
  destruct (Z.leb_spec 512 (m * 4 + l / 64));
    destruct (Z.ltb_spec m 128); lia.
Qed.

Lemma temperature_msb_effect b rw d :
  ready d ->
  exists d1 l,
    handle_reg_0x11 b rw d = inr (tt, d1) /\ out d1 = out d ++ l /\
    tempMSB d1 = b /\ inblock d1 = 0x11 /\ startreg d1 = ss d /\
    bits d1 = bits d /\ days d1 = days d /\ es d1 = es d /\ reg d1 = reg d /\
    map (fun a => hd "" (a_texts a)) (of_class BIT_TMSB l) =
      [("tempMSB: " ++ fmt_d (signed8 b))%string] /\
    in_row RowBlockData l = [].
Proof.
  intros Hready. open_ready Hready E.
  unfold handle_reg_0x11. repeat run_step E. run_last.
  do 2 eexists. split; [reflexivity | ].
  fields. rewrite <- ?app_assoc. cbn [app].
  split; [reflexivity | ]. repeat split.
Qed.

Lemma temperature_lsb_effect b rw d :
  ready d -> inblock d = 0x11 ->
  exists d1 l,
    handle_reg_0x12 b rw d = inr (tt, d1) /\ out d1 = out d ++ l /\
    inblock d1 = -1 /\ reg d1 = reg d /\ of_class BIT_TMSB l = [] /\
    in_row RowBlockData l =
      [mkAnnotation (startreg d) (es d) BLOCK_TEMPERATURE
         [(rw ++ " block data: Temperature: " ++
           fmt_2f_quarters (temp_theta (tempMSB d) (Z.shiftr b 6)))%string]].
Proof.
  intros Hready Hi. open_ready Hready E.
  unfold handle_reg_0x12, putr_each.
  repeat run_step E. rewrite Hi. change (17 =? 17) with true. cbv iota.
  repeat run_step E. run_last.
  do 2 eexists. split; [reflexivity | ].
  fields. rewrite <- ?app_assoc. cbn [app].
  split; [reflexivity | ]. repeat split.
Qed.

Lemma in_row_app r l1 l2 : in_row r (l1 ++ l2) = in_row r l1 ++ in_row r l2.
Proof. unfold in_row. apply filter_app. Qed.

(** X11. The two temperature registers accessed in a row, in any directions,
    emit one temperature block whose value is the signed MSB shown at 0x11
    plus the quarters of the LSB; the pointer wraps to 0x00. *)
Theorem temperature_run_any_direction
  (m l : Z) (rw1 rw2 : string) (d : Decoder)
  (Hm : 0 <= m < 256) (Hl : 0 <= l < 256)
  (Hreg : reg d = 0x11) (Hready : ready d) :
  exists d' out',
    handle_regs [(m, rw1); (l, rw2)] d = inr (tt, d') /\
    out d' = out d ++ out' /\
    in_row RowBlockData out' =
      [mkAnnotation (ss d) (es d) BLOCK_TEMPERATURE
         [(rw2 ++ " block data: Temperature: " ++
           fmt_2f_quarters (4 * signed8 m + l / 64))%string]] /\
    map (fun a => hd "" (a_texts a)) (of_class BIT_TMSB out') =
      [("tempMSB: " ++ fmt_d (signed8 m))%string] /\
    reg d' = 0x00 /\ inblock d' = -1.
Proof.
  destruct (temperature_msb_effect m rw1 d Hready)
    as (d1 & l1 & E1 & O1 & T1 & I1 & S1 & B1 & D1 & ES1 & R1 & X1 & N1).
  assert (Hr : reg_in_range (reg d) = true) by (rewrite Hreg; reflexivity).
  assert (H1 : handle_reg m rw1 d = inr (tt, bump d1)).
  { rewrite (handle_reg_in_range m rw1 d Hr handle_reg_0x11)
      by (rewrite Hreg; reflexivity).
    rewrite E1. reflexivity. }
  assert (Hb : bump d1 = set_reg 0x12 d1).
  { unfold bump. cbn. rewrite R1, Hreg. reflexivity. }
  rewrite Hb in H1.
  assert (Hready2 : ready (set_reg 0x12 d1)).
  { destruct Hready as [Hbits Hdays]. split; cbn.
    - rewrite B1. exact Hbits.
    - rewrite D1. exact Hdays. }
  destruct (temperature_lsb_effect l rw2 (set_reg 0x12 d1) Hready2 I1)
    as (d2 & l2 & E2 & O2 & I2 & R2 & T2 & X2).
  assert (H2 : handle_reg l rw2 (set_reg 0x12 d1) = inr (tt, bump d2)).
  { rewrite (handle_reg_in_range l rw2 (set_reg 0x12 d1) eq_refl
               handle_reg_0x12 eq_refl).
    rewrite E2. reflexivity. }
  exists (bump d2), (l1 ++ l2). split.
  - rewrite (handle_regs_cons m rw1 _ d _ H1).
    rewrite (handle_regs_cons l rw2 [] _ _ H2). reflexivity.
  - assert (Hreg2 : reg d2 = 0x12) by (rewrite R2; reflexivity).
    unfold bump. cbn. rewrite Hreg2. cbn.
    split; [rewrite O2; cbn; rewrite O1, app_assoc; reflexivity | ].
    split.
    + rewrite in_row_app, N1, X2. cbn [app startreg es tempMSB set_reg].
      rewrite S1, ES1, T1.
      rewrite temp_theta_signed by assumption. reflexivity.
    + split; [ | split; [reflexivity | exact I2]].
      unfold of_class in *. rewrite filter_app, map_app, X1, T2. reflexivity.
Qed.

Lemma temperature_run_any_direction_witness :
  let d := set_reg 0x11 (set_bits (eight_bits 0) (init default_options)) in
  0 <= 0xFF < 256 /\ 0 <= 0xC0 < 256 /\ reg d = 0x11 /\ ready d /\
  exists d' out',
    handle_regs [(0xFF, "Wrote"); (0xC0, "Read")] d = inr (tt, d') /\
    out d' = out d ++ out' /\
    in_row RowBlockData out' =
      [mkAnnotation (ss d) (es d) BLOCK_TEMPERATURE
         ["Read block data: Temperature: -0.25"%string]] /\
    map (fun a => hd ""%string (a_texts a)) (of_class BIT_TMSB out') =
      ["tempMSB: -1"%string] /\
    reg d' = 0x00 /\ inblock d' = -1.
Proof.
  intros d.
  assert (Hm : 0 <= 0xFF < 256) by lia.
  assert (Hl : 0 <= 0xC0 < 256) by lia.
  assert (Hreg : reg d = 0x11) by reflexivity.
  assert (Hready : ready d) by (split; cbn; lia).
  split; [exact Hm | split; [exact Hl | split; [exact Hreg | split;
    [exact Hready | ]]]].
  exact (temperature_run_any_direction 0xFF 0xC0 "Wrote" "Read" d
           Hm Hl Hreg Hready).
Defined.

(** * The aging offset *)

(** X12. The aging offset register renders its byte as a signed 8-bit
    two's complement number, negative exactly from 0x80, and touches neither
    the block state nor a cached field. *)
Theorem aging_offset_twos_complement
  (b : Z) (rw : string) (d : Decoder)
  (Hb : 0 <= b < 256) (Hready : ready d) :
  exists d' l ao,
    handle_reg_0x10 b rw d = inr (tt, d') /\ out d' = out d ++ l /\
    map a_texts (of_class BIT_AOFS l) =
      [[("Offset: " ++ fmt_d ao)%string; ("Ofs: " ++ fmt_d ao)%string;
        ("O: " ++ fmt_d ao)%string; "O"%string]] /\
    -128 <= ao < 128 /\ ao mod 256 = b /\ (ao < 0 <-> 128 <= b) /\
    block_state d' = block_state d /\ cached_fields d' = cached_fields d.
Proof.
  open_ready Hready E.
  unfold handle_reg_0x10. repeat run_step E.
  erewrite run_putd by (bits_lookup E).
  do 2 eexists. exists (signed8 b). split; [reflexivity | ].
  fields. rewrite <- ?app_assoc. cbn [app].
  split; [reflexivity | ].
  split; [reflexivity | ].
  destruct (signed8_byte b Hb) as (H1 & H2 & H3).
  repeat split; first [assumption | apply H1 | apply H3].
Qed.

Lemma aging_offset_twos_complement_witness :
  let d := set_bits (eight_bits 0) (init default_options) in
  0 <= 0xFE < 256 /\ ready d /\
  exists d' l ao,
    handle_reg_0x10 0xFE "Read" d = inr (tt, d') /\ out d' = out d ++ l /\
    map a_texts (of_class BIT_AOFS l) =
      [[("Offset: " ++ fmt_d ao)%string; ("Ofs: " ++ fmt_d ao)%string;
        ("O: " ++ fmt_d ao)%string; "O"%string]] /\
    -128 <= ao < 128 /\ ao mod 256 = 0xFE /\ (ao < 0 <-> 128 <= 0xFE) /\
    block_state d' = block_state d /\ cached_fields d' = cached_fields d.
Proof.
  intros d.
  assert (Hb : 0 <= 0xFE < 256) by lia.
  assert (Hready : ready d) by (split; cbn; lia).
  split; [exact Hb | split; [exact Hready | ]].
  exact (aging_offset_twos_complement 0xFE "Read" d Hb Hready).
Defined.

(** * The alarm 2 mode ladder *)

(** X13. The alarm 2 ladder returns a text for each of the eight
    combinations of (A2M2, A2M3, A2M4): every minute, every hour, every day,
    day or date for the four documented ones, the invalid-setting label for
    the other four. *)
Theorem alarm2_mode_table
  (self d : Decoder) (m2 m3 m4 : bool) (a2dydt da : Z) (ws : option string)
  (H2 : a2m2 self = Z.b2z m2) (H3 : a2m3 self = Z.b2z m3)
  (Hws : a2dydt = 1 -> exists s, ws = Some s) :
  (exists txt,
     alarm2_setting self (Z.b2z m4) a2dydt ws da d = inr (txt, d) /\
     txt =
       (let hh := fmt_02d (al2hours self) in
        let mm := fmt_02d (al2minutes self) in
        match m2, m3, m4 with
        | true, true, true => "every minute"
        | false, true, true => "every hour, minute=" ++ mm
        | false, false, true =>
            "every day, hh:mm=" ++ hh ++ ":" ++ mm ++ fmt_s (a2ampm self)
        | false, false, false =>
            "every " ++
            match (a2dydt =? 1)%Z, ws with
            | true, Some s => s
            | _, _ => fmt_d da ++ ". of month"
            end ++ ", hh:mm=" ++ hh ++ ":" ++ mm
        | _, _, _ => "invalid setting"
        end)%string) /\
  List.length alarm2_modes = 8%nat /\
  List.length (filter alarm2_invalid alarm2_modes) = 4%nat.
Proof.
  split; [ | split; vm_compute; reflexivity].
  unfold alarm2_setting. rewrite H2, H3.
  destruct m2, m3, m4; cbn [tup3_eqb Z.b2z Z.eqb andb];
    try (eexists; split; reflexivity).
  destruct (a2dydt =? 1) eqn:E.
  - apply Z.eqb_eq in E. destruct (Hws E) as [s ->].
    eexists; split; reflexivity.
  - eexists; split; reflexivity.
Qed.

Lemma alarm2_mode_table_witness :
  let self :=
    set_al2minutes 45 (set_al2hours 7 (set_a2ampm (PyStr "PM")
      (set_a2m3 0 (set_a2m2 0 (init default_options))))) in
  exists txt,
    alarm2_setting self 1 0 None 5 self = inr (txt, self) /\
    txt = "every day, hh:mm=07:45PM"%string.
Proof.
  intros self.
  assert (Hws : 0 = 1 -> exists s : string, @None string = Some s)
    by (intros X; discriminate X).
  exact (proj1 (alarm2_mode_table self self false false true 0 5 None
                  eq_refl eq_refl Hws)).
Defined.

(** * The control register and the chip subtype *)

(** X14. The control register decodes bits 4 and 3 by the chip subtype: for
    SN one rate annotation with the rate of the table, and no reserved bit;
    for M two reserved bits and no rate annotation.  It never fails on the
    table lookup. *)
Theorem control_rate_bits_by_subtype
  (b : Z) (rw : string) (d : Decoder) (Hready : ready d) :
  exists d' l,
    handle_reg_0x0e b rw d = inr (tt, d') /\ out d' = out d ++ l /\
    match subtype (options d) with
    | SN =>
        (exists r, rates (Z.land (Z.shiftr b 3) 0x03) = Some r /\
                   map (fun a => hd ""%string (a_texts a))
                       (of_class BIT_RATE l) =
                     [("Square wave output rate: " ++ r)%string]) /\
        of_class BIT_RESERVED l = []
    | M =>
        of_class BIT_RATE l = [] /\
        List.length (of_class BIT_RESERVED l) = 2%nat
    end /\
    block_state d' = block_state d /\ cached_fields d' = cached_fields d.
Proof.
  open_ready Hready E.
  destruct (rates_total b) as [r Er].
  unfold handle_reg_0x0e, bit_of.
  repeat run_step E.
  destruct (subtype (options d)) eqn:Es;
    repeat first
      [ run_step E
      | erewrite (bind_inr (lift KeyError _)) by (apply run_lift; exact Er) ];
    erewrite run_putd by (bits_lookup E);
    (do 2 eexists; split; [reflexivity | ]);
    fields; rewrite <- ?app_assoc; cbn [app];
    (split; [reflexivity | ]); repeat split.
  exists r. split; [exact Er | reflexivity].
Qed.

Lemma control_rate_bits_by_subtype_witness :
  let d := set_bits (eight_bits 0) (init default_options) in
  ready d /\
  exists d' l,
    handle_reg_0x0e 0x18 "Wrote" d = inr (tt, d') /\ out d' = out d ++ l /\
    ((exists r, rates (Z.land (Z.shiftr 0x18 3) 0x03) = Some r /\
                map (fun a => hd ""%string (a_texts a))
                    (of_class BIT_RATE l) =
                  [("Square wave output rate: " ++ r)%string]) /\
     of_class BIT_RESERVED l = []) /\
    block_state d' = block_state d /\ cached_fields d' = cached_fields d.
Proof.
  intros d.
  assert (Hready : ready d) by (split; cbn; lia).
  split; [exact Hready | ].
  exact (control_rate_bits_by_subtype 0x18 "Wrote" d Hready).
Defined.

(** * The three hours registers *)

(** X15. The clock hours register and both alarm hours registers decode a
    byte alike: bit 6 chooses the 12-hour mode, where bit 5 is PM and bits 4
    to 0 are the hour, over the 24-hour mode, where bits 5 to 0 are the
    hour. *)
Theorem hours_registers_agree
  (b : Z) (rw : string) (d : Decoder) (Hready : ready d) :
  let meridiem :=
    PyStr (if bit_set b 6 then (if bit_set b 5 then "PM" else "AM") else "") in
  let hour := bcd2int (Z.land b (if bit_set b 6 then 0x1f else 0x3f)) in
  exists d1 d2 d3,
    handle_reg_0x02 b rw d = inr (tt, d1) /\
    handle_reg_0x09 b rw d = inr (tt, d2) /\
    handle_reg_0x0c b rw d = inr (tt, d3) /\
    (ampm d1, hours d1) = (meridiem, hour) /\
    (a1ampm d2, al1hours d2) = (meridiem, hour) /\
    (a2ampm d3, al2hours d3) = (meridiem, hour).
Proof.
  open_ready Hready E.
  unfold handle_reg_0x02, handle_reg_0x09, handle_reg_0x0c, bit_of.
  destruct (bit_set b 6); destruct (bit_set b 5); cbv zeta;
    repeat run_step E; run_last;
    (do 3 eexists; repeat split; reflexivity).
Qed.

Lemma hours_registers_agree_witness :
  let d := set_bits (eight_bits 0) (init default_options) in
  ready d /\
  exists d1 d2 d3,
    handle_reg_0x02 0x72 "Read" d = inr (tt, d1) /\
    handle_reg_0x09 0x72 "Read" d = inr (tt, d2) /\
    handle_reg_0x0c 0x72 "Read" d = inr (tt, d3) /\
    (ampm d1, hours d1) = (PyStr "PM", 12) /\
    (a1ampm d2, al1hours d2) = (PyStr "PM", 12) /\
    (a2ampm d3, al2hours d3) = (PyStr "PM", 12).
Proof.
  intros d.
  assert (Hready : ready d) by (split; cbn; lia).
  split; [exact Hready | ].
  exact (hours_registers_agree 0x72 "Read" d Hready).
Defined.

(** * The annotation tables *)

Lemma lower_upper_char c : lower_char (upper_char c) = lower_char c.
Proof.
  destruct c as [[|] [|] [|] [|] [|] [|] [|] [|]]; reflexivity.
Qed.

Lemma lower_upper s : lower (upper s) = lower s.
Proof.
  induction s as [ | c s IH]; [reflexivity | ].
  cbn [upper lower map_chars]. rewrite lower_upper_char.
  f_equal. exact IH.
Qed.

Lemma lower_app s t : lower (s ++ t)%string = (lower s ++ lower t)%string.
Proof.
  induction s as [ | c s IH]; [reflexivity | ].
  cbn [String.append lower map_chars]. f_equal. exact IH.
Qed.

Lemma sub_slash_space_clean s c :
  In c (list_ascii_of_string (sub_slash_space s)) -> c <> "/"%char /\ c <> " "%char.
Proof.
  induction s as [ | x s IH]; cbn; [intros [] | ].
  intros [H | H]; [ | apply IH; exact H].
  subst c.
  destruct (Ascii.eqb_spec x "/") as [-> | N1]; cbn; [split; discriminate | ].
  destruct (Ascii.eqb_spec x " ") as [-> | N2]; cbn; [split; discriminate | ].
  split; assumption.
Qed.

Lemma list_ascii_app s t :
  list_ascii_of_string (s ++ t)%string =
  list_ascii_of_string s ++ list_ascii_of_string t.
Proof.
  induction s as [ | c s IH]; [reflexivity | ].
  cbn [String.append list_ascii_of_string app]. f_equal. exact IH.
Qed.

Lemma lower_char_clean c :
  c <> "/"%char -> c <> " "%char ->
  lower_char c <> "/"%char /\ lower_char c <> " "%char.
Proof.
  intros H1 H2.
  destruct c as [[|] [|] [|] [|] [|] [|] [|] [|]];
    split; first [discriminate | assumption].
Qed.

Lemma lower_clean s c :
  (forall x, In x (list_ascii_of_string s) -> x <> "/"%char /\ x <> " "%char) ->
  In c (list_ascii_of_string (lower s)) -> c <> "/"%char /\ c <> " "%char.
Proof.
  induction s as [ | x s IH]; cbn; [intros _ [] | ].
  intros Hs [H | H].
  - subst c. destruct (Hs x (or_introl eq_refl)) as [H1 H2].
    apply lower_char_clean; assumption.
  - apply IH; [ | exact H]. intros y Hy. apply Hs. right. exact Hy.
Qed.

(** An id: a clean prefix, then a table entry, substituted and lowered. *)
Lemma id_clean (pre r : string) c :
  (forall x, In x (list_ascii_of_string pre) -> x <> "/"%char /\ x <> " "%char) ->
  In c (list_ascii_of_string (pre ++ lower (sub_slash_space r))%string) ->
  c <> "/"%char /\ c <> " "%char.
Proof.
  intros Hpre H. rewrite list_ascii_app in H. apply in_app_or in H.
  destruct H as [H | H]; [apply Hpre; exact H | ].
  apply (lower_clean (sub_slash_space r)); [ | exact H].
  intros x Hx. apply (sub_slash_space_clean r). exact Hx.
Qed.

Ltac literal_clean :=
  let x := fresh "x" in
  let Hx := fresh "Hx" in
  intros x Hx; cbn in Hx;
  repeat (destruct Hx as [<- | Hx]; [split; discriminate | ]);
  destruct Hx.

(** X16. The annotation ids and the names of the annotation classes are
    built alike: for any tables of ASCII text the i-th id is the i-th class
    name in lower case, and no id contains a slash or a space; for the
    tables of the module there are 59 classes with distinct names and ids,
    the register classes come first, in address order, and a class is
    displayed in the row its name's prefix says. *)
Theorem annotation_ids_follow_enum_names (rs bs bls : list string)
  (Hascii : forallb ascii_text (rs ++ bs ++ bls) = true) :
  map fst (annotations_of rs bs bls) = map lower (enum_names_of rs bs bls) /\
  (forall id c,
     In id (map fst (annotations_of rs bs bls)) ->
     In c (list_ascii_of_string id) -> c <> "/"%char /\ c <> " "%char) /\
  forallb ascii_text (regs ++ bit_names ++ blocks) = true /\
  List.length a = 59%nat /\ NoDup a /\ NoDup (map fst annotations) /\
  (forall c : Ann,
     exists n, nth_error a (Z.to_nat (Ann_value c)) = Some n /\
               ann_row c = row_of_name n) /\
  (forall r, (r < List.length regs)%nat ->
     exists n, nth_error a r = Some n /\ String.prefix "REG_" n = true).
Proof.
  split; [ | split; [ | split; [reflexivity | split; [reflexivity | split;
    [ | split; [ | split]]]]]].
  - unfold annotations_of, regs_and_bits_and_blocks_of, enum_names_of.
    rewrite !map_app, !map_map. cbn [map fst].
    assert (H : forall p q, lower p = q ->
              forall l, map (fun x : string => q ++ lower (sub_slash_space x))%string l =
                        map (fun x : string => lower (p ++ upper (sub_slash_space x)))%string l).
    { intros p q Hpq l. apply map_ext. intros x.
      rewrite lower_app, lower_upper, Hpq. reflexivity. }
    rewrite <- (H "REG_" "reg_" eq_refl rs), <- (H "BIT_" "bit_" eq_refl bs),
      <- (H "BLOCK_" "block_" eq_refl bls).
    rewrite <- !app_assoc. reflexivity.
  - intros id c Hid Hc.
    unfold annotations_of, regs_and_bits_and_blocks_of in Hid.
    rewrite !map_app, !map_map in Hid. cbn [map fst] in Hid.
    repeat (apply in_app_or in Hid; destruct Hid as [Hid | Hid]).
    + apply in_map_iff in Hid. destruct Hid as [r [<- _]].
      apply (id_clean "reg_" r c); [literal_clean | exact Hc].
    + apply in_map_iff in Hid. destruct Hid as [r [<- _]].
      apply (id_clean "bit_" r c); [literal_clean | exact Hc].
    + apply in_map_iff in Hid. destruct Hid as [r [<- _]].
      apply (id_clean "block_" r c); [literal_clean | exact Hc].
    + destruct Hid as [<- | []]. revert c Hc. literal_clean.
  - assert (H : nodup string_dec a = a) by (vm_compute; reflexivity).
    rewrite <- H. apply NoDup_nodup.
  - assert (H : nodup string_dec (map fst annotations) = map fst annotations)
      by (vm_compute; reflexivity).
    rewrite <- H. apply NoDup_nodup.
  - intros c. destruct c; eexists; split; vm_compute; reflexivity.
  - intros r Hr. cbn in Hr.
    do 19 (destruct r as [ | r];
           [eexists; split; vm_compute; reflexivity | ]).
    lia.
Qed.

Lemma annotation_ids_follow_enum_names_witness :
  forallb ascii_text (regs ++ bit_names ++ blocks) = true /\
  map fst annotations = map lower a /\
  nth_error (map fst annotations) 10 = Some "reg_alarm1_day_date"%string /\
  nth_error a 10 = Some "REG_ALARM1_DAY_DATE"%string.
Proof.
  assert (Hascii : forallb ascii_text (regs ++ bit_names ++ blocks) = true)
    by (vm_compute; reflexivity).
  split; [exact Hascii | split; [ | split; reflexivity]].
  exact (proj1 (annotation_ids_follow_enum_names regs bit_names blocks Hascii)).
Defined.

Lemma one_register_annotation_per_access_witness :
  let d := set_reg 0x0f (set_bits (eight_bits 40) (init default_options)) in
  0 <= reg d <= 0x12 /\ ready d /\
  exists d' l,
    handle_reg 0x88 "Read" d = inr (tt, d') /\ out d' = out d ++ l /\
    map (fun a => (Ann_value (a_cls a), a_ss a, a_es a)) (in_row RowRegs l) =
      [(0x0f, 40, 48)] /\
    in_row RowWarnings l = [].
Proof.
  intros d.
  assert (Hreg : 0 <= reg d <= 0x12) by (cbn; lia).
  assert (Hready : ready d) by (split; cbn; lia).
  split; [exact Hreg | split; [exact Hready | ]].
  exact (one_register_annotation_per_access 0x88 "Read" d Hreg Hready).
Defined.

Lemma block_state_follows_register_witness :
  let d := set_blockmode "Wrote" (set_inblock 2 (set_reg 0x03
             (set_bits (eight_bits 40) (init default_options)))) in
  0 <= reg d <= 0x12 /\ ready d /\
  exists d',
    handle_reg 0x05 "Wrote" d = inr (tt, d') /\
    block_state d' = (startreg d, 3, "Wrote"%string).
Proof.
  intros d.
  assert (Hreg : 0 <= reg d <= 0x12) by (cbn; lia).
  assert (Hready : ready d) by (split; cbn; lia).
  split; [exact Hreg | split; [exact Hready | ]].
  exact (block_state_follows_register 0x05 "Wrote" d Hreg Hready).
Defined.

Lemma block_annotation_iff_due_witness :
  let d := set_blockmode "Wrote" (set_inblock 0x0c (set_reg 0x0d
             (set_a2m3 1 (set_a2m2 1
                (set_bits (eight_bits 40) (init default_options)))))) in
  0 <= reg d <= 0x12 /\ ready d /\
  exists d' l,
    handle_reg 0x80 "Wrote" d = inr (tt, d') /\ out d' = out d ++ l /\
    map (fun a => (a_cls a, a_ss a, a_es a)) (in_row RowBlockData l) =
      [(BLOCK_ALARM2, startreg d, es d)].
Proof.
  intros d.
  assert (Hreg : 0 <= reg d <= 0x12) by (cbn; lia).
  assert (Hready : ready d) by (split; cbn; lia).
  split; [exact Hreg | split; [exact Hready | ]].
  exact (block_annotation_iff_due 0x80 "Wrote" d Hreg Hready).
Defined.

Lemma block_run_iff_same_direction_witness :
  let d := set_reg 0x07 (set_bits (eight_bits 40) (init default_options)) in
  let middle := [(0x45, "Read"%string); (0x12, "Wrote"%string)] in
  directed_block 0x07 0x0a /\
  Z.of_nat (List.length middle) = 0x0a - 0x07 - 1 /\
  reg d = 0x07 /\ ready d /\
  exists d' l,
    handle_regs ((0x30, "Read"%string) :: middle ++ [(0x81, "Read"%string)]) d =
      inr (tt, d') /\
    out d' = out d ++ l /\
    block_annotations l = [] /\
    reg d' = 0x0b /\ inblock d' = -1.
Proof.
  intros d middle.
  assert (Hblock : directed_block 0x07 0x0a) by (right; left; split; reflexivity).
  assert (Hlen : Z.of_nat (List.length middle) = 0x0a - 0x07 - 1) by reflexivity.
  assert (Hreg : reg d = 0x07) by reflexivity.
  assert (Hready : ready d) by (split; cbn; lia).
  split; [exact Hblock | split; [exact Hlen | split; [exact Hreg | split;
    [exact Hready | ]]]].
  exact (block_run_iff_same_direction 0x07 0x0a 0x30 0x81 "Read" "Read"
           middle d Hblock Hlen Hreg Hready).
Defined.

(** * Two more facts about sessions and the alarm 1 block *)

Lemma session_days_in_range_witness :
  let trace := standard write_date_time in
  let d := match session default_options trace with
           | inr d => d
           | inl _ => init default_options
           end in
  session default_options trace = inr d /\ -6 <= days d <= 7 /\ days d = 3.
Proof.
  intros trace d.
  assert (Hrun : session default_options trace = inr d)
    by (vm_compute; reflexivity).
  split; [exact Hrun | split; [ | reflexivity]].
  exact (session_days_in_range default_options trace d Hrun).
Defined.

Lemma alarm1_block_text_witness :
  let d := set_blockmode "Wrote" (set_inblock 9 (set_reg 0x0a
             (set_al1seconds 30 (set_al1minutes 45 (set_al1hours 12
                (set_a1ampm (PyStr "")
                   (set_a1m3 0 (set_a1m2 0 (set_a1m1 0
                      (set_bits (eight_bits 40)
                         (init default_options))))))))))) in
  ready d /\ inblock d = 9 /\ blockmode d = "Wrote"%string /\
  exists d' l txt,
    handle_reg_0x0a 0x43 "Wrote" d = inr (tt, d') /\
    out d' = out d ++ l /\
    alarm1_setting d 0 1 (Some "Wednesday"%string) 3 d = inr (txt, d) /\
    in_row RowBlockData l =
      [mkAnnotation (startreg d) (es d) BLOCK_ALARM1
         [("Wrote" ++ " Alarm1: " ++ txt)%string]].
Proof.
  intros d.
  assert (Hready : ready d) by (split; cbn; lia).
  split; [exact Hready | split; [reflexivity | split; [reflexivity | ]]].
  exact (alarm1_block_text 0x43 "Wrote" d Hready eq_refl eq_refl).
Defined.
